(** * Weekly low-lecture compliance engine

    A shallow embedding of the lecture routes (src/unnamed/part_001):
    [checkLowLectureMembers], the lecture submission handler
    [router.post('/')], the on-demand handler
    [router.get('/low-lecture-members')] and the routes around them, with
    the properties of the specification stated and settled about them.

    Conventions of the embedding.
    - A string is the sequence of the bytes of its UTF-8 encoding, as
      MongoDB stores it. [trim] removes the white space and the line
      terminators of ECMAScript; [toLowerCase] is a function of the
      JavaScript engine ([Engine]), which the development leaves open.
    - A JavaScript [Date] is its time value, the milliseconds since the
      epoch. [getDay], [setDate] and [setHours] work on the local fields
      of the time zone of the process (src/unnamed/part_000 sets
      [process.env.TZ = 'Africa/Cairo']): the two conversions [LocalTime]
      and [UTC] of ECMAScript are functions of the engine as well.
    - One handler invocation reads the clock once ([now]).
    - Mongoose array paths are always arrays on a loaded document, so
      [students], [subjects] and [lectures] are lists and the
      [Array.isArray] guards of the source reduce to the emptiness tests.
    - A collection is the list of its documents in natural order.
    - A request body is what [express.json()] parsed: the values the
      submission handler reads from it are JSON values, not only
      strings.
    - Every awaited call may fail: [faults n] is the error the [n]-th
      awaited call of a request throws, if any. A call that fails has no
      effect.
    - A call made with the session of a handler reads and writes the
      view of the session's transaction, which becomes the committed
      documents at [commitTransaction] and is dropped at
      [abortTransaction]; a call made without it reads and writes the
      committed documents. *)

From Stdlib Require Import ZArith List String Ascii Bool Arith Lia.
From Stdlib Require Import Permutation Sorted.
Import ListNotations.
Local Open Scope string_scope.
Local Open Scope list_scope.
Local Open Scope Z_scope.

(* ===================================================================== *)
(** ** The JavaScript engine *)
(* ===================================================================== *)

(** What the handlers take from the engine they run on.
    - [toLowerCase s] is [s.toLowerCase()], the lower-case conversion of
      Unicode.
    - [localTime t] is [LocalTime(t)], the local time value of the time
      value [t] in the time zone of the process; [utc l] is [UTC(l)], the
      time value of the local time value [l]. *)
Class Engine : Type := {
  toLowerCase : string -> string;
  localTime : Z -> Z;
  utc : Z -> Z }.

(* ===================================================================== *)
(** ** Strings *)
(* ===================================================================== *)

Module Str.

Definition ofBytes (l : list Z) : string :=
  string_of_list_ascii (map (fun b => ascii_of_nat (Z.to_nat b)) l).

(** The code points [String.prototype.trim] removes, in UTF-8: the
    [WhiteSpace] and [LineTerminator] productions of ECMAScript, that is
    TAB, LF, VT, FF, CR, the space separators of Unicode (U+0020, U+00A0,
    U+1680, U+2000 to U+200A, U+202F, U+205F, U+3000), the two separators
    U+2028 and U+2029, and U+FEFF. *)
Definition whiteSpace : list string :=
  [ ofBytes [9]; ofBytes [10]; ofBytes [11]; ofBytes [12]; ofBytes [13];
    ofBytes [32];
    ofBytes [194; 160];
    ofBytes [225; 154; 128];
    ofBytes [226; 128; 128]; ofBytes [226; 128; 129];
    ofBytes [226; 128; 130]; ofBytes [226; 128; 131];
    ofBytes [226; 128; 132]; ofBytes [226; 128; 133];
    ofBytes [226; 128; 134]; ofBytes [226; 128; 135];
    ofBytes [226; 128; 136]; ofBytes [226; 128; 137];
    ofBytes [226; 128; 138];
    ofBytes [226; 128; 168]; ofBytes [226; 128; 169];
    ofBytes [226; 128; 175];
    ofBytes [226; 129; 159];
    ofBytes [227; 128; 128];
    ofBytes [239; 187; 191] ].

Fixpoint drop (n : nat) (s : string) : string :=
  match n, s with
  | S m, String _ r => drop m r
  | _, _ => s
  end.

Definition reverse (s : string) : string :=
  string_of_list_ascii (rev (list_ascii_of_string s)).

(** [s] without the pattern it starts with, if it starts with one. *)
Definition stripOne (patterns : list string) (s : string) : option string :=
  match find (fun w => String.prefix w s) patterns with
  | Some w => Some (drop (String.length w) s)
  | None => None
  end.

(** At most [fuel] patterns are removed from the start of [s]. *)
Fixpoint stripAll (patterns : list string) (fuel : nat) (s : string)
  : string :=
  match fuel with
  | O => s
  | S fuel' =>
      match stripOne patterns s with
      | Some r => stripAll patterns fuel' r
      | None => s
      end
  end.

(** [String.prototype.trimStart] and [trimEnd]: a string has no more
    white space characters than bytes. *)
Definition trimStart (s : string) : string :=
  stripAll whiteSpace (String.length s) s.

Definition trimEnd (s : string) : string :=
  reverse (stripAll (map reverse whiteSpace) (String.length s) (reverse s)).

(** [String.prototype.trim] *)
Definition trim (s : string) : string := trimStart (trimEnd s).

(** Truthiness of a string value: only the empty string is falsy. *)
Definition truthy (s : string) : bool :=
  match s with EmptyString => false | _ => true end.

(** [a || b] on strings. *)
Definition orElse (a b : string) : string := if truthy a then a else b.

(** The lower-case conversion on strings whose cased letters are the
    letters A to Z: the engine of the samples. *)
Definition lowerChar (c : ascii) : ascii :=
  let n := nat_of_ascii c in
  if ((65 <=? n) && (n <=? 90))%nat then ascii_of_nat (n + 32) else c.

Fixpoint lowerAscii (s : string) : string :=
  match s with
  | EmptyString => EmptyString
  | String c r => String (lowerChar c) (lowerAscii r)
  end.

End Str.

(* ===================================================================== *)
(** ** Dates and the week window *)
(* ===================================================================== *)

Definition Date := Z.

Module JsDate.

Definition msPerDay : Z := 86400000.

(** [Day(t)] and [TimeWithinDay(t)] of a time value or of a local time
    value. *)
Definition day (t : Z) : Z := t / msPerDay.
Definition timeWithinDay (t : Z) : Z := t mod msPerDay.

(** [WeekDay(t)]: 0 = Sunday ... 6 = Saturday; day 0 of the epoch was a
    Thursday. *)
Definition weekDay (t : Z) : Z := (day t + 4) mod 7.

(** [MakeTime(h, m, s, ms)] *)
Definition makeTime (h m s ms : Z) : Z := ((h * 60 + m) * 60 + s) * 1000 + ms.

(** [Date.prototype.getDay]: the week day of the local time. *)
Definition getDay `{Engine} (t : Date) : Z := weekDay (localTime t).

(** [d.setDate(d.getDate() + k)]: the local date moves by [k] days, the
    day of the month running over into the neighbouring months; the
    local time within the day is kept; the result is the time value of
    that local time. *)
Definition addDays `{Engine} (t : Date) (k : Z) : Date :=
  utc (localTime t + k * msPerDay).

(** [d.setHours(h, m, s, ms)]: the local date is kept, the local time
    within the day is set. *)
Definition setHours `{Engine} (t : Date) (h m s ms : Z) : Date :=
  utc (day (localTime t) * msPerDay + makeTime h m s ms).

End JsDate.

Module Week.
Import JsDate.

(** [let daysToPreviousSaturday = (dayOfWeek + 1) % 7;
       if (daysToPreviousSaturday === 0) daysToPreviousSaturday = 7;] *)
Definition daysToPreviousSaturday `{Engine} (now : Date) : Z :=
  let dayOfWeek := getDay now in
  let d := (dayOfWeek + 1) mod 7 in
  if d =? 0 then 7 else d.

(** [previousSaturday.setDate(now.getDate() - daysToPreviousSaturday)] *)
Definition previousSaturday `{Engine} (now : Date) : Date :=
  addDays now (- daysToPreviousSaturday now).

(** [weekStart.setDate(previousSaturday.getDate() - 7);
       weekStart.setHours(0, 0, 0, 0)] *)
Definition weekStart `{Engine} (now : Date) : Date :=
  setHours (addDays (previousSaturday now) (-7)) 0 0 0 0.

(** [weekEnd.setDate(previousSaturday.getDate() - 1);
       weekEnd.setHours(23, 59, 59, 999)] *)
Definition weekEnd `{Engine} (now : Date) : Date :=
  setHours (addDays (previousSaturday now) (-1)) 23 59 59 999.

End Week.

(* ===================================================================== *)
(** ** Documents *)
(* ===================================================================== *)

(** Only the paths that the modelled handlers read or write are kept.
    The Mongoose schemas of these documents are not among the sources
    (the user schema that is predates the paths the handlers use), so
    the records follow the data model of the specification and the paths
    the handlers name. *)

Definition ObjectId := nat.

Module Subject.
(** Modelled from the spec: the schema of a subject assignment of a
    student, "a name and a [minLectures] integer (minimum required
    deliveries per week)". *)
Record t := mk { name : string; minLectures : Z }.
End Subject.

Module Student.
(** Modelled from the spec: the schema of an embedded student, with the
    paths [checkLowLectureMembers] reads. *)
Record t := mk {
  name : string;
  email : string;
  academicLevel : string;
  subjects : list Subject.t }.
End Student.

Module Lecture.
(** Modelled from the spec: the schema of an embedded lecture, "link,
    name, subject name, optional student email, creation timestamp".
    [studentEmail] is absent ([None]) on lectures stored before the path
    existed. *)
Record t := mk {
  _id : ObjectId;
  link : string;
  name : string;
  subject : string;
  studentEmail : option string;
  createdAt : Date }.
End Lecture.

Module User.
(** Modelled from the spec: the two paths of the rolling counter, missing
    from the user schema among the sources. [lowLectureWeekCount] is a
    count of weeks: the code writes 0 or the old value plus one to it.
    [lastLowLectureWeek] is [null] or a date. *)
Record t := mk {
  _id : ObjectId;
  email : string;
  role : string;
  students : list Student.t;
  lectures : list Lecture.t;
  lectureCount : nat;
  lowLectureWeekCount : nat;
  lastLowLectureWeek : option Date }.
End User.

Module JoinRequest.
(** Modelled from the spec: the schema of a membership record,
    models/JoinRequest.js, "email (join key to Volunteer), approval
    status", with [name] and [volunteerHours] as the handlers use them. *)
Record t := mk {
  _id : ObjectId;
  email : string;
  name : string;
  status : string;
  volunteerHours : nat }.
End JoinRequest.

(** The two message templates of the handlers, kept as their arguments. *)
Inductive Message : Type :=
| LowLectureCountMessage (studentName subjectName : string)
    (lectureCount : nat) (minLectures : Z)
| LectureAddedMessage (userEmail name subject link : string).

Module LectureDetails.
(** Modelled from the spec: the "structured detail payload" of a
    notification, models/Notification.js, with the keys the handlers
    write. *)
Record t := mk {
  link : option string;
  name : option string;
  subject : option string;
  studentEmail : option string;
  minLectures : option Z;
  currentLectures : option nat }.
End LectureDetails.

Module Notification.
(** Modelled from the spec: the schema of a notification,
    models/Notification.js, "owning volunteer id, message text, kind tag,
    structured detail payload, read flag, creation timestamp"; a new
    document is unread and created now. *)
Record t := mk {
  userId : ObjectId;
  message : Message;
  type : string;
  lectureDetails : LectureDetails.t;
  read : bool;
  createdAt : Date }.
End Notification.

(** One element of [underTargetSubjects]. *)
Module UnderTargetSubject.
Record t := mk { name : string; minLectures : Z; deliveredLectures : nat }.
End UnderTargetSubject.

(** One element of [underTargetStudents]. *)
Module UnderTargetStudent.
Record t := mk {
  studentName : string;
  studentEmail : string;
  academicLevel : string;
  underTargetSubjects : list UnderTargetSubject.t }.
End UnderTargetStudent.

(** One element of a member's [lectures] in the result. *)
Module LectureJson.
Record t := mk {
  _id : ObjectId;
  name : string;
  subject : string;
  studentEmail : option string;
  link : string;
  createdAt : Date }.
End LectureJson.

(** One element of [lowLectureMembers]. *)
Module Member.
Record t := mk {
  _id : ObjectId;
  name : string;
  email : string;
  lowLectureWeekCount : nat;
  underTargetStudents : list UnderTargetStudent.t;
  lectures : list LectureJson.t }.
End Member.

Module LowLectureReport.
(** Modelled from the spec: the schema of a report,
    models/LowLectureReport.js, with the paths the handlers write and
    read back. *)
Record t := mk {
  weekStart : Date;
  weekEnd : Date;
  members : list Member.t;
  totalUsersProcessed : nat;
  membersWithLowLectures : nat;
  createdAt : Date }.
End LowLectureReport.

(** The document store: the four collections the handlers touch. *)
Record Store := mkStore {
  users : list User.t;
  joinRequests : list JoinRequest.t;
  notifications : list Notification.t;
  reports : list LowLectureReport.t }.

(* ===================================================================== *)
(** ** Queries and writes on the collections *)
(* ===================================================================== *)

Definition low_lecture_count_per_subject : string :=
  "low_lecture_count_per_subject".

Definition optStringEqb (o : option string) (s : string) : bool :=
  match o with Some x => (x =? s)%string | None => false end.

(** The filter [{userId, type, 'lectureDetails.subject',
    'lectureDetails.studentEmail'}] used by [findOne] and [deleteMany]. *)
Record NotificationFilter := mkFilter {
  f_userId : ObjectId;
  f_type : string;
  f_subject : string;
  f_studentEmail : string }.

Definition notificationMatches (q : NotificationFilter)
    (n : Notification.t) : bool :=
  (Notification.userId n =? f_userId q)%nat
  && (Notification.type n =? f_type q)%string
  && optStringEqb (LectureDetails.subject (Notification.lectureDetails n))
       (f_subject q)
  && optStringEqb
       (LectureDetails.studentEmail (Notification.lectureDetails n))
       (f_studentEmail q).

(** [doc.save()] of a loaded document: the stored document with the same
    [_id] is replaced. *)
Fixpoint replaceUser (u : User.t) (l : list User.t) : list User.t :=
  match l with
  | [] => []
  | x :: r =>
      if (User._id x =? User._id u)%nat then u :: r
      else x :: replaceUser u r
  end.

Fixpoint replaceJoinRequest (j : JoinRequest.t) (l : list JoinRequest.t)
  : list JoinRequest.t :=
  match l with
  | [] => []
  | x :: r =>
      if (JoinRequest._id x =? JoinRequest._id j)%nat then j :: r
      else x :: replaceJoinRequest j r
  end.

(** [LowLectureReport.findOne({ weekStart }).sort({ createdAt: -1 })]:
    the matching report with the greatest [createdAt], the earliest
    stored one among equals. *)
Definition newerReport (best : option LowLectureReport.t)
    (r : LowLectureReport.t) : option LowLectureReport.t :=
  match best with
  | None => Some r
  | Some b =>
      if LowLectureReport.createdAt b <? LowLectureReport.createdAt r
      then Some r else Some b
  end.

Definition findLatestReport (weekStart : Date)
    (l : list LowLectureReport.t) : option LowLectureReport.t :=
  fold_left newerReport
    (filter (fun r => LowLectureReport.weekStart r =? weekStart) l) None.

(** [User.findOne({ 'lectures._id': lectureId })]: the first user with a
    lecture of that [_id]. *)
Definition hasLecture (lectureId : ObjectId) (u : User.t) : bool :=
  existsb (fun l => (Lecture._id l =? lectureId)%nat) (User.lectures u).

(** The calls the handlers make on the models, each with the type of what
    it resolves to. *)
Inductive DbOp : Type -> Type :=
| UserFindByRole (role : string) : DbOp (list User.t)
| UserFindById (id : ObjectId) : DbOp (option User.t)
| UserFindByLecture (lectureId : ObjectId) : DbOp (option User.t)
| UserSave (u : User.t) : DbOp unit
| JoinRequestFindOne (email : string) : DbOp (option JoinRequest.t)
| JoinRequestSave (j : JoinRequest.t) : DbOp unit
| NotificationFindOne (q : NotificationFilter)
    : DbOp (option Notification.t)
| NotificationSave (n : Notification.t) : DbOp unit
| NotificationDeleteMany (q : NotificationFilter) : DbOp unit
| ReportFindLatest (weekStart : Date) : DbOp (option LowLectureReport.t)
| ReportSave (r : LowLectureReport.t) : DbOp unit.

(** What a call does to the documents it addresses when it succeeds. *)
Definition perform {X : Type} (o : DbOp X) (s : Store) : X * Store :=
  match o in DbOp T return T * Store with
  | UserFindByRole role =>
      (filter (fun u => (User.role u =? role)%string) (users s), s)
  | UserFindById id =>
      (find (fun u => (User._id u =? id)%nat) (users s), s)
  | UserFindByLecture lectureId =>
      (find (hasLecture lectureId) (users s), s)
  | UserSave u =>
      (tt, mkStore (replaceUser u (users s)) (joinRequests s)
             (notifications s) (reports s))
  | JoinRequestFindOne email =>
      (find (fun j => (JoinRequest.email j =? email)%string)
         (joinRequests s), s)
  | JoinRequestSave j =>
      (tt, mkStore (users s) (replaceJoinRequest j (joinRequests s))
             (notifications s) (reports s))
  | NotificationFindOne q =>
      (find (notificationMatches q) (notifications s), s)
  | NotificationSave n =>
      (tt, mkStore (users s) (joinRequests s) (notifications s ++ [n])
             (reports s))
  | NotificationDeleteMany q =>
      (tt, mkStore (users s) (joinRequests s)
             (filter (fun n => negb (notificationMatches q n))
                (notifications s))
             (reports s))
  | ReportFindLatest weekStart =>
      (findLatestReport weekStart (reports s), s)
  | ReportSave r =>
      (tt, mkStore (users s) (joinRequests s) (notifications s)
             (reports s ++ [r]))
  end.

(* ===================================================================== *)
(** ** Blocks of awaited calls *)
(* ===================================================================== *)

(** Whether a call is made with the session of the handler's transaction
    ([.session(session)], [{ session }]) or without one. *)
Inductive Scope : Type := InSession | NoSession.

(** A block of an [async] handler: a tree of awaited calls on the
    models. *)
Inductive Prog (A : Type) : Type :=
| Ret (a : A)
| Await (X : Type) (scope : Scope) (o : DbOp X) (k : X -> Prog A).

Arguments Ret {A} a.
Arguments Await {A X} scope o k.

Fixpoint bind {A B : Type} (m : Prog A) (f : A -> Prog B) : Prog B :=
  match m with
  | Ret a => f a
  | Await scope o k => Await scope o (fun x => bind (k x) f)
  end.

(** [await o.session(session)] and [await o] *)
Definition withSession {X : Type} (o : DbOp X) : Prog X :=
  Await InSession o (fun x => Ret x).

Definition withoutSession {X : Type} (o : DbOp X) : Prog X :=
  Await NoSession o (fun x => Ret x).

Declare Scope prog_scope.
Delimit Scope prog_scope with prog.
Notation "x <- m ;; k" := (bind m (fun x => k))
  (at level 61, m at next level, right associativity) : prog_scope.
Notation "m ;; k" := (bind m (fun _ => k))
  (at level 61, right associativity) : prog_scope.
Local Open Scope prog_scope.

(** A [for] loop over an array with the variables it updates as [acc]. *)
Fixpoint forEach {A B : Type} (body : B -> A -> Prog B) (l : list A)
    (acc : B) : Prog B :=
  match l with
  | [] => Ret acc
  | x :: r => acc' <- body acc x ;; forEach body r acc'
  end.

(** The calls of a block applied one after the other to the documents
    [s], each succeeding: what the block does to the view of the session
    when every call of it carries the session. *)
Fixpoint run {A : Type} (p : Prog A) (s : Store) : A * Store :=
  match p with
  | Ret a => (a, s)
  | Await _ o k => let (x, s') := perform o s in run (k x) s'
  end.

(* ===================================================================== *)
(** ** Sessions, transactions and failing calls *)
(* ===================================================================== *)

Definition Error := string.

Inductive Result (A : Type) : Type :=
| Ok (a : A)
| Threw (e : Error).

Arguments Ok {A} a.
Arguments Threw {A} e.

(** The database while a handler runs: the committed documents and,
    while the transaction of the handler's session is open, the view of
    that transaction, which is the documents it started from with the
    writes made in it. *)
Record Db := mkDb {
  committed : Store;
  session : option Store }.

(** A call with the session reads and writes the view of the open
    transaction; a call without it, or with a session that has no open
    transaction, reads and writes the committed documents. *)
Definition query {X : Type} (scope : Scope) (o : DbOp X) (db : Db)
  : X * Db :=
  match scope, session db with
  | InSession, Some view =>
      let (x, view') := perform o view in (x, mkDb (committed db) (Some view'))
  | _, _ =>
      let (x, s') := perform o (committed db) in (x, mkDb s' (session db))
  end.

(** [await mongoose.startSession(); session.startTransaction()] *)
Definition startTransaction (db : Db) : unit * Db :=
  (tt, mkDb (committed db) (Some (committed db))).

(** [await session.commitTransaction()]: the view becomes the committed
    documents. *)
Definition commit (db : Db) : unit * Db :=
  (tt, match session db with
       | Some view => mkDb view None
       | None => db
       end).

(** [await session.abortTransaction()]: the view is dropped. *)
Definition abort (db : Db) : unit * Db :=
  (tt, mkDb (committed db) None).

(** How a handler, or a part of one, ends when it is started as the
    [n]-th awaited call is due: it returns or it throws, [n'] calls have
    been awaited by then, and the database is [db]. *)
Inductive Outcome (A : Type) : Type :=
| Returned (a : A) (n' : nat) (db : Db)
| Thrown (e : Error) (n' : nat) (db : Db).

Arguments Returned {A} a n' db.
Arguments Thrown {A} e n' db.

Definition Handler (A : Type) : Type :=
  (nat -> option Error) -> nat -> Db -> Outcome A.

Definition ret {A : Type} (a : A) : Handler A :=
  fun _ n db => Returned a n db.

(** [throw e] *)
Definition throw {A : Type} (e : Error) : Handler A :=
  fun _ n db => Thrown e n db.

Definition andThen {A B : Type} (m : Handler A) (f : A -> Handler B)
  : Handler B :=
  fun faults n db =>
    match m faults n db with
    | Returned a n' db' => f a faults n' db'
    | Thrown e n' db' => Thrown e n' db'
    end.

(** [try { m } catch (error) { handler error }] *)
Definition tryCatch {A : Type} (m : Handler A) (handler : Error -> Handler A)
  : Handler A :=
  fun faults n db =>
    match m faults n db with
    | Returned a n' db' => Returned a n' db'
    | Thrown e n' db' => handler e faults n' db'
    end.

(** One awaited call: it throws the error [faults] has for it, leaving
    the database as it is, or does what [effect] says. *)
Definition call {X : Type} (effect : Db -> X * Db) : Handler X :=
  fun faults n db =>
    match faults n with
    | Some e => Thrown e (S n) db
    | None => let (x, db') := effect db in Returned x (S n) db'
    end.

(** A block in a handler: its calls one after the other, each under its
    scope, up to the first that fails. *)
Fixpoint exec {A : Type} (p : Prog A) : Handler A :=
  match p with
  | Ret a => ret a
  | Await scope o k => andThen (call (query scope o)) (fun x => exec (k x))
  end.

Declare Scope handler_scope.
Delimit Scope handler_scope with handler.
Bind Scope handler_scope with Handler.
Notation "x <- m ;; k" := (andThen m (fun x => k))
  (at level 61, m at next level, right associativity) : handler_scope.
Notation "m ;; k" := (andThen m (fun _ => k))
  (at level 61, right associativity) : handler_scope.

Definition noFaults : nat -> option Error := fun _ => None.

(* ===================================================================== *)
(** ** [checkLowLectureMembers] *)
(* ===================================================================== *)

Inductive ResponseMessage : Type :=
| MembersBelowMinimum (count : nat)
| AllMembersMeetMinimum.

Module Debug.
Record t := mk {
  totalUsersProcessed : nat;
  weekStart : Date;
  weekEnd : Date;
  membersWithLowLectures : nat }.
End Debug.

Module Response.
Record t := mk {
  success : bool;
  message : ResponseMessage;
  members : list Member.t;
  debug : Debug.t }.
End Response.

Section Evaluator.

Context `{Engine}.

(** The predicate of [user.lectures.filter(...)], lines 428-447. *)
Definition matchesLecture (weekStart weekEnd : Date) (student : Student.t)
    (subject : Subject.t) (lecture : Lecture.t) : bool :=
  let matchesTimeFrame :=
    (weekStart <=? Lecture.createdAt lecture)
    && (Lecture.createdAt lecture <=? weekEnd) in
  let matchesStudent :=
    match Lecture.studentEmail lecture with
    | Some e =>
        Str.truthy e
        && (Str.trim (toLowerCase e)
            =? Str.trim (toLowerCase (Student.email student)))%string
    | None => false
    end in
  let matchesSubject :=
    (Lecture.subject lecture =? Subject.name subject)%string in
  matchesTimeFrame && matchesStudent && matchesSubject.

Definition lectureCount (weekStart weekEnd : Date) (user : User.t)
    (student : Student.t) (subject : Subject.t) : nat :=
  List.length (filter (matchesLecture weekStart weekEnd student subject)
            (User.lectures user)).

Definition lowLectureFilter (user : User.t) (student : Student.t)
    (subject : Subject.t) : NotificationFilter :=
  mkFilter (User._id user) low_lecture_count_per_subject
    (Subject.name subject)
    (Str.trim (toLowerCase (Student.email student))).

Definition lowLectureNotification (now : Date) (user : User.t)
    (student : Student.t) (subject : Subject.t) (count : nat)
  : Notification.t :=
  Notification.mk (User._id user)
    (LowLectureCountMessage (Student.name student) (Subject.name subject)
       count (Subject.minLectures subject))
    low_lecture_count_per_subject
    (LectureDetails.mk None None (Some (Subject.name subject))
       (Some (Str.trim (toLowerCase (Student.email student))))
       (Some (Subject.minLectures subject)) (Some count))
    false now.

(** Body of the loop over [student.subjects], lines 414-496. *)
Definition subjectLoopBody (isCronJob : bool) (now weekStart weekEnd : Date)
    (user : User.t) (student : Student.t)
    (studentUnderTargetSubjects : list UnderTargetSubject.t)
    (subject : Subject.t) : Prog (list UnderTargetSubject.t) :=
  let count := lectureCount weekStart weekEnd user student subject in
  if Z.of_nat count <? Subject.minLectures subject then
    let pushed :=
      studentUnderTargetSubjects
      ++ [UnderTargetSubject.mk (Subject.name subject)
            (Subject.minLectures subject) count] in
    if isCronJob then
      notificationExists <-
        withSession (NotificationFindOne
                       (lowLectureFilter user student subject)) ;;
      match notificationExists with
      | None =>
          withSession (NotificationSave
                   (lowLectureNotification now user student subject count)) ;;
          Ret pushed
      | Some _ => Ret pushed
      end
    else Ret pushed
  else Ret studentUnderTargetSubjects.

(** Body of the loop over [user.students], lines 397-509. *)
Definition studentLoopBody (isCronJob : bool) (now weekStart weekEnd : Date)
    (user : User.t) (userUnderTargetStudents : list UnderTargetStudent.t)
    (student : Student.t) : Prog (list UnderTargetStudent.t) :=
  match Student.subjects student with
  | [] => Ret userUnderTargetStudents
  | _ =>
      studentUnderTargetSubjects <-
        forEach (subjectLoopBody isCronJob now weekStart weekEnd user student)
          (Student.subjects student) [] ;;
      if (0 <? List.length studentUnderTargetSubjects)%nat then
        Ret (userUnderTargetStudents
             ++ [UnderTargetStudent.mk
                   (Str.orElse (Student.name student) "اسم غير متوفر")
                   (Str.trim (toLowerCase (Student.email student)))
                   (Str.orElse (Student.academicLevel student) "غير محدد")
                   studentUnderTargetSubjects])
      else Ret userUnderTargetStudents
  end.

Definition resetCounter (user : User.t) : User.t :=
  User.mk (User._id user) (User.email user) (User.role user)
    (User.students user) (User.lectures user) (User.lectureCount user)
    0%nat None.

Definition incrementCounter (weekStart : Date) (user : User.t) : User.t :=
  User.mk (User._id user) (User.email user) (User.role user)
    (User.students user) (User.lectures user) (User.lectureCount user)
    (User.lowLectureWeekCount user + 1)%nat (Some weekStart).

(** [!user.lastLowLectureWeek || user.lastLowLectureWeek < weekStart] *)
Definition notCountedYet (weekStart : Date) (user : User.t) : bool :=
  match User.lastLowLectureWeek user with
  | None => true
  | Some d => d <? weekStart
  end.

Definition lectureJson (lecture : Lecture.t) : LectureJson.t :=
  LectureJson.mk (Lecture._id lecture) (Lecture.name lecture)
    (Lecture.subject lecture) (Lecture.studentEmail lecture)
    (Lecture.link lecture) (Lecture.createdAt lecture).

Definition memberOf (user : User.t) (joinRequest : JoinRequest.t)
    (userUnderTargetStudents : list UnderTargetStudent.t) : Member.t :=
  Member.mk (User._id user)
    (Str.orElse (JoinRequest.name joinRequest) (User.email user))
    (User.email user) (User.lowLectureWeekCount user)
    userUnderTargetStudents (map lectureJson (User.lectures user)).

(** The reset of lines 385-389 and 541-546. *)
Definition resetIfFlagged (isCronJob : bool) (user : User.t) : Prog unit :=
  if isCronJob && (0 <? User.lowLectureWeekCount user)%nat
  then withSession (UserSave (resetCounter user))
  else Ret tt.

(** Body of the loop over [users], lines 371-548. *)
Definition userLoopBody (isCronJob : bool) (now weekStart weekEnd : Date)
    (lowLectureMembers : list Member.t) (user : User.t)
  : Prog (list Member.t) :=
  found <- withSession (JoinRequestFindOne
                    (Str.trim (toLowerCase (User.email user)))) ;;
  match found with
  | None => Ret lowLectureMembers
  | Some joinRequest =>
      if negb (JoinRequest.status joinRequest =? "Approved")%string
      then Ret lowLectureMembers
      else
        match User.students user with
        | [] =>
            resetIfFlagged isCronJob user ;;
            Ret lowLectureMembers
        | _ =>
            userUnderTargetStudents <-
              forEach (studentLoopBody isCronJob now weekStart weekEnd user)
                (User.students user) [] ;;
            if (0 <? List.length userUnderTargetStudents)%nat then
              user' <-
                (if isCronJob && notCountedYet weekStart user
                 then
                   withSession (UserSave (incrementCounter weekStart user)) ;;
                   Ret (incrementCounter weekStart user)
                 else Ret user) ;;
              Ret (lowLectureMembers
                   ++ [memberOf user' joinRequest userUnderTargetStudents])
            else
              resetIfFlagged isCronJob user ;;
              Ret lowLectureMembers
        end
  end.

Definition responseMessage (count : nat) : ResponseMessage :=
  if (0 <? count)%nat then MembersBelowMinimum count
  else AllMembersMeetMinimum.

(** The [try] block of [checkLowLectureMembers] up to the commit, lines
    347-563, with the value returned after it, lines 584-596. *)
Definition checkLowLectureMembersBody (isCronJob : bool) (now : Date)
  : Prog Response.t :=
  users <- withSession (UserFindByRole "user") ;;
  let weekStart := Week.weekStart now in
  let weekEnd := Week.weekEnd now in
  lowLectureMembers <-
    forEach (userLoopBody isCronJob now weekStart weekEnd) users [] ;;
  (if isCronJob then
     withSession (ReportSave
              (LowLectureReport.mk weekStart weekEnd lowLectureMembers
                 (List.length users) (List.length lowLectureMembers) now))
   else Ret tt) ;;
  Ret (Response.mk true (responseMessage (List.length lowLectureMembers))
         lowLectureMembers
         (Debug.mk (List.length users) weekStart weekEnd
            (List.length lowLectureMembers))).

(** [checkLowLectureMembers(isCronJob)], lines 343-603: the session is
    started before the [try]; the [try] block ends with the commit; the
    [catch] block aborts and rethrows. *)
Definition checkLowLectureMembersHandler (isCronJob : bool) (now : Date)
  : Handler Response.t :=
  (call startTransaction ;;
   tryCatch
     (response <- exec (checkLowLectureMembersBody isCronJob now) ;;
      call commit ;;
      ret response)
     (fun error => call abort ;; throw error))%handler.

(** A call of the function on the store [s]: what it leaves committed
    and what it returns or throws. *)
Definition checkLowLectureMembers (faults : nat -> option Error)
    (isCronJob : bool) (now : Date) (s : Store)
  : Store * Result Response.t :=
  match checkLowLectureMembersHandler isCronJob now faults 0%nat
          (mkDb s None) with
  | Returned response _ db => (committed db, Ok response)
  | Thrown e _ db => (committed db, Threw e)
  end.

End Evaluator.

(* ===================================================================== *)
(** ** [router.get('/low-lecture-members')] *)
(* ===================================================================== *)

Inductive GetReply : Type :=
| GetOk (body : Response.t)
| GetServerError (e : Error).

Definition cachedResponse (report : LowLectureReport.t) : Response.t :=
  Response.mk true
    (responseMessage (List.length (LowLectureReport.members report)))
    (LowLectureReport.members report)
    (Debug.mk (LowLectureReport.totalUsersProcessed report)
       (LowLectureReport.weekStart report)
       (LowLectureReport.weekEnd report)
       (LowLectureReport.membersWithLowLectures report)).

Section OnDemand.

Context `{Engine}.

(** The handler after the two middlewares, lines 607-652. The window is
    computed by the same statements as in [checkLowLectureMembers]; the
    report query is made without a session; the [catch] block awaits
    nothing. *)
Definition getLowLectureMembersHandler (now : Date) : Handler GetReply :=
  (tryCatch
     (found <- exec (withoutSession
                       (ReportFindLatest (Week.weekStart now))) ;;
      match found with
      | Some report => ret (GetOk (cachedResponse report))
      | None =>
          result <- checkLowLectureMembersHandler false now ;;
          ret (GetOk result)
      end)
     (fun error => ret (GetServerError error)))%handler.

(** A request on the store [s]. The handler never rejects: its [catch]
    block cannot throw. *)
Definition getLowLectureMembers (faults : nat -> option Error)
    (now : Date) (s : Store) : Store * GetReply :=
  match getLowLectureMembersHandler now faults 0%nat (mkDb s None) with
  | Returned reply _ db => (committed db, reply)
  | Thrown e _ db => (committed db, GetServerError e)
  end.

End OnDemand.

(* ===================================================================== *)
(** ** [router.post('/')]: adding a lecture *)
(* ===================================================================== *)

Module Json.

(** A value of a body parsed by [express.json()], or [undefined] for a
    key the body does not have, as far as the handlers tell values
    apart: they test its truthiness and hand it to [validator]. Of a
    number they see whether it is zero, so a number that is no integer
    is kept as a non-zero integer; an array and an object are kept
    without content. *)
Inductive t : Type :=
| Undefined
| Null
| Bool (b : bool)
| Number (n : Z)
| Text (s : string)
| Array
| Object.

Definition truthy (v : t) : bool :=
  match v with
  | Undefined => false
  | Null => false
  | Bool b => b
  | Number n => negb (n =? 0)
  | Text s => Str.truthy s
  | Array => true
  | Object => true
  end.

(** The string of a value that is one. *)
Definition text (v : t) : string :=
  match v with
  | Text s => s
  | _ => ""
  end.

Definition isText (v : t) : bool :=
  match v with
  | Text _ => true
  | _ => false
  end.

End Json.

Module LectureBody.

(** [const { link, name, subject, studentEmail } = req.body] *)
Record t := mk {
  linkValue : Json.t;
  nameValue : Json.t;
  subjectValue : Json.t;
  studentEmailValue : Json.t }.

(** The four strings of a body that has strings under the four keys. *)
Definition link (b : t) : string := Json.text (linkValue b).
Definition name (b : t) : string := Json.text (nameValue b).
Definition subject (b : t) : string := Json.text (subjectValue b).
Definition studentEmail (b : t) : string := Json.text (studentEmailValue b).

Definition ofStrings (link name subject studentEmail : string) : t :=
  mk (Json.Text link) (Json.Text name) (Json.Text subject)
    (Json.Text studentEmail).

End LectureBody.

Inductive PostReply : Type :=
| PostBadRequest
| PostNotFound
| PostOk (lecture : Lecture.t) (lectureCount volunteerHours : nat)
| PostServerError (e : Error)
| PostRejected (e : Error).

(** How the [try] block of a handler ends: it awaits
    [commitTransaction] and replies, it awaits [abortTransaction] and
    replies, or it throws before it has awaited anything. *)
Inductive TxEnd (A : Type) : Type :=
| Commit (a : A)
| Abort (a : A)
| Raise (e : Error).

Arguments Commit {A} a.
Arguments Abort {A} a.
Arguments Raise {A} e.

Definition lectureAddedNotification (now : Date) (userId : ObjectId)
    (user : User.t) (body : LectureBody.t) (normalizedStudentEmail : string)
  : Notification.t :=
  Notification.mk userId
    (LectureAddedMessage (User.email user) (LectureBody.name body)
       (LectureBody.subject body) (LectureBody.link body))
    "lecture_added"
    (LectureDetails.mk (Some (LectureBody.link body))
       (Some (LectureBody.name body)) (Some (LectureBody.subject body))
       (Some normalizedStudentEmail) None None)
    false now.

Section AddLecture.

Context `{Engine}.

(** [validator.isURL], [validator.isEmail] and
    [validator.isLength(s, { min, max })] of the validator package on
    strings, and the message of the [TypeError] each of them throws for
    an argument that is no string. *)
Variables isURL isEmail : string -> bool.
Variable isLength : string -> Z -> Z -> bool.
Variable notAString : Json.t -> Error.

Definition validated (check : string -> bool) (v : Json.t) : Result bool :=
  match v with
  | Json.Text s => Ok (check s)
  | _ => Threw (notAString v)
  end.

(** The writes of the handler and its reply, lines 107-164, for a body
    of four strings. [lectureId] is the [_id] Mongoose generates for the
    pushed subdocument. *)
Definition addLectureWrites (now : Date) (lectureId : ObjectId)
    (userId : ObjectId) (body : LectureBody.t)
    (normalizedStudentEmail : string) (user : User.t)
    (joinRequest : JoinRequest.t) : Prog (TxEnd PostReply) :=
  let lecture :=
    Lecture.mk lectureId (LectureBody.link body) (LectureBody.name body)
      (LectureBody.subject body) (Some normalizedStudentEmail) now in
  let user' :=
    User.mk (User._id user) (User.email user) (User.role user)
      (User.students user) (User.lectures user ++ [lecture])
      (User.lectureCount user + 1)%nat
      (User.lowLectureWeekCount user)
      (User.lastLowLectureWeek user) in
  let joinRequest' :=
    JoinRequest.mk (JoinRequest._id joinRequest)
      (JoinRequest.email joinRequest)
      (JoinRequest.name joinRequest)
      (JoinRequest.status joinRequest)
      (JoinRequest.volunteerHours joinRequest + 2)%nat in
  withSession (NotificationDeleteMany
                 (mkFilter userId low_lecture_count_per_subject
                    (LectureBody.subject body) normalizedStudentEmail)) ;;
  withSession (NotificationSave
                 (lectureAddedNotification now userId user body
                    normalizedStudentEmail)) ;;
  withSession (UserSave user') ;;
  withSession (JoinRequestSave joinRequest') ;;
  Ret (Commit (PostOk lecture (User.lectureCount user')
                 (JoinRequest.volunteerHours joinRequest'))).

(** The queries of the handler, lines 75-105, for a body of four
    strings. *)
Definition addLectureQueries (now : Date) (lectureId : ObjectId)
    (userId : ObjectId) (body : LectureBody.t) : Prog (TxEnd PostReply) :=
  let normalizedStudentEmail :=
    Str.trim (toLowerCase (LectureBody.studentEmail body)) in
  found <- withSession (UserFindById userId) ;;
  match found with
  | None => Ret (Abort PostNotFound)
  | Some user =>
      if negb (existsb
                 (fun s => (toLowerCase (Student.email s)
                            =? normalizedStudentEmail)%string)
                 (User.students user))
      then Ret (Abort PostBadRequest)
      else
        foundRequest <-
          withSession (JoinRequestFindOne
                         (Str.trim (toLowerCase (User.email user)))) ;;
        match foundRequest with
        | None => Ret (Abort PostNotFound)
        | Some joinRequest =>
            addLectureWrites now lectureId userId body
              normalizedStudentEmail user joinRequest
        end
  end.

(** The [try] block of the handler, lines 46-164, up to the call that
    ends the transaction. A validator that is given a value that is no
    string throws. *)
Definition addLectureBody (now : Date) (lectureId : ObjectId)
    (userId : ObjectId) (body : LectureBody.t) : Prog (TxEnd PostReply) :=
  let link := LectureBody.linkValue body in
  let name := LectureBody.nameValue body in
  let subject := LectureBody.subjectValue body in
  let studentEmail := LectureBody.studentEmailValue body in
  if negb (Json.truthy link) || negb (Json.truthy name)
     || negb (Json.truthy subject) || negb (Json.truthy studentEmail)
  then Ret (Abort PostBadRequest)
  else
    match validated isURL link with
    | Threw e => Ret (Raise e)
    | Ok false => Ret (Abort PostBadRequest)
    | Ok true =>
    match validated (fun s => isLength s 1 100) name with
    | Threw e => Ret (Raise e)
    | Ok false => Ret (Abort PostBadRequest)
    | Ok true =>
    match validated (fun s => isLength s 1 100) subject with
    | Threw e => Ret (Raise e)
    | Ok false => Ret (Abort PostBadRequest)
    | Ok true =>
    match validated isEmail studentEmail with
    | Threw e => Ret (Raise e)
    | Ok false => Ret (Abort PostBadRequest)
    | Ok true => addLectureQueries now lectureId userId body
    end end end end.

(** The call that ends the transaction of a [try] block, and its
    reply. *)
Definition endTransaction {A : Type} (ending : TxEnd A) : Handler A :=
  match ending with
  | Commit reply => (call commit ;; ret reply)%handler
  | Abort reply => (call abort ;; ret reply)%handler
  | Raise error => throw error
  end.

(** The handler after [authMiddleware], lines 43-170: the [catch] block
    aborts and replies with a 500. *)
Definition addLectureHandler (now : Date) (lectureId userId : ObjectId)
    (body : LectureBody.t) : Handler PostReply :=
  (call startTransaction ;;
   tryCatch
     (ending <- exec (addLectureBody now lectureId userId body) ;;
      endTransaction ending)
     (fun error => call abort ;; ret (PostServerError error)))%handler.

(** A request on the store [s]. When the handler rejects, Express sends
    no response ([PostRejected]). *)
Definition addLecture (faults : nat -> option Error) (now : Date)
    (lectureId userId : ObjectId) (body : LectureBody.t) (s : Store)
  : Store * PostReply :=
  match addLectureHandler now lectureId userId body faults 0%nat
          (mkDb s None) with
  | Returned reply _ db => (committed db, reply)
  | Thrown e _ db => (committed db, PostRejected e)
  end.

End AddLecture.

(* ===================================================================== *)
(** ** Vocabulary of the statements *)
(* ===================================================================== *)

Section Vocabulary.

Context `{Engine}.

(** Pure readings of what the loops of [checkLowLectureMembers] compute
    for one volunteer (the under-target entries, the member pushed, the
    document saved) and the predicates the statements are written with.
    The lemmas [run_subjectLoop] to [run_body] below prove that a run
    without failures returns and stores exactly these. *)

(** [findById] on the [users] collection. *)
Definition findUser (id : ObjectId) (l : list User.t) : option User.t :=
  find (fun u => (User._id u =? id)%nat) l.

(** The volunteers the run looks at: [User.find({ role: 'user' })]. *)
Definition isVolunteer (u : User.t) : bool := (User.role u =? "user")%string.

(** The membership record of a volunteer when it exists and is
    [Approved]. *)
Definition approvedRequest (requests : list JoinRequest.t) (u : User.t)
  : option JoinRequest.t :=
  match find (fun j => (JoinRequest.email j
                        =? Str.trim (toLowerCase (User.email u)))%string)
          requests with
  | Some j =>
      if (JoinRequest.status j =? "Approved")%string then Some j else None
  | None => None
  end.

Definition isUnderTarget (weekStart weekEnd : Date) (u : User.t)
    (st : Student.t) (sb : Subject.t) : bool :=
  Z.of_nat (lectureCount weekStart weekEnd u st sb) <? Subject.minLectures sb.

Definition underTargetEntry (weekStart weekEnd : Date) (u : User.t)
    (st : Student.t) (sb : Subject.t) : UnderTargetSubject.t :=
  UnderTargetSubject.mk (Subject.name sb) (Subject.minLectures sb)
    (lectureCount weekStart weekEnd u st sb).

(** The under-target entries of one student, in the order of the
    student's subjects. *)
Definition underTargetSubjectsOf (weekStart weekEnd : Date) (u : User.t)
    (st : Student.t) : list UnderTargetSubject.t :=
  map (underTargetEntry weekStart weekEnd u st)
    (filter (isUnderTarget weekStart weekEnd u st) (Student.subjects st)).

Definition underTargetStudentOf (weekStart weekEnd : Date) (u : User.t)
    (st : Student.t) : list UnderTargetStudent.t :=
  match underTargetSubjectsOf weekStart weekEnd u st with
  | [] => []
  | entries =>
      [UnderTargetStudent.mk
         (Str.orElse (Student.name st) "اسم غير متوفر")
         (Str.trim (toLowerCase (Student.email st)))
         (Str.orElse (Student.academicLevel st) "غير محدد")
         entries]
  end.

Definition underTargetStudentsOf (weekStart weekEnd : Date) (u : User.t)
  : list UnderTargetStudent.t :=
  flat_map (underTargetStudentOf weekStart weekEnd u) (User.students u).

(** A volunteer is flagged when some (student, subject) pair is under
    target. *)
Definition flagged (weekStart weekEnd : Date) (u : User.t) : bool :=
  match underTargetStudentsOf weekStart weekEnd u with
  | [] => false
  | _ => true
  end.

(** The document the run saves for a volunteer, if it saves one. *)
Definition userWrite (isCronJob : bool) (weekStart weekEnd : Date)
    (requests : list JoinRequest.t) (u : User.t) : option User.t :=
  match approvedRequest requests u with
  | None => None
  | Some _ =>
      if flagged weekStart weekEnd u then
        if isCronJob && notCountedYet weekStart u
        then Some (incrementCounter weekStart u) else None
      else
        if isCronJob && (0 <? User.lowLectureWeekCount u)%nat
        then Some (resetCounter u) else None
  end.

Definition userAfter (isCronJob : bool) (weekStart weekEnd : Date)
    (requests : list JoinRequest.t) (u : User.t) : User.t :=
  match userWrite isCronJob weekStart weekEnd requests u with
  | Some u' => u'
  | None => u
  end.

(** The element a volunteer contributes to [lowLectureMembers]. *)
Definition memberFor (isCronJob : bool) (weekStart weekEnd : Date)
    (requests : list JoinRequest.t) (u : User.t) : list Member.t :=
  match approvedRequest requests u with
  | None => []
  | Some j =>
      if flagged weekStart weekEnd u then
        [memberOf (userAfter isCronJob weekStart weekEnd requests u) j
           (underTargetStudentsOf weekStart weekEnd u)]
      else []
  end.

Definition optionToList {A : Type} (o : option A) : list A :=
  match o with Some a => [a] | None => [] end.

Definition applyWrites (writes : list User.t) (l : list User.t)
  : list User.t :=
  fold_left (fun l w => replaceUser w l) writes l.

(** Number of stored notifications a filter selects. *)
Definition countMatching (q : NotificationFilter)
    (l : list Notification.t) : nat :=
  List.length (filter (notificationMatches q) l).

(** The invariant of the notification collection: a
    (volunteer, subject, student) tuple has at most one
    [low_lecture_count_per_subject] notification. *)
Definition atMostOnePerTuple (l : list Notification.t) : Prop :=
  forall userId subject studentEmail,
    (countMatching
       (mkFilter userId low_lecture_count_per_subject subject studentEmail)
       l <= 1)%nat.

(** How a run may extend the notifications: it appends documents of the
    low-lecture kind, owned by volunteers satisfying [P], one for a tuple
    that had none, none for a tuple that had one. *)
Definition notificationsExtend (isCronJob : bool) (P : ObjectId -> Prop)
    (l l' : list Notification.t) : Prop :=
  exists added,
    l' = l ++ added
    /\ (isCronJob = false -> added = [])
    /\ Forall (fun n => P (Notification.userId n)
                        /\ Notification.type n
                           = low_lecture_count_per_subject) added
    /\ forall q,
         countMatching q l' = countMatching q l
         \/ (countMatching q l = 0%nat /\ countMatching q l' = 1%nat).

(** The predicate of the lecture filter in the words of the
    specification: inside the window with inclusive bounds, student email
    equal up to letter case, subject equal. *)
Definition specMatchesLecture (weekStart weekEnd : Date) (st : Student.t)
    (sb : Subject.t) (l : Lecture.t) : bool :=
  (weekStart <=? Lecture.createdAt l) && (Lecture.createdAt l <=? weekEnd)
  && match Lecture.studentEmail l with
     | Some e => (toLowerCase e =? toLowerCase (Student.email st))%string
     | None => false
     end
  && (Lecture.subject l =? Subject.name sb)%string.

Definition specLectureCount (weekStart weekEnd : Date) (u : User.t)
    (st : Student.t) (sb : Subject.t) : nat :=
  List.length (filter (specMatchesLecture weekStart weekEnd st sb)
                 (User.lectures u)).

(** The same with the comparison the code makes: the lecture carries a
    non-empty student email, and the two emails are equal once lower-cased
    and trimmed of surrounding white space. *)
Definition emailsAgree (lectureEmail : option string) (studentEmail : string)
  : Prop :=
  exists e, lectureEmail = Some e /\ e <> ""
            /\ Str.trim (toLowerCase e)
               = Str.trim (toLowerCase studentEmail).

Definition countsForWeek (weekStart weekEnd : Date) (st : Student.t)
    (sb : Subject.t) (l : Lecture.t) : Prop :=
  weekStart <= Lecture.createdAt l <= weekEnd
  /\ emailsAgree (Lecture.studentEmail l) (Student.email st)
  /\ Lecture.subject l = Subject.name sb.

(** A flagged member of a result records [entry] for the student whose
    normalised email is [email]. *)
Definition recordsUnderTarget (members : list Member.t) (id : ObjectId)
    (email : string) (entry : UnderTargetSubject.t) : Prop :=
  exists m s,
    In m members /\ Member._id m = id
    /\ In s (Member.underTargetStudents m)
    /\ UnderTargetStudent.studentEmail s = email
    /\ In entry (UnderTargetStudent.underTargetSubjects s).

Definition isMember (members : list Member.t) (id : ObjectId) : Prop :=
  exists m, In m members /\ Member._id m = id.

(** The part of the store the two inner loops never write. *)
Definition sameDocuments (s s' : Store) : Prop :=
  users s' = users s /\ joinRequests s' = joinRequests s
  /\ reports s' = reports s.

(** The documents [User.find({ role: 'user' })] resolves to. *)
Definition volunteers (s : Store) : list User.t :=
  filter isVolunteer (users s).

Definition membersOfRun (isCronJob : bool) (now : Date) (s : Store)
  : list Member.t :=
  flat_map (memberFor isCronJob (Week.weekStart now) (Week.weekEnd now)
              (joinRequests s))
    (volunteers s).

Definition writesOfRun (isCronJob : bool) (now : Date) (s : Store)
  : list User.t :=
  flat_map (fun u => optionToList
                       (userWrite isCronJob (Week.weekStart now)
                          (Week.weekEnd now) (joinRequests s) u))
    (volunteers s).

Definition reportOfRun (isCronJob : bool) (now : Date) (s : Store)
  : LowLectureReport.t :=
  LowLectureReport.mk (Week.weekStart now) (Week.weekEnd now)
    (membersOfRun isCronJob now s) (List.length (volunteers s))
    (List.length (membersOfRun isCronJob now s)) now.

Definition responseOfRun (isCronJob : bool) (now : Date) (s : Store)
  : Response.t :=
  Response.mk true
    (responseMessage (List.length (membersOfRun isCronJob now s)))
    (membersOfRun isCronJob now s)
    (Debug.mk (List.length (volunteers s)) (Week.weekStart now)
       (Week.weekEnd now) (List.length (membersOfRun isCronJob now s))).

(** A volunteer the run evaluates: role [user] with an approved
    membership record. *)
Definition evaluated (s : Store) (u : User.t) : Prop :=
  In u (users s) /\ isVolunteer u = true
  /\ approvedRequest (joinRequests s) u <> None.

(** [_id] is unique in the [users] collection. *)
Definition uniqueIds (s : Store) : Prop := NoDup (map User._id (users s)).

Definition substUser (w x : User.t) : User.t :=
  if (User._id x =? User._id w)%nat then w else x.

(** The stored document of every volunteer once a run has committed. *)
Definition usersAfterRun (isCronJob : bool) (now : Date) (s : Store)
  : list User.t :=
  map (fun u => if isVolunteer u
                then userAfter isCronJob (Week.weekStart now)
                       (Week.weekEnd now) (joinRequests s) u
                else u)
    (users s).

(** Number of store calls a run without failures awaits. *)
Fixpoint calls {A : Type} (p : Prog A) (s : Store) : nat :=
  match p with
  | Ret _ => 0%nat
  | Await _ o k => let (x, s') := perform o s in S (calls (k x) s')
  end.

(** Under target, in the words of the glossary: a (student, subject) pair
    of the volunteer whose delivered count in the window is below its
    minimum. *)
Definition hasUnderTargetPair (weekStart weekEnd : Date) (u : User.t)
  : Prop :=
  exists st sb,
    In st (User.students u) /\ In sb (Student.subjects st)
    /\ Z.of_nat (lectureCount weekStart weekEnd u st sb)
       < Subject.minLectures sb.

(** The tuple of a volunteer, a student and a subject has a low-lecture
    notification in the store. *)
Definition hasNotification (u : User.t) (st : Student.t) (sb : Subject.t)
    (s : Store) : Prop :=
  (1 <= countMatching (lowLectureFilter u st sb) (notifications s))%nat.

End Vocabulary.

(* ===================================================================== *)
(** ** A small store *)
(* ===================================================================== *)

Module Sample.

Definition hour : Z := 3600000.

Definition day (n : Z) : Date := n * JsDate.msPerDay.

(** The time zone of the samples: two hours ahead of UTC, and three
    hours ahead during the summer time of Africa/Cairo in 2024, from the
    local midnight that starts Friday, 26 April (day 19839 of the epoch)
    to the local midnight that starts Friday, 1 November (day 20028).
    A local time the clocks skip or show twice is read with the offset
    in force before the change, as [UTC] of ECMAScript reads it. *)
Definition summerStarts : Z := day 19839.
Definition summerEnds : Z := day 20028.

Definition cairoLocalTime (t : Z) : Z :=
  if (summerStarts - 2 * hour <=? t) && (t <? summerEnds - 3 * hour)
  then t + 3 * hour
  else t + 2 * hour.

Definition cairoUtc (l : Z) : Z :=
  if (summerStarts + hour <=? l) && (l <? summerEnds)
  then l - 3 * hour
  else l - 2 * hour.

(** The engine of the samples. Its strings have no cased letters
    outside A to Z. *)
Definition engine : Engine :=
  {| toLowerCase := Str.lowerAscii;
     localTime := cairoLocalTime;
     utc := cairoUtc |}.

#[local] Existing Instance engine.

(** Sunday, 11 January 1970, at 03:00 local time, the Sunday after it
    and the Saturday before it. *)
Definition sunday : Date := day 10 + hour.
Definition nextSunday : Date := day 17 + hour.
Definition saturday : Date := day 9.

(** Sunday, 28 April 2024 and Sunday, 3 November 2024, at noon UTC: the
    clocks changed in the week before each. *)
Definition springSunday : Date := day 19841 + 12 * hour.
Definition autumnSunday : Date := day 20030 + 12 * hour.

Definition math : Subject.t := Subject.mk "Math" 2.

Definition sara : Student.t := Student.mk "Sara" "S@x.com" "" [math].

(** A lecture dated exactly at the start of the window of [sunday], one
    dated at its last millisecond for another subject, and one after the
    window. *)
Definition lectureAtStart : Lecture.t :=
  Lecture.mk 1%nat "https://example.com/l/1" "Fractions" "Math"
    (Some "s@x.com") (Week.weekStart sunday).

Definition lectureAtEnd : Lecture.t :=
  Lecture.mk 2%nat "https://example.com/l/2" "Verbs" "English"
    (Some "s@x.com") (Week.weekEnd sunday).

Definition lectureAfter : Lecture.t :=
  Lecture.mk 3%nat "https://example.com/l/3" "Angles" "Math"
    (Some "s@x.com") (Week.weekEnd sunday + 1).

Definition volunteer : User.t :=
  User.mk 7%nat "V@x.com" "user" [sara]
    [lectureAtStart; lectureAtEnd; lectureAfter] 3%nat 0%nat None.

(** A volunteer without students whose counter is not zero. *)
Definition idle : User.t :=
  User.mk 8%nat "idle@x.com" "user" [] [] 0%nat 2%nat (Some (day (-5))).

(** A volunteer whose membership record is still pending. *)
Definition pending : User.t :=
  User.mk 9%nat "p@x.com" "user" [sara] [] 0%nat 1%nat (Some (day (-5))).

Definition admin : User.t :=
  User.mk 1%nat "admin@x.com" "admin" [] [] 0%nat 0%nat None.

Definition requests : list JoinRequest.t :=
  [ JoinRequest.mk 70%nat "v@x.com" "Vera" "Approved" 4%nat;
    JoinRequest.mk 80%nat "idle@x.com" "Ida" "Approved" 0%nat;
    JoinRequest.mk 90%nat "p@x.com" "Pat" "Pending" 0%nat ].

Definition store : Store :=
  mkStore [admin; volunteer; idle; pending] requests [] [].

(** The store after the scheduled run of [sunday]. *)
Definition storeAfterRun : Store :=
  fst (checkLowLectureMembers noFaults true sunday store).

Definition responseOfSunday : Response.t :=
  responseOfRun true sunday store.

(** A student whose stored email carries a trailing blank, with one
    lecture of the window recorded under the trimmed email. *)
Definition physics : Subject.t := Subject.mk "Physics" 1.

Definition omar : Student.t := Student.mk "Omar" "o@x.com " "" [physics].

Definition lectureForOmar : Lecture.t :=
  Lecture.mk 4%nat "https://example.com/l/4" "Forces" "Physics"
    (Some "o@x.com") (day 3).

Definition tutor : User.t :=
  User.mk 11%nat "t@x.com" "user" [omar] [lectureForOmar] 1%nat 0%nat None.

Definition tutorStore : Store :=
  mkStore [tutor] [JoinRequest.mk 71%nat "t@x.com" "Tom" "Approved" 2%nat]
    [] [].

(** A body the validator package accepts. *)
Definition lectureBody : LectureBody.t :=
  LectureBody.ofStrings "https://example.com/l/5" "Decimals" "Math"
    "S@X.com".

End Sample.

(* ===================================================================== *)
(** ** The middlewares *)
(* ===================================================================== *)

Module JsString.

Fixpoint dropChars (n : nat) (s : string) : string :=
  match n, s with
  | S m, String _ r => dropChars m r
  | _, _ => s
  end.

(** [s.replace(pattern, replacement)] for a string pattern: the first
    occurrence of the pattern is replaced, the rest is kept. *)
Fixpoint replaceFirst (pattern replacement s : string) : string :=
  if String.prefix pattern s
  then String.append replacement (dropChars (String.length pattern) s)
  else match s with
       | EmptyString => EmptyString
       | String c r => String c (replaceFirst pattern replacement r)
       end.

(** [s.includes(pattern)] *)
Fixpoint includes (pattern s : string) : bool :=
  String.prefix pattern s
  || match s with
     | EmptyString => false
     | String _ r => includes pattern r
     end.

End JsString.

(** How a chain of middlewares ends: with the 401 or the 403 of a
    middleware, or in the handler. *)
Inductive Routed (A : Type) : Type :=
| Unauthorized
| Forbidden
| Handled (a : A).

Arguments Unauthorized {A}.
Arguments Forbidden {A}.
Arguments Handled {A} a.

Section Middlewares.

(** [jwt.verify(token, process.env.JWT_SECRET)]: the decoded [userId] and
    [role], or nothing when it throws. A payload without a role is one
    with a role that is not [admin]. *)
Variable verify : string -> option (ObjectId * string).

(** [authMiddleware], lines 14-30: what it puts on the request for the
    next handler, when it calls it. *)
Definition authMiddleware (authorization : option string)
  : option (ObjectId * string) :=
  match authorization with
  | None => None
  | Some header =>
      let token := JsString.replaceFirst "Bearer " "" header in
      if Str.truthy token then verify token else None
  end.

(** [adminMiddleware], lines 33-39. *)
Definition adminMiddleware (userRole : string) : bool :=
  (userRole =? "admin")%string.

(** A route registered as [authMiddleware, handler], over the state [S]
    its handler works on. *)
Definition authenticated {S A : Type} (authorization : option string)
    (s : S) (handler : ObjectId -> S * A) : S * Routed A :=
  match authMiddleware authorization with
  | None => (s, Unauthorized)
  | Some (userId, _) =>
      let (s', reply) := handler userId in (s', Handled reply)
  end.

(** A route registered as [authMiddleware, adminMiddleware, handler]. *)
Definition adminOnly {S A : Type} (authorization : option string)
    (s : S) (handler : ObjectId -> S * A) : S * Routed A :=
  match authMiddleware authorization with
  | None => (s, Unauthorized)
  | Some (userId, userRole) =>
      if adminMiddleware userRole
      then let (s', reply) := handler userId in (s', Handled reply)
      else (s, Forbidden)
  end.

End Middlewares.

(* ===================================================================== *)
(** ** [router.delete('/:lectureId')]: deleting a lecture *)
(* ===================================================================== *)

Inductive DeleteReply : Type :=
| DeleteBadRequest
| DeleteNotFound
| DeleteOk (lectureCount volunteerHours : nat)
| DeleteServerError (e : Error)
| DeleteRejected (e : Error).

(** [user.lectures.pull(lectureId)] *)
Definition pullLecture (lectureId : ObjectId) (l : list Lecture.t)
  : list Lecture.t :=
  filter (fun x => negb (Lecture._id x =? lectureId)%nat) l.

(** The document after [pull] and
    [Math.max(0, (user.lectureCount || 1) - 1)]. *)
Definition withoutLecture (lectureId : ObjectId) (user : User.t) : User.t :=
  User.mk (User._id user) (User.email user) (User.role user)
    (User.students user) (pullLecture lectureId (User.lectures user))
    ((if (User.lectureCount user =? 0)%nat then 1 else User.lectureCount user)
     - 1)%nat
    (User.lowLectureWeekCount user) (User.lastLowLectureWeek user).

(** [Math.max(0, (joinRequest.volunteerHours || 2) - 2)] *)
Definition lessTwoHours (joinRequest : JoinRequest.t) : JoinRequest.t :=
  JoinRequest.mk (JoinRequest._id joinRequest)
    (JoinRequest.email joinRequest) (JoinRequest.name joinRequest)
    (JoinRequest.status joinRequest)
    ((if (JoinRequest.volunteerHours joinRequest =? 0)%nat then 2
      else JoinRequest.volunteerHours joinRequest) - 2)%nat.

Section DeleteLecture.

Context `{Engine}.

(** [mongoose.Types.ObjectId.isValid] with the cast of the accepted
    strings: [None] for a parameter that is no ObjectId. *)
Variable objectIdOf : string -> option ObjectId.

(** The handler from the membership query on, lines 205-217, up to the
    commit. *)
Definition deleteLectureTail (lectureId : ObjectId) (user : User.t)
  : Prog (TxEnd DeleteReply) :=
  found <- withSession (JoinRequestFindOne
                          (Str.trim (toLowerCase (User.email user)))) ;;
  match found with
  | None => Ret (Abort DeleteNotFound)
  | Some joinRequest =>
      withSession (UserSave (withoutLecture lectureId user)) ;;
      withSession (JoinRequestSave (lessTwoHours joinRequest)) ;;
      Ret (Commit (DeleteOk
                     (User.lectureCount (withoutLecture lectureId user))
                     (JoinRequest.volunteerHours (lessTwoHours joinRequest))))
  end.

(** The [try] block of the handler, lines 178-217, up to the call that
    ends the transaction. *)
Definition deleteLectureBody (lectureIdParam : string)
  : Prog (TxEnd DeleteReply) :=
  match objectIdOf lectureIdParam with
  | None => Ret (Abort DeleteBadRequest)
  | Some lectureId =>
      found <- withSession (UserFindByLecture lectureId) ;;
      match found with
      | None => Ret (Abort DeleteNotFound)
      | Some user =>
          match find (fun l => (Lecture._id l =? lectureId)%nat)
                  (User.lectures user) with
          | None => Ret (Abort DeleteNotFound)
          | Some _ => deleteLectureTail lectureId user
          end
      end
  end.

(** The handler after the two middlewares, lines 175-234. *)
Definition deleteLectureHandler (lectureIdParam : string)
  : Handler DeleteReply :=
  (call startTransaction ;;
   tryCatch
     (ending <- exec (deleteLectureBody lectureIdParam) ;;
      endTransaction ending)
     (fun error => call abort ;; ret (DeleteServerError error)))%handler.

(** A request on the store [s]. When the handler rejects, Express sends
    no response ([DeleteRejected]). *)
Definition deleteLecture (faults : nat -> option Error)
    (lectureIdParam : string) (s : Store) : Store * DeleteReply :=
  match deleteLectureHandler lectureIdParam faults 0%nat (mkDb s None) with
  | Returned reply _ db => (committed db, reply)
  | Thrown e _ db => (committed db, DeleteRejected e)
  end.

End DeleteLecture.

(* ===================================================================== *)
(** ** The notification routes *)
(* ===================================================================== *)

(** These routes address a notification by its [_id]: here a stored
    notification is its [_id] with its document. *)
Module NotificationDoc.
Record t := mk { _id : ObjectId; fields : Notification.t }.
End NotificationDoc.

Definition docUserId (d : NotificationDoc.t) : ObjectId :=
  Notification.userId (NotificationDoc.fields d).

Definition docCreatedAt (d : NotificationDoc.t) : Date :=
  Notification.createdAt (NotificationDoc.fields d).

Definition docRead (d : NotificationDoc.t) : bool :=
  Notification.read (NotificationDoc.fields d).

(** One element of [notifications] in a reply, with [userId] populated
    by the owner's [_id] and [email]. *)
Module NotificationJson.
Record t := mk {
  _id : ObjectId;
  userId : ObjectId * string;
  message : Message;
  type : string;
  createdAt : Date;
  read : bool;
  lectureDetails : LectureDetails.t }.
End NotificationJson.

(** [.sort({ createdAt: -1 })]: newest first; documents created at the
    same instant keep their stored order. *)
Fixpoint insertByDate (d : NotificationDoc.t) (l : list NotificationDoc.t)
  : list NotificationDoc.t :=
  match l with
  | [] => [d]
  | x :: r =>
      if docCreatedAt x <=? docCreatedAt d then d :: x :: r
      else x :: insertByDate d r
  end.

Definition newestFirst (l : list NotificationDoc.t)
  : list NotificationDoc.t :=
  fold_right insertByDate [] l.

Definition ownedBy (userId : ObjectId) (d : NotificationDoc.t) : bool :=
  (docUserId d =? userId)%nat.

(** [Notification.find({ userId }).populate('userId', 'email')
      .sort({ createdAt: -1 })]: each document with its owner, [None] for
    an owner that is not stored. *)
Definition findPopulated (users : list User.t)
    (docs : list NotificationDoc.t) (userId : ObjectId)
  : list (NotificationDoc.t * option User.t) :=
  map (fun d => (d, findUser (docUserId d) users))
    (newestFirst (filter (ownedBy userId) docs)).

(** The error of [notification.userId._id] on a [null] owner. *)
Definition nullOwnerError : Error :=
  "Cannot read properties of null (reading '_id')".

(** [notifications.map(notification => ({...}))] *)
Fixpoint notificationsJson (l : list (NotificationDoc.t * option User.t))
  : Result (list NotificationJson.t) :=
  match l with
  | [] => Ok []
  | (d, owner) :: r =>
      match owner with
      | None => Threw nullOwnerError
      | Some u =>
          match notificationsJson r with
          | Threw e => Threw e
          | Ok js =>
              let n := NotificationDoc.fields d in
              Ok (NotificationJson.mk (NotificationDoc._id d)
                    (User._id u, User.email u) (Notification.message n)
                    (Notification.type n) (Notification.createdAt n)
                    (Notification.read n) (Notification.lectureDetails n)
                  :: js)
          end
      end
  end.

Inductive NotificationsReply : Type :=
| NotificationsOk (notifications : list NotificationJson.t)
| NotificationsServerError (e : Error).

Definition notificationsReply (l : list (NotificationDoc.t * option User.t))
  : NotificationsReply :=
  match notificationsJson l with
  | Ok js => NotificationsOk js
  | Threw e => NotificationsServerError e
  end.

(** [router.get('/notifications')] after [authMiddleware], lines
    239-269. It writes nothing. *)
Definition getNotifications (faults : nat -> option Error)
    (users : list User.t) (docs : list NotificationDoc.t)
    (userId : ObjectId) : NotificationsReply :=
  match faults 0%nat with
  | Some e => NotificationsServerError e
  | None => notificationsReply (findPopulated users docs userId)
  end.

(** [$set: { read: true }] on one document. *)
Definition markRead (d : NotificationDoc.t) : NotificationDoc.t :=
  let n := NotificationDoc.fields d in
  NotificationDoc.mk (NotificationDoc._id d)
    (Notification.mk (Notification.userId n) (Notification.message n)
       (Notification.type n) (Notification.lectureDetails n) true
       (Notification.createdAt n)).

(** [Notification.updateMany({ userId, read: false },
      { $set: { read: true } })] *)
Definition markAllRead (userId : ObjectId) (docs : list NotificationDoc.t)
  : list NotificationDoc.t :=
  map (fun d => if ownedBy userId d && negb (docRead d) then markRead d
                else d)
    docs.

(** [router.post('/notifications/mark-read')] after [authMiddleware],
    lines 274-309: two awaited calls outside any transaction. *)
Definition markNotificationsRead (faults : nat -> option Error)
    (users : list User.t) (docs : list NotificationDoc.t)
    (userId : ObjectId) : list NotificationDoc.t * NotificationsReply :=
  match faults 0%nat with
  | Some e => (docs, NotificationsServerError e)
  | None =>
      let docs' := markAllRead userId docs in
      match faults 1%nat with
      | Some e => (docs', NotificationsServerError e)
      | None => (docs', notificationsReply (findPopulated users docs' userId))
      end
  end.

Inductive DeleteNotificationReply : Type :=
| NotificationBadRequest
| NotificationNotFound
| NotificationDeleted
| NotificationServerError (e : Error).

(** [Notification.deleteOne({ _id })] *)
Fixpoint deleteOneById (id : ObjectId) (docs : list NotificationDoc.t)
  : list NotificationDoc.t :=
  match docs with
  | [] => []
  | d :: r =>
      if (NotificationDoc._id d =? id)%nat then r
      else d :: deleteOneById id r
  end.

Section DeleteNotification.

Variable objectIdOf : string -> option ObjectId.

(** [router.delete('/notifications/:id')] after [authMiddleware], lines
    314-339. *)
Definition deleteNotification (faults : nat -> option Error)
    (docs : list NotificationDoc.t) (userId : ObjectId) (idParam : string)
  : list NotificationDoc.t * DeleteNotificationReply :=
  match objectIdOf idParam with
  | None => (docs, NotificationBadRequest)
  | Some notificationId =>
      match faults 0%nat with
      | Some e => (docs, NotificationServerError e)
      | None =>
          match find (fun d => (NotificationDoc._id d =? notificationId)%nat
                               && ownedBy userId d) docs with
          | None => (docs, NotificationNotFound)
          | Some _ =>
              match faults 1%nat with
              | Some e => (docs, NotificationServerError e)
              | None => (deleteOneById notificationId docs,
                         NotificationDeleted)
              end
          end
      end
  end.

End DeleteNotification.

(* ===================================================================== *)
(** ** The weekly schedule *)
(* ===================================================================== *)

Inductive JobLog : Type :=
| CheckCompleted
| CheckFailed (e : Error).

Section Schedule.

Context `{Engine}.

(** The callback of [cron.schedule('0 0 * * 6', ...)], lines 656-666: it
    runs the check in scheduled mode and logs an error instead of
    rethrowing it. *)
Definition weeklyCheck (faults : nat -> option Error) (now : Date)
    (s : Store) : Store * JobLog :=
  match checkLowLectureMembers faults true now s with
  | (s', Ok _) => (s', CheckCompleted)
  | (s', Threw e) => (s', CheckFailed e)
  end.

End Schedule.

(* ===================================================================== *)
(** ** The routes with their middlewares *)
(* ===================================================================== *)

Section Routes.

Context `{Engine}.

Variable verify : string -> option (ObjectId * string).
Variable objectIdOf : string -> option ObjectId.
Variables isURL isEmail : string -> bool.
Variable isLength : string -> Z -> Z -> bool.
Variable notAString : Json.t -> Error.

(** [router.post('/', authMiddleware, [...], handler)] *)
Definition addLectureRoute (faults : nat -> option Error) (now : Date)
    (lectureId : ObjectId) (authorization : option string)
    (body : LectureBody.t) (s : Store) : Store * Routed PostReply :=
  authenticated verify authorization s
    (fun userId =>
       addLecture isURL isEmail isLength notAString faults now lectureId
         userId body s).

(** [router.delete('/:lectureId', authMiddleware, adminMiddleware,
      handler)] *)
Definition deleteLectureRoute (faults : nat -> option Error)
    (authorization : option string) (lectureIdParam : string) (s : Store)
  : Store * Routed DeleteReply :=
  adminOnly verify authorization s
    (fun _ => deleteLecture objectIdOf faults lectureIdParam s).

(** [router.get('/low-lecture-members', authMiddleware, adminMiddleware,
      handler)] *)
Definition lowLectureMembersRoute (faults : nat -> option Error)
    (now : Date) (authorization : option string) (s : Store)
  : Store * Routed GetReply :=
  adminOnly verify authorization s
    (fun _ => getLowLectureMembers faults now s).

(** [router.get('/notifications', authMiddleware, handler)] *)
Definition getNotificationsRoute (faults : nat -> option Error)
    (users : list User.t) (authorization : option string)
    (docs : list NotificationDoc.t)
  : list NotificationDoc.t * Routed NotificationsReply :=
  authenticated verify authorization docs
    (fun userId => (docs, getNotifications faults users docs userId)).

(** [router.post('/notifications/mark-read', authMiddleware, handler)] *)
Definition markReadRoute (faults : nat -> option Error)
    (users : list User.t) (authorization : option string)
    (docs : list NotificationDoc.t)
  : list NotificationDoc.t * Routed NotificationsReply :=
  authenticated verify authorization docs
    (fun userId => markNotificationsRead faults users docs userId).

(** [router.delete('/notifications/:id', authMiddleware, handler)] *)
Definition deleteNotificationRoute (faults : nat -> option Error)
    (authorization : option string) (idParam : string)
    (docs : list NotificationDoc.t)
  : list NotificationDoc.t * Routed DeleteNotificationReply :=
  authenticated verify authorization docs
    (fun userId => deleteNotification objectIdOf faults docs userId idParam).

End Routes.

(* ===================================================================== *)
(** ** Vocabulary of the further statements *)
(* ===================================================================== *)

(** The element of a reply that shows the document [d] of [owner]. *)
Definition shownAs (owner : User.t) (d : NotificationDoc.t)
  : NotificationJson.t :=
  let n := NotificationDoc.fields d in
  NotificationJson.mk (NotificationDoc._id d)
    (User._id owner, User.email owner) (Notification.message n)
    (Notification.type n) (Notification.createdAt n) (Notification.read n)
    (Notification.lectureDetails n).

(** [_id] is unique in the [notifications] collection. *)
Definition uniqueNotificationIds (docs : list NotificationDoc.t) : Prop :=
  NoDup (map NotificationDoc._id docs).

(** The documents of the other users, in stored order. *)
Definition ofOthers (userId : ObjectId) (docs : list NotificationDoc.t)
  : list NotificationDoc.t :=
  filter (fun d => negb (ownedBy userId d)) docs.

Section FurtherVocabulary.

Context `{Engine}.

(** [_id] is unique in the [joinrequests] collection. *)
Definition uniqueRequestIds (s : Store) : Prop :=
  NoDup (map JoinRequest._id (joinRequests s)).

(** No stored lecture has the [_id]. *)
Definition freshLectureId (lectureId : ObjectId) (s : Store) : Prop :=
  forall u, In u (users s) -> hasLecture lectureId u = false.

(** Two documents of a volunteer that differ in the rolling counter at
    most. *)
Definition sameButCounter (u u' : User.t) : Prop :=
  User._id u' = User._id u /\ User.email u' = User.email u
  /\ User.role u' = User.role u /\ User.students u' = User.students u
  /\ User.lectures u' = User.lectures u
  /\ User.lectureCount u' = User.lectureCount u.

(** Newest first. *)
Definition newestFirstOrder (a b : NotificationDoc.t) : Prop :=
  docCreatedAt b <= docCreatedAt a.

(** The run appends notifications satisfying [Q] and leaves the stored
    ones as they are. *)
Definition appends (Q : Notification.t -> Prop) (s s' : Store) : Prop :=
  exists added,
    notifications s' = notifications s ++ added /\ Forall Q added.

(** The notification a scheduled run at [now] creates for an under-target
    pair of a volunteer evaluated in [s]. *)
Definition warningOf (now : Date) (s : Store) (n : Notification.t) : Prop :=
  exists u st sb,
    evaluated s u /\ In st (User.students u)
    /\ In sb (Student.subjects st)
    /\ isUnderTarget (Week.weekStart now) (Week.weekEnd now) u st sb = true
    /\ n = lowLectureNotification now u st sb
             (lectureCount (Week.weekStart now) (Week.weekEnd now) u st sb).

(** The lecture a request body makes, the submitter's document with it,
    and the membership record with its two hours, as [router.post('/')]
    builds them. *)
Definition submittedLecture (now : Date) (lectureId : ObjectId)
    (body : LectureBody.t) : Lecture.t :=
  Lecture.mk lectureId (LectureBody.link body) (LectureBody.name body)
    (LectureBody.subject body)
    (Some (Str.trim (toLowerCase (LectureBody.studentEmail body)))) now.

Definition withLecture (lecture : Lecture.t) (user : User.t) : User.t :=
  User.mk (User._id user) (User.email user) (User.role user)
    (User.students user) (User.lectures user ++ [lecture])
    (User.lectureCount user + 1)%nat (User.lowLectureWeekCount user)
    (User.lastLowLectureWeek user).

Definition plusTwoHours (joinRequest : JoinRequest.t) : JoinRequest.t :=
  JoinRequest.mk (JoinRequest._id joinRequest)
    (JoinRequest.email joinRequest) (JoinRequest.name joinRequest)
    (JoinRequest.status joinRequest)
    (JoinRequest.volunteerHours joinRequest + 2)%nat.

Definition substJoinRequest (w x : JoinRequest.t) : JoinRequest.t :=
  if (JoinRequest._id x =? JoinRequest._id w)%nat then w else x.

(** The membership record [JoinRequest.findOne] resolves to for a user. *)
Definition requestOf (requests : list JoinRequest.t) (u : User.t)
  : option JoinRequest.t :=
  find (fun j => (JoinRequest.email j
                  =? Str.trim (toLowerCase (User.email u)))%string)
    requests.

(** What the handler checks before it queries: the four values are
    strings, none empty, and the validators accept them. *)
Definition acceptable (isURL isEmail : string -> bool)
    (isLength : string -> Z -> Z -> bool) (body : LectureBody.t) : bool :=
  Json.isText (LectureBody.linkValue body)
  && Json.isText (LectureBody.nameValue body)
  && Json.isText (LectureBody.subjectValue body)
  && Json.isText (LectureBody.studentEmailValue body)
  && Str.truthy (LectureBody.link body) && Str.truthy (LectureBody.name body)
  && Str.truthy (LectureBody.subject body)
  && Str.truthy (LectureBody.studentEmail body)
  && isURL (LectureBody.link body)
  && isLength (LectureBody.name body) 1 100
  && isLength (LectureBody.subject body) 1 100
  && isEmail (LectureBody.studentEmail body).

Definition inRoster (body : LectureBody.t) (user : User.t) : bool :=
  existsb (fun st => (toLowerCase (Student.email st)
                      =? Str.trim (toLowerCase
                                     (LectureBody.studentEmail body)))%string)
    (User.students user).

(** A string that starts, or ends, with a character [trim] removes. *)
Definition startsWithSpace (s : string) : bool :=
  existsb (fun w => String.prefix w s) Str.whiteSpace.

Definition endsWithSpace (s : string) : bool :=
  existsb (fun w => String.prefix (Str.reverse w) (Str.reverse s))
    Str.whiteSpace.

(** A string with white space at one of its ends. *)
Definition padded (s : string) : bool :=
  startsWithSpace s || endsWithSpace s.

(** The values of a body. *)
Definition valuesOf (body : LectureBody.t) : list Json.t :=
  [LectureBody.linkValue body; LectureBody.nameValue body;
   LectureBody.subjectValue body; LectureBody.studentEmailValue body].

End FurtherVocabulary.

(** ** Sample submissions *)

Module Desk.

#[local] Existing Instance Sample.engine.

(** Validators that accept the strings of the samples. *)
Definition accept (_ : string) : bool := true.
Definition anyLength (_ : string) (_ _ : Z) : bool := true.
Definition notAString (_ : Json.t) : Error :=
  "Expected a string but received a value of another type".

(** The lecture that [Sample.lectureBody] becomes when it is submitted at
    [now] under the [_id] 5. *)
Definition decimals (now : Date) : Lecture.t :=
  submittedLecture now 5%nat Sample.lectureBody.

(** The volunteer of the sample store submits a Math lecture for Sara a
    week after the scheduled run of [Sample.sunday]. *)
Definition submitted : Store * PostReply :=
  addLecture accept accept anyLength notAString noFaults Sample.nextSunday
    5%nat 7%nat Sample.lectureBody Sample.storeAfterRun.

(** The same volunteer submits it on [Sample.sunday], before any run. *)
Definition early : Store * PostReply :=
  addLecture accept accept anyLength notAString noFaults Sample.sunday
    5%nat 7%nat Sample.lectureBody Sample.store.

(** The third awaited call of a request fails. *)
Definition thirdCallFails (n : nat) : option Error :=
  if (n =? 2)%nat then Some "write conflict" else None.

(** A body whose [name] is the number 7. *)
Definition numbered : LectureBody.t :=
  LectureBody.mk (Json.Text "https://example.com/l/5") (Json.Number 7)
    (Json.Text "Math") (Json.Text "S@X.com").

End Desk.

(** ** Sample requests of the other routes *)

Module Office.

#[local] Existing Instance Sample.engine.

(** The two route parameters of the samples that are ObjectIds. *)
Definition objectIdOf (param : string) : option ObjectId :=
  if (param =? "64b000000000000000000003")%string then Some 3%nat
  else if (param =? "64b000000000000000000005")%string then Some 5%nat
  else None.

(** [jwt.verify] of the samples: one token of the administrator and one
    of the volunteer. *)
Definition verify (token : string) : option (ObjectId * string) :=
  if (token =? "admin-token")%string then Some (1%nat, "admin")
  else if (token =? "volunteer-token")%string then Some (7%nat, "user")
  else None.

(** The administrator deletes the lecture [Sample.lectureAfter]. *)
Definition deleted : Store * DeleteReply :=
  deleteLecture objectIdOf noFaults "64b000000000000000000003" Sample.store.

(** The lecture submitted in [Desk.early] is deleted again. *)
Definition undone : Store * DeleteReply :=
  deleteLecture objectIdOf noFaults "64b000000000000000000005"
    (fst Desk.early).

(** The notifications collection with [_id]s: a warning of the
    volunteer, a warning of the idle volunteer and a later lecture-added
    notification of the volunteer. *)
Definition inbox : list NotificationDoc.t :=
  [ NotificationDoc.mk 3%nat
      (lowLectureNotification Sample.sunday Sample.volunteer Sample.sara
         Sample.math 1);
    NotificationDoc.mk 4%nat
      (lowLectureNotification Sample.sunday Sample.idle Sample.sara
         Sample.math 0);
    NotificationDoc.mk 5%nat
      (lectureAddedNotification Sample.nextSunday 7%nat Sample.volunteer
         Sample.lectureBody "s@x.com") ].

(** The volunteer deletes the first notification. *)
Definition cleared : list NotificationDoc.t * DeleteNotificationReply :=
  deleteNotification objectIdOf noFaults inbox 7%nat
    "64b000000000000000000003".

End Office.

(* ===================================================================== *)
(** ** Vocabulary of the transactions *)
(* ===================================================================== *)

(** Every call of the block carries the session. *)
Fixpoint inSession {A : Type} (p : Prog A) : Prop :=
  match p with
  | Ret _ => True
  | Await scope _ k => scope = InSession /\ forall x, inSession (k x)
  end.

(** The writes of the handlers. *)
Inductive Write : Type :=
| SaveUser (u : User.t)
| SaveJoinRequest (j : JoinRequest.t)
| SaveNotification (n : Notification.t)
| DeleteNotifications (q : NotificationFilter)
| SaveReport (r : LowLectureReport.t).

Definition writeOf {X : Type} (o : DbOp X) : option Write :=
  match o with
  | UserSave u => Some (SaveUser u)
  | JoinRequestSave j => Some (SaveJoinRequest j)
  | NotificationSave n => Some (SaveNotification n)
  | NotificationDeleteMany q => Some (DeleteNotifications q)
  | ReportSave r => Some (SaveReport r)
  | _ => None
  end.

(** What a write does to the documents. *)
Definition applyWrite (s : Store) (w : Write) : Store :=
  match w with
  | SaveUser u =>
      mkStore (replaceUser u (users s)) (joinRequests s) (notifications s)
        (reports s)
  | SaveJoinRequest j =>
      mkStore (users s) (replaceJoinRequest j (joinRequests s))
        (notifications s) (reports s)
  | SaveNotification n =>
      mkStore (users s) (joinRequests s) (notifications s ++ [n]) (reports s)
  | DeleteNotifications q =>
      mkStore (users s) (joinRequests s)
        (filter (fun n => negb (notificationMatches q n)) (notifications s))
        (reports s)
  | SaveReport r =>
      mkStore (users s) (joinRequests s) (notifications s) (reports s ++ [r])
  end.

(** The writes a block awaits, in order, when it starts on the documents
    [s] and no call fails. *)
Fixpoint writesOf {A : Type} (p : Prog A) (s : Store) : list Write :=
  match p with
  | Ret _ => []
  | Await _ o k =>
      let (x, s') := perform o s in
      match writeOf o with
      | Some w => w :: writesOf (k x) s'
      | None => writesOf (k x) s'
      end
  end.

(** The calls a call of [checkLowLectureMembers] on [s] awaits when
    none fails: the start of the session, the calls of the [try] block
    and the commit. *)
Definition callsOfRun `{Engine} (isCronJob : bool) (now : Date) (s : Store)
  : nat :=
  S (S (calls (checkLowLectureMembersBody isCronJob now) s)).

(** [k] is the first call that fails. *)
Definition firstFailure (faults : nat -> option Error) (k : nat) : Prop :=
  faults k <> None /\ forall j, (j < k)%nat -> faults j = None.

(* ===================================================================== *)
(** ** Vocabulary of the week window *)
(* ===================================================================== *)

Section Zones.

Context `{Engine}.

(** The civil day of an instant: the day number of its local time. *)
Definition civilDay (t : Date) : Z := JsDate.day (localTime t).

(** The local time value of a time of a civil day. *)
Definition localAt (day h m s ms : Z) : Z :=
  day * JsDate.msPerDay + JsDate.makeTime h m s ms.

(** The time zone keeps the civil day: the instant [UTC] assigns to a
    local time lies on the civil day of that local time, also where the
    clocks skip or repeat it. *)
Definition zoneKeepsCivilDay : Prop :=
  forall l, JsDate.day (localTime (utc l)) = JsDate.day l.

(** The civil days follow the instants: a later instant is not on an
    earlier civil day. *)
Definition civilDaysInOrder : Prop :=
  forall t t', t <= t' -> civilDay t <= civilDay t'.

(** The Saturday that starts the window evaluated on the civil day
    [today]: the Saturday a week before the last Saturday that is
    earlier than [today]. *)
Definition windowSaturday (today : Z) : Z :=
  let weekDay := (today + 4) mod 7 in
  today - (if weekDay =? 6 then 7 else weekDay + 1) - 7.

End Zones.

(* ===================================================================== *)
(** ** Vocabulary of the counts *)
(* ===================================================================== *)

(** [n] of the elements of a list satisfy [P]. *)
Inductive Counts {A : Type} (P : A -> Prop) : list A -> nat -> Prop :=
| Counts_nil : Counts P [] 0
| Counts_in (x : A) (l : list A) (n : nat) :
    P x -> Counts P l n -> Counts P (x :: l) (S n)
| Counts_out (x : A) (l : list A) (n : nat) :
    ~ P x -> Counts P l n -> Counts P (x :: l) n.

(** An element of a member's [lectures] shows the stored lecture. *)
Definition showsLecture (l : Lecture.t) (j : LectureJson.t) : Prop :=
  LectureJson._id j = Lecture._id l
  /\ LectureJson.name j = Lecture.name l
  /\ LectureJson.subject j = Lecture.subject l
  /\ LectureJson.studentEmail j = Lecture.studentEmail l
  /\ LectureJson.link j = Lecture.link l
  /\ LectureJson.createdAt j = Lecture.createdAt l.

(* ===================================================================== *)
(** ** Vocabulary of the case conversion *)
(* ===================================================================== *)

Section CaseConversion.

Context `{Engine}.

(** Facts of the lower-case conversion of Unicode that the roster test
    of a submission rests on: converting twice is converting once; no
    white space character is the conversion of another character or has
    one, so a string starts or ends with white space exactly when its
    conversion does; only the empty string converts to the empty
    string. *)
Definition lowerCaseIsIdempotent : Prop :=
  forall s, toLowerCase (toLowerCase s) = toLowerCase s.

Definition lowerCaseKeepsWhiteSpace : Prop :=
  forall s, padded (toLowerCase s) = padded s.

Definition lowerCaseKeepsText : Prop :=
  forall s, toLowerCase s = "" -> s = "".

End CaseConversion.

(** A byte that is no letter of A to Z or a to z. *)
Definition noLetter (c : ascii) : bool :=
  let n := nat_of_ascii c in
  negb (((65 <=? n) && (n <=? 90)) || ((97 <=? n) && (n <=? 122)))%nat.

Fixpoint noLetters (w : string) : bool :=
  match w with
  | EmptyString => true
  | String c r => noLetter c && noLetters r
  end.


(* ===================================================================== *)
(** ** Vocabulary of the nested calls *)
(* ===================================================================== *)

(** The outcome of a part of a handler that starts one awaited call
    later. *)
Definition later {A : Type} (o : Outcome A) : Outcome A :=
  match o with
  | Returned a n db => Returned a (S n) db
  | Thrown e n db => Thrown e (S n) db
  end.

(** The failures as a part sees them that starts after the first
    call. *)
Definition afterFirst (faults : nat -> option Error) : nat -> option Error :=
  fun n => faults (S n).

(* ===================================================================== *)
(** ** Trimming *)
(* ===================================================================== *)

Lemma length_of_list (l : list ascii) :
  String.length (string_of_list_ascii l) = List.length l.
Proof. induction l as [| c r IH]; simpl; [| rewrite IH]; reflexivity. Qed.

Lemma length_list_of (s : string) :
  List.length (list_ascii_of_string s) = String.length s.
Proof. induction s as [| c r IH]; simpl; [| rewrite IH]; reflexivity. Qed.

Lemma reverse_length (s : string) :
  String.length (Str.reverse s) = String.length s.
Proof.
  unfold Str.reverse. rewrite length_of_list, length_rev.
  apply length_list_of.
Qed.

Lemma reverse_involutive (s : string) : Str.reverse (Str.reverse s) = s.
Proof.
  unfold Str.reverse.
  rewrite list_ascii_of_string_of_list_ascii, rev_involutive.
  apply string_of_list_ascii_of_string.
Qed.

Lemma list_of_append (a b : string) :
  list_ascii_of_string (a ++ b)%string
  = list_ascii_of_string a ++ list_ascii_of_string b.
Proof. induction a as [| c r IH]; simpl; [| rewrite IH]; reflexivity. Qed.

Lemma of_list_app (a b : list ascii) :
  string_of_list_ascii (a ++ b)
  = (string_of_list_ascii a ++ string_of_list_ascii b)%string.
Proof. induction a as [| c r IH]; simpl; [| rewrite IH]; reflexivity. Qed.

Lemma reverse_append (a b : string) :
  Str.reverse (a ++ b)%string = (Str.reverse b ++ Str.reverse a)%string.
Proof.
  unfold Str.reverse. rewrite list_of_append, rev_app_distr.
  apply of_list_app.
Qed.

Lemma prefix_length (w s : string) :
  String.prefix w s = true -> (String.length w <= String.length s)%nat.
Proof.
  revert s. induction w as [| c w IH]; intros s; [simpl; lia |].
  destruct s as [| d s]; simpl; [intros Hp; discriminate Hp |].
  destruct (ascii_dec c d); [| intros Hp; discriminate Hp].
  intros Hp. specialize (IH s Hp). lia.
Qed.

Lemma prefix_append_right (w a b : string) :
  String.prefix w a = true -> String.prefix w (a ++ b)%string = true.
Proof.
  revert a. induction w as [| c w IH]; intros a.
  - intros _. destruct (a ++ b)%string; reflexivity.
  - destruct a as [| d a]; simpl; [intros Hp; discriminate Hp |].
    destruct (ascii_dec c d); [apply IH | intros Hp; discriminate Hp].
Qed.

Lemma drop_length (n : nat) (s : string) :
  String.length (Str.drop n s) = (String.length s - n)%nat.
Proof.
  revert s. induction n as [| n IH]; intros s; simpl.
  - lia.
  - destruct s as [| c r]; simpl; [reflexivity | apply IH].
Qed.

(** What is left of a string is an end of it. *)
Lemma drop_suffix (n : nat) (s : string) :
  exists pre, s = (pre ++ Str.drop n s)%string.
Proof.
  revert s. induction n as [| n IH]; intros s; simpl.
  - exists "". reflexivity.
  - destruct s as [| c r]; [exists ""; reflexivity |].
    destruct (IH r) as [pre Hpre]. exists (String c pre).
    simpl. rewrite <- Hpre. reflexivity.
Qed.

Section Strip.

Variable patterns : list string.
Hypothesis nonEmpty : forall w, In w patterns -> w <> "".

Lemma stripOne_shorter (s r : string) :
  Str.stripOne patterns s = Some r ->
  (String.length r < String.length s)%nat.
Proof.
  unfold Str.stripOne.
  destruct (find (fun w => String.prefix w s) patterns) as [w |] eqn:E;
    [| discriminate].
  intros Hr. injection Hr as <-. apply find_some in E.
  destruct E as [Hin Hp]. apply prefix_length in Hp.
  rewrite drop_length. pose proof (nonEmpty w Hin) as Hne.
  destruct w; [contradiction |]. simpl in *. lia.
Qed.

Lemma stripOne_empty : Str.stripOne patterns "" = None.
Proof.
  unfold Str.stripOne.
  destruct (find (fun w => String.prefix w "") patterns) as [w |] eqn:E;
    [| reflexivity].
  apply find_some in E. destruct E as [Hin Hp].
  pose proof (nonEmpty w Hin) as Hne. destruct w; [contradiction |].
  discriminate.
Qed.

(** With enough fuel nothing is left to remove. *)
Lemma stripAll_done (fuel : nat) :
  forall s, (String.length s <= fuel)%nat ->
    Str.stripOne patterns (Str.stripAll patterns fuel s) = None.
Proof.
  induction fuel as [| fuel IH]; intros s Hlen; simpl.
  - destruct s; [apply stripOne_empty | simpl in Hlen; lia].
  - destruct (Str.stripOne patterns s) as [r |] eqn:E; [| exact E].
    apply IH. apply stripOne_shorter in E. lia.
Qed.

Lemma stripAll_suffix (fuel : nat) :
  forall s, exists pre, s = (pre ++ Str.stripAll patterns fuel s)%string.
Proof.
  induction fuel as [| fuel IH]; intros s; simpl.
  - exists "". reflexivity.
  - destruct (Str.stripOne patterns s) as [r |] eqn:E;
      [| exists ""; reflexivity].
    unfold Str.stripOne in E.
    destruct (find _ patterns) as [w |]; [| discriminate].
    injection E as <-.
    destruct (drop_suffix (String.length w) s) as [p1 H1].
    destruct (IH (Str.drop (String.length w) s)) as [p2 H2].
    exists (p1 ++ p2)%string. rewrite H1 at 1. rewrite H2 at 1.
    clear. induction p1 as [| c p1 IHp]; simpl; [| rewrite IHp]; reflexivity.
Qed.

Lemma stripOne_none (s : string) :
  Str.stripOne patterns s = None
  <-> existsb (fun w => String.prefix w s) patterns = false.
Proof.
  unfold Str.stripOne. clear nonEmpty.
  induction patterns as [| w r IH]; simpl; [tauto |].
  destruct (String.prefix w s); simpl; [split; discriminate | exact IH].
Qed.

End Strip.

Lemma whiteSpace_nonEmpty (w : string) : In w Str.whiteSpace -> w <> "".
Proof.
  intros Hin Hw. subst w. vm_compute in Hin.
  repeat (destruct Hin as [Hin | Hin]; [discriminate |]). exact Hin.
Qed.

Lemma reversed_whiteSpace_nonEmpty (w : string) :
  In w (map Str.reverse Str.whiteSpace) -> w <> "".
Proof.
  intros Hin Hw. subst w. vm_compute in Hin.
  repeat (destruct Hin as [Hin | Hin]; [discriminate |]). exact Hin.
Qed.

Lemma existsb_mapped {A B : Type} (f : B -> bool) (g : A -> B) (l : list A) :
  existsb f (map g l) = existsb (fun x => f (g x)) l.
Proof. induction l as [| x r IH]; simpl; [| rewrite IH]; reflexivity. Qed.

Lemma trimStart_start (s : string) : startsWithSpace (Str.trimStart s) = false.
Proof.
  unfold startsWithSpace, Str.trimStart. apply stripOne_none.
  apply stripAll_done; [apply whiteSpace_nonEmpty | lia].
Qed.

Lemma trimEnd_end (s : string) : endsWithSpace (Str.trimEnd s) = false.
Proof.
  unfold endsWithSpace, Str.trimEnd. rewrite reverse_involutive.
  rewrite <- (existsb_mapped (fun w => String.prefix w _) Str.reverse).
  apply stripOne_none. apply stripAll_done.
  - apply reversed_whiteSpace_nonEmpty.
  - rewrite reverse_length. lia.
Qed.

Lemma trimStart_keeps_end (s : string) :
  endsWithSpace s = false -> endsWithSpace (Str.trimStart s) = false.
Proof.
  unfold endsWithSpace, Str.trimStart. intros Hs.
  destruct (stripAll_suffix Str.whiteSpace (String.length s) s) as [pre Hpre].
  set (t := Str.stripAll Str.whiteSpace (String.length s) s) in *.
  apply not_true_is_false. intros E.
  apply existsb_exists in E. destruct E as (w & Hin & Hp).
  assert (Hs' : existsb (fun w => String.prefix (Str.reverse w)
                                    (Str.reverse s)) Str.whiteSpace = true).
  { apply existsb_exists. exists w. split; [exact Hin |].
    rewrite Hpre, reverse_append. apply prefix_append_right. exact Hp. }
  congruence.
Qed.

(** A trimmed string has no white space at its ends. *)
Lemma trim_unpadded (s : string) : padded (Str.trim s) = false.
Proof.
  unfold padded, Str.trim. rewrite trimStart_start. cbn [orb].
  apply trimStart_keeps_end. apply trimEnd_end.
Qed.

(* ===================================================================== *)
(** ** The case conversion of the samples *)
(* ===================================================================== *)

Lemma lowerAscii_idempotent (s : string) :
  Str.lowerAscii (Str.lowerAscii s) = Str.lowerAscii s.
Proof.
  induction s as [| c r IH]; simpl; [reflexivity |].
  rewrite IH. f_equal.
  unfold Str.lowerChar.
  destruct ((65 <=? nat_of_ascii c)%nat && (nat_of_ascii c <=? 90)%nat)
    eqn:E.
  - apply andb_prop in E. destruct E as [E1 E2].
    apply Nat.leb_le in E1, E2.
    rewrite nat_ascii_embedding by lia.
    destruct ((65 <=? nat_of_ascii c + 32)%nat
              && (nat_of_ascii c + 32 <=? 90)%nat) eqn:E'; [| reflexivity].
    apply andb_prop in E'. destruct E' as [_ E'].
    apply Nat.leb_le in E'. lia.
  - rewrite E. reflexivity.
Qed.

Lemma lowerAscii_text (s : string) : Str.lowerAscii s = "" -> s = "".
Proof. destruct s; [reflexivity | discriminate]. Qed.

Lemma lowerChar_noLetter (c x : ascii) :
  noLetter c = true ->
  (if ascii_dec c (Str.lowerChar x) then true else false)
  = (if ascii_dec c x then true else false).
Proof.
  unfold noLetter, Str.lowerChar. cbv zeta. intros Hc.
  apply negb_true_iff in Hc. apply orb_false_iff in Hc.
  destruct Hc as [Hup Hlow].
  destruct ((65 <=? nat_of_ascii x)%nat && (nat_of_ascii x <=? 90)%nat)
    eqn:E; [| reflexivity].
  apply andb_prop in E. destruct E as [E1 E2]. apply Nat.leb_le in E1, E2.
  destruct (ascii_dec c (ascii_of_nat (nat_of_ascii x + 32))) as [-> | _].
  - rewrite nat_ascii_embedding in Hlow by lia.
    apply andb_false_iff in Hlow.
    destruct Hlow as [Hl | Hl]; apply Nat.leb_gt in Hl; lia.
  - destruct (ascii_dec c x) as [-> | _]; [| reflexivity].
    apply andb_false_iff in Hup.
    destruct Hup as [Hl | Hl]; apply Nat.leb_gt in Hl; lia.
Qed.

Lemma prefix_lowerAscii (w s : string) :
  noLetters w = true ->
  String.prefix w (Str.lowerAscii s) = String.prefix w s.
Proof.
  revert s. induction w as [| c w IH]; intros s Hw;
    [destruct s; reflexivity |].
  simpl in Hw. apply andb_prop in Hw. destruct Hw as [Hc Hw].
  destruct s as [| x s]; simpl; [reflexivity |].
  pose proof (lowerChar_noLetter c x Hc) as Hx.
  destruct (ascii_dec c (Str.lowerChar x)), (ascii_dec c x);
    try discriminate; [apply IH; exact Hw | reflexivity].
Qed.

Lemma lowerAscii_as_map (s : string) :
  Str.lowerAscii s
  = string_of_list_ascii (map Str.lowerChar (list_ascii_of_string s)).
Proof. induction s as [| c r IH]; simpl; [| rewrite IH]; reflexivity. Qed.

Lemma reverse_lowerAscii (s : string) :
  Str.reverse (Str.lowerAscii s) = Str.lowerAscii (Str.reverse s).
Proof.
  unfold Str.reverse. rewrite !lowerAscii_as_map.
  rewrite !list_ascii_of_string_of_list_ascii, map_rev. reflexivity.
Qed.

Lemma whiteSpace_noLetters (w : string) :
  In w Str.whiteSpace ->
  noLetters w = true /\ noLetters (Str.reverse w) = true.
Proof.
  intros Hin. vm_compute in Hin.
  repeat (destruct Hin as [<- | Hin]; [split; reflexivity |]).
  destruct Hin.
Qed.

Lemma existsb_same {A : Type} (f g : A -> bool) (l : list A) :
  (forall x, In x l -> f x = g x) -> existsb f l = existsb g l.
Proof.
  induction l as [| x r IH]; simpl; intros Hfg; [reflexivity |].
  rewrite (Hfg x) by (left; reflexivity).
  rewrite IH; [reflexivity |]. intros y Hy. apply Hfg. right. exact Hy.
Qed.

Lemma padded_lowerAscii (s : string) :
  padded (Str.lowerAscii s) = padded s.
Proof.
  unfold padded, startsWithSpace, endsWithSpace. f_equal.
  - apply existsb_same. intros w Hw. apply prefix_lowerAscii.
    apply (whiteSpace_noLetters w Hw).
  - apply existsb_same. intros w Hw. rewrite reverse_lowerAscii.
    apply prefix_lowerAscii. apply (whiteSpace_noLetters w Hw).
Qed.

Section SampleStrings.

#[local] Existing Instance Sample.engine.

Example normalised_email : Str.trim (toLowerCase "  S@X.com ") = "s@x.com".
Proof. vm_compute. reflexivity. Qed.

Example trim_keeps_inner_blanks : Str.trim " a b  " = "a b".
Proof. vm_compute. reflexivity. Qed.

(** The no-break space U+00A0 and the byte order mark U+FEFF are
    trimmed. *)
Example trim_removes_unicode_white_space :
  Str.trim (Str.ofBytes [194; 160; 111; 64; 120; 239; 187; 191]) = "o@x".
Proof. vm_compute. reflexivity. Qed.

Lemma sample_lowerCaseIsIdempotent : lowerCaseIsIdempotent.
Proof. intros s. apply lowerAscii_idempotent. Qed.

Lemma sample_lowerCaseKeepsWhiteSpace : lowerCaseKeepsWhiteSpace.
Proof. intros s. apply padded_lowerAscii. Qed.

Lemma sample_lowerCaseKeepsText : lowerCaseKeepsText.
Proof. intros s. apply lowerAscii_text. Qed.

End SampleStrings.

(* ===================================================================== *)
(** ** Running blocks *)
(* ===================================================================== *)

Lemma run_bind {A B : Type} (m : Prog A) (f : A -> Prog B) (s : Store) :
  run (bind m f) s = run (f (fst (run m s))) (snd (run m s)).
Proof.
  revert s. induction m as [a | X scope o k IH]; intros s; simpl.
  - reflexivity.
  - destruct (perform o s) as [x s']. apply IH.
Qed.

Lemma run_withSession {X : Type} (o : DbOp X) (s : Store) :
  run (withSession o) s = perform o s.
Proof. unfold withSession. simpl. destruct (perform o s); reflexivity. Qed.

(** One awaited call of a run without failures. *)
Ltac awaited := rewrite run_bind, run_withSession; cbn [perform fst snd].

Lemma run_forEach_cons {A B : Type} (body : B -> A -> Prog B) (x : A)
    (r : list A) (acc : B) (s : Store) :
  run (forEach body (x :: r) acc) s
  = run (forEach body r (fst (run (body acc x) s))) (snd (run (body acc x) s)).
Proof. simpl. apply run_bind. Qed.

(* ===================================================================== *)
(** ** Blocks whose calls carry the session *)
(* ===================================================================== *)

Lemma inSession_bind {A B : Type} (m : Prog A) (f : A -> Prog B) :
  inSession m -> (forall a, inSession (f a)) -> inSession (bind m f).
Proof.
  induction m as [a | X scope o k IH]; simpl; intros Hm Hf.
  - apply Hf.
  - destruct Hm as [Hscope Hk]. split; [exact Hscope |].
    intros x. apply IH; [apply Hk | exact Hf].
Qed.

Lemma inSession_withSession {X : Type} (o : DbOp X) :
  inSession (withSession o).
Proof. simpl. split; [reflexivity | intros x; exact I]. Qed.

Lemma inSession_forEach {A B : Type} (body : B -> A -> Prog B)
    (l : list A) :
  (forall acc x, inSession (body acc x)) ->
  forall acc, inSession (forEach body l acc).
Proof.
  intros Hbody. induction l as [| x r IH]; intros acc; simpl.
  - exact I.
  - apply inSession_bind; [apply Hbody | exact IH].
Qed.

(** The writes of a block that succeeds are what it does to the
    documents. *)
Lemma perform_write {X : Type} (o : DbOp X) (s : Store) :
  snd (perform o s)
  = match writeOf o with
    | Some w => applyWrite s w
    | None => s
    end.
Proof. destruct o; reflexivity. Qed.

Lemma run_writes {A : Type} (p : Prog A) :
  forall s, snd (run p s) = fold_left applyWrite (writesOf p s) s.
Proof.
  induction p as [a | X scope o k IH]; intros s; simpl.
  - reflexivity.
  - pose proof (perform_write o s) as Hw.
    destruct (perform o s) as [x s']. simpl in Hw.
    rewrite IH. destruct (writeOf o) as [w |]; simpl; rewrite Hw; reflexivity.
Qed.

(** A block whose calls all carry the session, in an open transaction:
    either every call succeeds, and the view of the transaction is what
    the run of the block makes of it; or the block throws the error of
    its first call that fails. The committed documents stay as they are
    and the transaction stays open. *)
Lemma exec_inSession {A : Type} (p : Prog A) :
  inSession p ->
  forall faults n c v,
    match exec p faults n (mkDb c (Some v)) with
    | Returned a n' db =>
        a = fst (run p v)
        /\ db = mkDb c (Some (snd (run p v)))
        /\ n' = (n + calls p v)%nat
        /\ forall k, (k < calls p v)%nat -> faults (n + k)%nat = None
    | Thrown e n' db =>
        (exists v', db = mkDb c (Some v'))
        /\ exists k, (k < calls p v)%nat
                     /\ faults (n + k)%nat = Some e
                     /\ (forall j, (j < k)%nat -> faults (n + j)%nat = None)
                     /\ n' = S (n + k)
    end.
Proof.
  induction p as [a | X scope o k IH]; intros Hp faults n c v.
  - simpl. repeat split; [lia | intros k Hk; lia].
  - destruct Hp as [-> Hk]. cbn [exec run calls].
    unfold andThen, call. destruct (faults n) as [e |] eqn:Hf.
    + split; [exists v; reflexivity |].
      exists 0%nat. destruct (perform o v) as [x v'].
      rewrite Nat.add_0_r. repeat split; [lia | exact Hf | intros j Hj; lia].
    + unfold query. cbn [session committed].
      destruct (perform o v) as [x v'].
      specialize (IH x (Hk x) faults (S n) c v').
      destruct (exec (k x) faults (S n) (mkDb c (Some v')))
        as [a n' db | e n' db].
      * destruct IH as (Ha & Hdb & Hn & Hnone).
        repeat split; [exact Ha | exact Hdb | lia |].
        intros j Hj. destruct j as [| j].
        -- rewrite Nat.add_0_r. exact Hf.
        -- rewrite Nat.add_succ_r. apply (Hnone j). lia.
      * destruct IH as (Hdb & j & Hj & Hfj & Hbefore & Hn).
        split; [exact Hdb |].
        exists (S j). rewrite Nat.add_succ_r. repeat split.
        -- lia.
        -- exact Hfj.
        -- intros i Hi. destruct i as [| i].
           ++ rewrite Nat.add_0_r. exact Hf.
           ++ rewrite Nat.add_succ_r. apply (Hbefore i). lia.
        -- exact Hn.
Qed.

Section Loops.

Context {engine : Engine}.

(* ===================================================================== *)
(** ** Notifications *)
(* ===================================================================== *)

Lemma countMatching_app (q : NotificationFilter) (l l' : list Notification.t) :
  countMatching q (l ++ l') = (countMatching q l + countMatching q l')%nat.
Proof. unfold countMatching. rewrite filter_app, length_app. reflexivity. Qed.

Lemma countMatching_find_none (q : NotificationFilter)
    (l : list Notification.t) :
  find (notificationMatches q) l = None -> countMatching q l = 0%nat.
Proof.
  unfold countMatching. induction l as [| n r IH]; simpl; intros H.
  - reflexivity.
  - destruct (notificationMatches q n); [discriminate | auto].
Qed.

Lemma optStringEqb_eq (o : option string) (s : string) :
  optStringEqb o s = true -> o = Some s.
Proof.
  destruct o as [x |]; simpl; intros H; [| discriminate].
  apply String.eqb_eq in H. congruence.
Qed.

(** A notification is selected by one filter at most. *)
Lemma notificationMatches_inj (q q' : NotificationFilter)
    (n : Notification.t) :
  notificationMatches q n = true -> notificationMatches q' n = true ->
  q = q'.
Proof.
  unfold notificationMatches. intros H H'.
  repeat (apply andb_prop in H; destruct H as [H ?]).
  repeat (apply andb_prop in H'; destruct H' as [H' ?]).
  destruct q as [u t sb e], q' as [u' t' sb' e']; simpl in *.
  repeat match goal with
         | E : (_ =? _)%nat = true |- _ => apply Nat.eqb_eq in E
         | E : (_ =? _)%string = true |- _ => apply String.eqb_eq in E
         | E : optStringEqb _ _ = true |- _ => apply optStringEqb_eq in E
         end.
  f_equal; congruence.
Qed.

Lemma lowLectureNotification_matches (now : Date) (u : User.t)
    (st : Student.t) (sb : Subject.t) (c : nat) :
  notificationMatches (lowLectureFilter u st sb)
    (lowLectureNotification now u st sb c) = true.
Proof.
  unfold notificationMatches, lowLectureFilter, lowLectureNotification.
  simpl. rewrite Nat.eqb_refl, !String.eqb_refl. reflexivity.
Qed.

Lemma notificationsExtend_refl (b : bool) (P : ObjectId -> Prop)
    (l : list Notification.t) :
  notificationsExtend b P l l.
Proof.
  exists []. rewrite app_nil_r. repeat split; auto.
Qed.

Lemma notificationsExtend_trans (b : bool) (P : ObjectId -> Prop)
    (l1 l2 l3 : list Notification.t) :
  notificationsExtend b P l1 l2 -> notificationsExtend b P l2 l3 ->
  notificationsExtend b P l1 l3.
Proof.
  intros (a1 & E1 & N1 & F1 & C1) (a2 & E2 & N2 & F2 & C2).
  exists (a1 ++ a2). split; [| split; [| split]].
  - subst. rewrite app_assoc. reflexivity.
  - intros Hb. rewrite (N1 Hb), (N2 Hb). reflexivity.
  - apply Forall_app. split; assumption.
  - intros q. destruct (C1 q) as [H1 | [H1 H1']], (C2 q) as [H2 | [H2 H2']];
      lia.
Qed.

Lemma notificationsExtend_weaken (b : bool) (P Q : ObjectId -> Prop)
    (l l' : list Notification.t) :
  (forall id, P id -> Q id) ->
  notificationsExtend b P l l' -> notificationsExtend b Q l l'.
Proof.
  intros HPQ (a & E & N & F & C). exists a. repeat split; auto.
  - eapply Forall_impl; [| exact F]. simpl. intros n [Hp Ht]. auto.
Qed.

(** Appending the notification of a tuple that has none. *)
Lemma notificationsExtend_save (P : ObjectId -> Prop) (now : Date)
    (u : User.t) (st : Student.t) (sb : Subject.t) (c : nat)
    (l : list Notification.t) :
  P (User._id u) ->
  find (notificationMatches (lowLectureFilter u st sb)) l = None ->
  notificationsExtend true P l (l ++ [lowLectureNotification now u st sb c]).
Proof.
  intros HP Hnone. exists [lowLectureNotification now u st sb c].
  split; [reflexivity |]. split; [discriminate |]. split.
  - constructor; [| constructor]. split; [exact HP | reflexivity].
  - intros q. rewrite countMatching_app.
    assert (Hone : countMatching q [lowLectureNotification now u st sb c]
                   = if notificationMatches q
                          (lowLectureNotification now u st sb c)
                     then 1%nat else 0%nat).
    { unfold countMatching. simpl.
      destruct (notificationMatches q _); reflexivity. }
    rewrite Hone.
    destruct (notificationMatches q (lowLectureNotification now u st sb c))
      eqn:Hq.
    + right.
      assert (q = lowLectureFilter u st sb) as ->.
      { eapply notificationMatches_inj; [exact Hq |].
        apply lowLectureNotification_matches. }
      rewrite (countMatching_find_none _ _ Hnone). split; reflexivity.
    + left. lia.
Qed.

(* ===================================================================== *)
(** ** The loops of [checkLowLectureMembers], call by call *)
(* ===================================================================== *)

Lemma length_pos_match {A : Type} (l : list A) :
  (0 <? List.length l)%nat = match l with [] => false | _ => true end.
Proof. destruct l; reflexivity. Qed.

Section LoopBodies.

Variables (isCronJob : bool) (now weekStart weekEnd : Date).

Lemma run_subjectLoopBody (u : User.t) (st : Student.t)
    (acc : list UnderTargetSubject.t) (sb : Subject.t) (s : Store) :
  let r := run (subjectLoopBody isCronJob now weekStart weekEnd u st acc sb) s in
  fst r = acc ++ (if isUnderTarget weekStart weekEnd u st sb
                  then [underTargetEntry weekStart weekEnd u st sb] else [])
  /\ sameDocuments s (snd r)
  /\ notificationsExtend isCronJob (fun id => id = User._id u)
       (notifications s) (notifications (snd r)).
Proof.
  unfold subjectLoopBody, isUnderTarget, underTargetEntry, sameDocuments.
  cbv zeta.
  destruct (Z.of_nat (lectureCount weekStart weekEnd u st sb)
            <? Subject.minLectures sb).
  - destruct isCronJob.
    + awaited.
      destruct (find (notificationMatches (lowLectureFilter u st sb))
                  (notifications s)) eqn:Hfind.
      * cbn [run fst snd]. repeat split. apply notificationsExtend_refl.
      * rewrite run_bind, run_withSession. cbn [perform run fst snd notifications users joinRequests reports].
        repeat split.
        apply notificationsExtend_save; [reflexivity | exact Hfind].
    + cbn [run fst snd]. repeat split. apply notificationsExtend_refl.
  - cbn [run fst snd]. rewrite app_nil_r. repeat split.
    apply notificationsExtend_refl.
Qed.

Lemma run_subjectLoop (u : User.t) (st : Student.t)
    (subjects : list Subject.t) :
  forall (acc : list UnderTargetSubject.t) (s : Store),
    let r := run (forEach (subjectLoopBody isCronJob now weekStart weekEnd u st)
                    subjects acc) s in
    fst r = acc ++ map (underTargetEntry weekStart weekEnd u st)
                     (filter (isUnderTarget weekStart weekEnd u st) subjects)
    /\ sameDocuments s (snd r)
    /\ notificationsExtend isCronJob (fun id => id = User._id u)
         (notifications s) (notifications (snd r)).
Proof.
  induction subjects as [| sb rest IH]; intros acc s.
  - simpl. rewrite app_nil_r. repeat split. apply notificationsExtend_refl.
  - cbv zeta. rewrite run_forEach_cons.
    destruct (run_subjectLoopBody u st acc sb s) as (Hacc & (Hu & Hj & Hr) & Hn).
    set (r1 := run (subjectLoopBody isCronJob now weekStart weekEnd u st acc sb) s) in *.
    destruct (IH (fst r1) (snd r1)) as (Hacc' & (Hu' & Hj' & Hr') & Hn').
    split; [| split].
    + rewrite Hacc', Hacc. simpl.
      destruct (isUnderTarget weekStart weekEnd u st sb); simpl;
        rewrite <- app_assoc; reflexivity.
    + unfold sameDocuments. repeat split; congruence.
    + eapply notificationsExtend_trans; eassumption.
Qed.

Lemma run_studentLoopBody (u : User.t) (acc : list UnderTargetStudent.t)
    (st : Student.t) (s : Store) :
  let r := run (studentLoopBody isCronJob now weekStart weekEnd u acc st) s in
  fst r = acc ++ underTargetStudentOf weekStart weekEnd u st
  /\ sameDocuments s (snd r)
  /\ notificationsExtend isCronJob (fun id => id = User._id u)
       (notifications s) (notifications (snd r)).
Proof.
  unfold studentLoopBody, underTargetStudentOf, underTargetSubjectsOf.
  cbv zeta.
  destruct (Student.subjects st) as [| sb0 rest] eqn:Hsub.
  - cbn [run fst snd filter map]. rewrite app_nil_r.
    repeat split. apply notificationsExtend_refl.
  - rewrite run_bind.
    destruct (run_subjectLoop u st (sb0 :: rest) [] s)
      as (Hacc & Hsame & Hn).
    set (r1 := run (forEach _ (sb0 :: rest) []) s) in *.
    rewrite Hacc. cbn [app].
    rewrite length_pos_match.
    destruct (map _ (filter _ (sb0 :: rest))) as [| e es].
    + cbn [run fst snd]. rewrite app_nil_r. auto.
    + cbn [run fst snd]. auto.
Qed.

Lemma run_studentLoop (u : User.t) (students : list Student.t) :
  forall (acc : list UnderTargetStudent.t) (s : Store),
    let r := run (forEach (studentLoopBody isCronJob now weekStart weekEnd u)
                    students acc) s in
    fst r = acc ++ flat_map (underTargetStudentOf weekStart weekEnd u) students
    /\ sameDocuments s (snd r)
    /\ notificationsExtend isCronJob (fun id => id = User._id u)
         (notifications s) (notifications (snd r)).
Proof.
  induction students as [| st rest IH]; intros acc s.
  - simpl. rewrite app_nil_r. repeat split. apply notificationsExtend_refl.
  - cbv zeta. rewrite run_forEach_cons.
    destruct (run_studentLoopBody u acc st s) as (Hacc & (Hu & Hj & Hr) & Hn).
    set (r1 := run (studentLoopBody isCronJob now weekStart weekEnd u acc st) s) in *.
    destruct (IH (fst r1) (snd r1)) as (Hacc' & (Hu' & Hj' & Hr') & Hn').
    split; [| split].
    + rewrite Hacc', Hacc. simpl. rewrite <- app_assoc. reflexivity.
    + unfold sameDocuments. repeat split; congruence.
    + eapply notificationsExtend_trans; eassumption.
Qed.

Lemma run_resetIfFlagged (u : User.t) (s : Store) :
  run (resetIfFlagged isCronJob u) s
  = (tt, if isCronJob && (0 <? User.lowLectureWeekCount u)%nat
         then mkStore (replaceUser (resetCounter u) (users s))
                (joinRequests s) (notifications s) (reports s)
         else s).
Proof.
  unfold resetIfFlagged.
  destruct (isCronJob && (0 <? User.lowLectureWeekCount u)%nat).
  - rewrite run_withSession. reflexivity.
  - reflexivity.
Qed.

Lemma run_userLoopBody (members : list Member.t) (u : User.t) (s : Store) :
  let r := run (userLoopBody isCronJob now weekStart weekEnd members u) s in
  fst r = members
          ++ memberFor isCronJob weekStart weekEnd (joinRequests s) u
  /\ users (snd r)
     = applyWrites
         (optionToList
            (userWrite isCronJob weekStart weekEnd (joinRequests s) u))
         (users s)
  /\ joinRequests (snd r) = joinRequests s
  /\ reports (snd r) = reports s
  /\ notificationsExtend isCronJob
       (fun id => id = User._id u
                  /\ approvedRequest (joinRequests s) u <> None)
       (notifications s) (notifications (snd r)).
Proof.
  assert (HA : approvedRequest (joinRequests s) u
               = match find (fun j => (JoinRequest.email j
                                       =? Str.trim (toLowerCase
                                                      (User.email u)))%string)
                         (joinRequests s) with
                 | Some j => if (JoinRequest.status j =? "Approved")%string
                             then Some j else None
                 | None => None
                 end) by reflexivity.
  unfold userLoopBody, memberFor, userAfter, userWrite, flagged,
    underTargetStudentsOf.
  cbv zeta. awaited.
  rewrite HA. clear HA.
  destruct (find _ (joinRequests s)) as [j |] eqn:Hfind.
  2:{ cbn [run fst snd optionToList applyWrites fold_left].
      rewrite app_nil_r. repeat split. apply notificationsExtend_refl. }
  destruct (JoinRequest.status j =? "Approved")%string eqn:Hst;
    cbn [negb].
  2:{ cbn [run fst snd optionToList applyWrites fold_left].
      rewrite app_nil_r. repeat split. apply notificationsExtend_refl. }
  destruct (User.students u) as [| st0 rest] eqn:Hstud.
  - rewrite run_bind, run_resetIfFlagged.
    cbn [flat_map run fst snd].
    rewrite app_nil_r.
    destruct (isCronJob && (0 <? User.lowLectureWeekCount u)%nat);
      cbn [optionToList applyWrites fold_left users joinRequests reports
             notifications];
      repeat split; apply notificationsExtend_refl.
  - rewrite run_bind.
    destruct (run_studentLoop u (st0 :: rest) [] s)
      as (Hacc & (Hu & Hj & Hr) & Hn).
    set (r1 := run (forEach _ (st0 :: rest) []) s) in *.
    rewrite Hacc. cbn [app].
    assert (Hn' : notificationsExtend isCronJob
                    (fun id => id = User._id u /\ Some j <> None)
                    (notifications s) (notifications (snd r1))).
    { eapply notificationsExtend_weaken; [| exact Hn].
      intros id Hid. split; [assumption | discriminate]. }
    rewrite length_pos_match.
    destruct (flat_map _ (st0 :: rest)) as [| x xs].
    + rewrite run_bind, run_resetIfFlagged. cbn [run fst snd].
      rewrite app_nil_r.
      destruct (isCronJob && (0 <? User.lowLectureWeekCount u)%nat);
        cbn [optionToList applyWrites fold_left users joinRequests reports
               notifications];
        rewrite ?Hu; auto.
    + rewrite run_bind.
      destruct (isCronJob && notCountedYet weekStart u).
      * rewrite run_bind, run_withSession.
        cbn [perform run fst snd optionToList applyWrites fold_left users
               joinRequests reports notifications].
        rewrite ?Hu. auto.
      * cbn [run fst snd optionToList applyWrites fold_left]. auto.
Qed.

End LoopBodies.

Section Run.

Variables (isCronJob : bool) (now : Date).

Lemma applyWrites_app (w1 w2 : list User.t) (l : list User.t) :
  applyWrites (w1 ++ w2) l = applyWrites w2 (applyWrites w1 l).
Proof. unfold applyWrites. apply fold_left_app. Qed.

Lemma run_userLoop (weekStart weekEnd : Date) (snapshot : list User.t) :
  forall (members : list Member.t) (s : Store),
    let r := run (forEach (userLoopBody isCronJob now weekStart weekEnd)
                    snapshot members) s in
    fst r = members
            ++ flat_map (memberFor isCronJob weekStart weekEnd
                           (joinRequests s)) snapshot
    /\ users (snd r)
       = applyWrites
           (flat_map (fun u => optionToList
                                 (userWrite isCronJob weekStart weekEnd
                                    (joinRequests s) u)) snapshot)
           (users s)
    /\ joinRequests (snd r) = joinRequests s
    /\ reports (snd r) = reports s
    /\ notificationsExtend isCronJob
         (fun id => exists u, In u snapshot /\ id = User._id u
                              /\ approvedRequest (joinRequests s) u <> None)
         (notifications s) (notifications (snd r)).
Proof.
  induction snapshot as [| u rest IH]; intros members s.
  - simpl. rewrite app_nil_r. repeat split. apply notificationsExtend_refl.
  - cbv zeta. rewrite run_forEach_cons.
    destruct (run_userLoopBody isCronJob now weekStart weekEnd members u s)
      as (Hm & Hu & Hj & Hr & Hn).
    set (r1 := run (userLoopBody isCronJob now weekStart weekEnd members u) s)
      in *.
    destruct (IH (fst r1) (snd r1)) as (Hm' & Hu' & Hj' & Hr' & Hn').
    rewrite Hj in Hm', Hu', Hn'.
    split; [| split; [| split; [| split]]].
    + rewrite Hm', Hm. simpl. rewrite <- app_assoc. reflexivity.
    + rewrite Hu', Hu. simpl. rewrite applyWrites_app. reflexivity.
    + congruence.
    + congruence.
    + eapply notificationsExtend_trans.
      * eapply notificationsExtend_weaken; [| exact Hn].
        intros id [-> Ha]. exists u. split; [left; reflexivity | auto].
      * eapply notificationsExtend_weaken; [| exact Hn'].
        intros id (u' & Hin & -> & Ha). exists u'.
        split; [right; exact Hin | auto].
Qed.

(** What a run of the body without failures returns and stores. *)
Lemma run_body (s : Store) :
  let r := run (checkLowLectureMembersBody isCronJob now) s in
  fst r = responseOfRun isCronJob now s
  /\ users (snd r) = applyWrites (writesOfRun isCronJob now s) (users s)
  /\ joinRequests (snd r) = joinRequests s
  /\ reports (snd r)
     = (if isCronJob then reports s ++ [reportOfRun isCronJob now s]
        else reports s)
  /\ notificationsExtend isCronJob
       (fun id => exists u, evaluated s u /\ id = User._id u)
       (notifications s) (notifications (snd r)).
Proof.
  unfold checkLowLectureMembersBody. cbv zeta.
  awaited.
  fold isVolunteer. fold (volunteers s).
  rewrite run_bind.
  destruct (run_userLoop (Week.weekStart now) (Week.weekEnd now)
              (volunteers s) [] s) as (Hm & Hu & Hj & Hr & Hn).
  set (r1 := run (forEach _ (volunteers s) []) s) in *.
  cbn [app] in Hm.
  assert (Hn' : notificationsExtend isCronJob
                  (fun id => exists u, evaluated s u /\ id = User._id u)
                  (notifications s) (notifications (snd r1))).
  { eapply notificationsExtend_weaken; [| exact Hn].
    intros id (u & Hin & -> & Ha). exists u. split; [| reflexivity].
    unfold volunteers in Hin. apply filter_In in Hin.
    destruct Hin as [Hin Hv]. repeat split; assumption. }
  rewrite Hm. fold (membersOfRun isCronJob now s).
  rewrite run_bind.
  destruct isCronJob eqn:Hc.
  - rewrite run_withSession.
    cbn [perform run fst snd users joinRequests reports notifications].
    rewrite Hr. repeat split; assumption.
  - cbn [run fst snd]. repeat split; assumption.
Qed.

(** Every call of the evaluation carries the session, lines 347-561. *)
Lemma inSession_subjectLoopBody (weekStart weekEnd : Date) (u : User.t)
    (st : Student.t) (acc : list UnderTargetSubject.t) (sb : Subject.t) :
  inSession (subjectLoopBody isCronJob now weekStart weekEnd u st acc sb).
Proof.
  unfold subjectLoopBody. cbv zeta.
  destruct (_ <? _); [| exact I]. destruct isCronJob; [| exact I].
  apply inSession_bind; [apply inSession_withSession |].
  intros [n |]; [exact I |].
  apply inSession_bind; [apply inSession_withSession | intros _; exact I].
Qed.

Lemma inSession_studentLoopBody (weekStart weekEnd : Date) (u : User.t)
    (acc : list UnderTargetStudent.t) (st : Student.t) :
  inSession (studentLoopBody isCronJob now weekStart weekEnd u acc st).
Proof.
  unfold studentLoopBody. destruct (Student.subjects st) as [| sb r];
    [exact I |].
  apply inSession_bind.
  - apply inSession_forEach. intros acc' x. apply inSession_subjectLoopBody.
  - intros l. destruct (_ <? _)%nat; exact I.
Qed.

Lemma inSession_resetIfFlagged (u : User.t) :
  inSession (resetIfFlagged isCronJob u).
Proof.
  unfold resetIfFlagged.
  destruct (_ && _); [apply inSession_withSession | exact I].
Qed.

Lemma inSession_userLoopBody (weekStart weekEnd : Date)
    (members : list Member.t) (u : User.t) :
  inSession (userLoopBody isCronJob now weekStart weekEnd members u).
Proof.
  unfold userLoopBody.
  apply inSession_bind; [apply inSession_withSession |].
  intros [j |]; [| exact I].
  destruct (negb _); [exact I |].
  destruct (User.students u) as [| st r].
  - apply inSession_bind; [apply inSession_resetIfFlagged | intros _; exact I].
  - apply inSession_bind.
    + apply inSession_forEach. intros acc x. apply inSession_studentLoopBody.
    + intros l. destruct (_ <? _)%nat.
      * apply inSession_bind; [| intros u'; exact I].
        destruct (_ && _); [| exact I].
        apply inSession_bind;
          [apply inSession_withSession | intros _; exact I].
      * apply inSession_bind;
          [apply inSession_resetIfFlagged | intros _; exact I].
Qed.

Lemma inSession_body : inSession (checkLowLectureMembersBody isCronJob now).
Proof.
  unfold checkLowLectureMembersBody. cbv zeta.
  apply inSession_bind; [apply inSession_withSession |].
  intros us. apply inSession_bind.
  - apply inSession_forEach. intros acc x. apply inSession_userLoopBody.
  - intros members. apply inSession_bind; [| intros _; exact I].
    destruct isCronJob; [apply inSession_withSession | exact I].
Qed.

(** How a call ends, whatever calls fail. It throws when one of the
    calls it awaits fails, with the committed documents as they were:
    the error of the first call that failed, or that of the abort when
    the abort fails too. It returns when none of them failed: the run of
    the [try] block on the documents is committed. *)
Lemma checkLowLectureMembers_spec (faults : nat -> option Error)
    (s : Store) :
  match checkLowLectureMembers faults isCronJob now s with
  | (s', Threw e) =>
      s' = s
      /\ exists k,
           (k < callsOfRun isCronJob now s)%nat
           /\ (forall j, (j < k)%nat -> faults j = None)
           /\ ((faults k = Some e /\ (k = 0%nat \/ faults (S k) = None))
               \/ (faults k <> None /\ (0 < k)%nat
                   /\ faults (S k) = Some e))
  | (s', Ok response) =>
      (forall k, (k < callsOfRun isCronJob now s)%nat -> faults k = None)
      /\ s' = snd (run (checkLowLectureMembersBody isCronJob now) s)
      /\ response = fst (run (checkLowLectureMembersBody isCronJob now) s)
  end.
Proof.
  unfold checkLowLectureMembers, checkLowLectureMembersHandler, callsOfRun.
  set (body := checkLowLectureMembersBody isCronJob now).
  unfold andThen at 1. unfold call at 1.
  destruct (faults 0%nat) as [e0 |] eqn:F0.
  { split; [reflexivity |]. exists 0%nat.
    repeat split; [lia | intros j Hj; lia |].
    left. split; [exact F0 | left; reflexivity]. }
  cbn [startTransaction committed]. unfold tryCatch, andThen.
  pose proof (exec_inSession body inSession_body faults 1 s s) as Hx.
  destruct (exec body faults 1%nat (mkDb s (Some s))) as [a n' db | e n' db].
  - destruct Hx as (-> & -> & -> & Hnone).
    assert (Hbefore : forall j, (j < 1 + calls body s)%nat -> faults j = None).
    { intros j Hj. destruct j as [| j]; [exact F0 |].
      apply (Hnone j). lia. }
    unfold call at 1.
    destruct (faults (1 + calls body s)%nat) as [e |] eqn:Fc.
    + unfold call.
      destruct (faults (S (1 + calls body s))) as [e' |] eqn:Fa.
      * cbn [committed]. split; [reflexivity |].
        exists (1 + calls body s)%nat.
        repeat split; [lia | exact Hbefore |].
        right. repeat split; [congruence | lia | exact Fa].
      * cbn [abort committed throw]. split; [reflexivity |].
        exists (1 + calls body s)%nat.
        repeat split; [lia | exact Hbefore |].
        left. split; [exact Fc | right; exact Fa].
    + cbn [commit session committed ret]. repeat split.
      intros k Hk.
      destruct (Nat.eq_dec k (1 + calls body s)) as [-> | Hne];
        [exact Fc | apply Hbefore; lia].
  - destruct Hx as ((v' & ->) & k & Hk & Hf & Hbefore & ->).
    assert (Hbefore' : forall j, (j < 1 + k)%nat -> faults j = None).
    { intros j Hj. destruct j as [| j]; [exact F0 |].
      apply (Hbefore j). lia. }
    unfold call.
    destruct (faults (S (1 + k))) as [e' |] eqn:Fa.
    + cbn [committed]. split; [reflexivity |].
      exists (1 + k)%nat. repeat split; [lia | exact Hbefore' |].
      right. repeat split; [congruence | lia | exact Fa].
    + cbn [abort committed throw]. split; [reflexivity |].
      exists (1 + k)%nat. repeat split; [lia | exact Hbefore' |].
      left. split; [exact Hf | right; exact Fa].
Qed.

(** A call either rethrows the error of a failed call, with the
    documents as they were, or commits the run without failures. *)
Lemma checkLowLectureMembers_cases (faults : nat -> option Error)
    (s : Store) :
  (exists e k, checkLowLectureMembers faults isCronJob now s = (s, Threw e)
               /\ faults k = Some e)
  \/ checkLowLectureMembers faults isCronJob now s
     = (snd (run (checkLowLectureMembersBody isCronJob now) s),
        Ok (fst (run (checkLowLectureMembersBody isCronJob now) s))).
Proof.
  pose proof (checkLowLectureMembers_spec faults s) as H.
  destruct (checkLowLectureMembers faults isCronJob now s)
    as [s' [response | e]].
  - destruct H as (_ & -> & ->). right. reflexivity.
  - destruct H as (-> & k & _ & _ & [[Hf _] | (_ & _ & Hf)]); left.
    + exists e, k. split; [reflexivity | exact Hf].
    + exists e, (S k). split; [reflexivity | exact Hf].
Qed.

Lemma checkLowLectureMembers_ok (faults : nat -> option Error)
    (s s' : Store) (response : Response.t) :
  checkLowLectureMembers faults isCronJob now s = (s', Ok response) ->
  (s', response) = (snd (run (checkLowLectureMembersBody isCronJob now) s),
                    fst (run (checkLowLectureMembersBody isCronJob now) s)).
Proof.
  intros H.
  destruct (checkLowLectureMembers_cases faults s)
    as [(e & k & Ht & _) | Hok]; congruence.
Qed.

Lemma checkLowLectureMembers_noFaults (s : Store) :
  checkLowLectureMembers noFaults isCronJob now s
  = (snd (run (checkLowLectureMembersBody isCronJob now) s),
     Ok (fst (run (checkLowLectureMembersBody isCronJob now) s))).
Proof.
  destruct (checkLowLectureMembers_cases noFaults s)
    as [(e & k & _ & Hf) | Hok]; [discriminate Hf | exact Hok].
Qed.

End Run.
End Loops.

Section UserWrites.

Context {engine : Engine}.

(* ===================================================================== *)
(** ** Saved documents *)
(* ===================================================================== *)

Lemma substUser_id (w x : User.t) : User._id (substUser w x) = User._id x.
Proof.
  unfold substUser. destruct (User._id x =? User._id w)%nat eqn:E.
  - apply Nat.eqb_eq in E. congruence.
  - reflexivity.
Qed.

Lemma replaceUser_map (w : User.t) (l : list User.t) :
  NoDup (map User._id l) -> replaceUser w l = map (substUser w) l.
Proof.
  induction l as [| x r IH]; simpl; intros Hnd.
  - reflexivity.
  - inversion Hnd as [| ? ? Hnotin Hnd']; subst.
    unfold substUser at 1.
    destruct (User._id x =? User._id w)%nat eqn:E.
    + f_equal. rewrite <- (map_id r) at 1. apply map_ext_in.
      intros y Hy. unfold substUser.
      destruct (User._id y =? User._id w)%nat eqn:E'; [| reflexivity].
      exfalso. apply Hnotin. apply Nat.eqb_eq in E, E'.
      rewrite E, <- E'. apply in_map. exact Hy.
    + f_equal. apply IH. exact Hnd'.
Qed.

Lemma applyWrites_map (ws : list User.t) :
  forall l, NoDup (map User._id l) ->
    applyWrites ws l
    = map (fun x => fold_left (fun x w => substUser w x) ws x) l.
Proof.
  induction ws as [| w ws IH]; intros l Hnd; simpl.
  - symmetry. apply map_id.
  - unfold applyWrites in *. simpl.
    rewrite replaceUser_map by exact Hnd.
    rewrite IH.
    + rewrite map_map. reflexivity.
    + rewrite map_map.
      rewrite (map_ext _ User._id (fun x => substUser_id w x)). exact Hnd.
Qed.

Lemma fold_substUser_id (ws : list User.t) :
  forall x, User._id (fold_left (fun x w => substUser w x) ws x) = User._id x.
Proof.
  induction ws as [| w ws IH]; intros x; simpl.
  - reflexivity.
  - rewrite IH. apply substUser_id.
Qed.

Section Writes.

Variable W : User.t -> option User.t.
Hypothesis W_id : forall u w, W u = Some w -> User._id w = User._id u.

Lemma fold_subst_other (l : list User.t) :
  forall x,
    (forall u, In u l -> User._id u <> User._id x) ->
    fold_left (fun x w => substUser w x)
      (flat_map (fun u => optionToList (W u)) l) x = x.
Proof.
  induction l as [| u r IH]; intros x Hne; simpl.
  - reflexivity.
  - rewrite fold_left_app.
    assert (Hx : fold_left (fun x w => substUser w x) (optionToList (W u)) x
                 = x).
    { destruct (W u) as [w |] eqn:E; simpl; [| reflexivity].
      unfold substUser. rewrite (W_id _ _ E).
      destruct (User._id x =? User._id u)%nat eqn:E'; [| reflexivity].
      apply Nat.eqb_eq in E'. exfalso. apply (Hne u); [left; reflexivity |].
      congruence. }
    rewrite Hx. apply IH. intros u' Hin. apply Hne. right. exact Hin.
Qed.

Lemma fold_subst_member (l : list User.t) :
  NoDup (map User._id l) ->
  forall x, In x l ->
    fold_left (fun x w => substUser w x)
      (flat_map (fun u => optionToList (W u)) l) x
    = match W x with Some w => w | None => x end.
Proof.
  induction l as [| u r IH]; intros Hnd x Hin; simpl.
  - destruct Hin.
  - inversion Hnd as [| ? ? Hnotin Hnd']; subst.
    rewrite fold_left_app.
    destruct Hin as [-> | Hin].
    + assert (Hx : fold_left (fun x w => substUser w x)
                     (optionToList (W x)) x
                   = match W x with Some w => w | None => x end).
      { destruct (W x) as [w |] eqn:E; simpl; [| reflexivity].
        unfold substUser. rewrite (W_id _ _ E), Nat.eqb_refl. reflexivity. }
      rewrite Hx. apply fold_subst_other.
      intros u' Hu' Heq. apply Hnotin.
      assert (Hid : User._id (match W x with Some w => w | None => x end)
                    = User._id x).
      { destruct (W x) as [w |] eqn:E; [apply (W_id _ _ E) | reflexivity]. }
      rewrite <- Hid, <- Heq. apply in_map. exact Hu'.
    + assert (Hne : User._id x <> User._id u).
      { intros Heq. apply Hnotin. rewrite <- Heq. apply in_map. exact Hin. }
      assert (Hx : fold_left (fun x w => substUser w x)
                     (optionToList (W u)) x = x).
      { destruct (W u) as [w |] eqn:E; simpl; [| reflexivity].
        unfold substUser. rewrite (W_id _ _ E).
        destruct (User._id x =? User._id u)%nat eqn:E'; [| reflexivity].
        apply Nat.eqb_eq in E'. contradiction. }
      rewrite Hx. apply IH; assumption.
Qed.

End Writes.

(** The volunteers of a store with unique [_id]s have unique [_id]s. *)
Lemma volunteers_unique_ids (s : Store) :
  uniqueIds s -> NoDup (map User._id (volunteers s)).
Proof.
  unfold uniqueIds, volunteers.
  induction (users s) as [| x r IH]; simpl; intros Hnd.
  - constructor.
  - inversion Hnd as [| ? ? Hnotin Hnd']; subst.
    destruct (isVolunteer x); simpl; [| auto].
    constructor; [| auto].
    intros Hin. apply Hnotin. apply in_map_iff in Hin.
    destruct Hin as (y & Hy & Hin). apply filter_In in Hin.
    rewrite <- Hy. apply in_map. tauto.
Qed.

Lemma userWrite_id (isCronJob : bool) (weekStart weekEnd : Date)
    (requests : list JoinRequest.t) (u w : User.t) :
  userWrite isCronJob weekStart weekEnd requests u = Some w ->
  User._id w = User._id u.
Proof.
  unfold userWrite.
  destruct (approvedRequest requests u); [| discriminate].
  destruct (flagged weekStart weekEnd u).
  - destruct (isCronJob && notCountedYet weekStart u); [| discriminate].
    intros H. injection H as <-. reflexivity.
  - destruct (isCronJob && (0 <? User.lowLectureWeekCount u)%nat);
      [| discriminate].
    intros H. injection H as <-. reflexivity.
Qed.

Lemma userAfter_id (isCronJob : bool) (weekStart weekEnd : Date)
    (requests : list JoinRequest.t) (u : User.t) :
  User._id (userAfter isCronJob weekStart weekEnd requests u) = User._id u.
Proof.
  unfold userAfter.
  destruct (userWrite isCronJob weekStart weekEnd requests u) eqn:E.
  - eapply userWrite_id. exact E.
  - reflexivity.
Qed.

(** With unique [_id]s the saves of a run rewrite exactly the documents
    of the volunteers they were loaded from. *)
Lemma applyWrites_writesOfRun (isCronJob : bool) (now : Date) (s : Store) :
  uniqueIds s ->
  applyWrites (writesOfRun isCronJob now s) (users s)
  = usersAfterRun isCronJob now s.
Proof.
  intros Hnd. unfold uniqueIds in Hnd.
  rewrite applyWrites_map by exact Hnd.
  unfold usersAfterRun. apply map_ext_in. intros x Hx.
  unfold writesOfRun, volunteers.
  destruct (isVolunteer x) eqn:Hv.
  - rewrite fold_subst_member.
    + reflexivity.
    + intros u w. apply userWrite_id.
    + apply volunteers_unique_ids. exact Hnd.
    + apply filter_In. split; assumption.
  - apply fold_subst_other.
    + intros u w. apply userWrite_id.
    + intros u Hu Heq. apply filter_In in Hu. destruct Hu as [Hu Hvu].
      assert (u = x).
      { clear - Hnd Hu Hx Heq. induction (users s) as [| y r IH].
        - destruct Hu.
        - simpl in Hnd. inversion Hnd as [| ? ? Hnotin Hnd']; subst.
          destruct Hu as [-> | Hu], Hx as [-> | Hx].
          + reflexivity.
          + exfalso. apply Hnotin. rewrite Heq. apply in_map. exact Hx.
          + exfalso. apply Hnotin. rewrite <- Heq. apply in_map. exact Hu.
          + apply IH; assumption. }
      subst. congruence.
Qed.

(* ===================================================================== *)
(** ** The week window *)
(* ===================================================================== *)

End UserWrites.

Section WindowFacts.

Context {engine : Engine}.

Section Window.

Lemma makeTime_midnight : JsDate.makeTime 0 0 0 0 = 0.
Proof. reflexivity. Qed.

Lemma makeTime_last : JsDate.makeTime 23 59 59 999 = JsDate.msPerDay - 1.
Proof. reflexivity. Qed.

Lemma day_localAt (d h m s ms : Z) :
  0 <= JsDate.makeTime h m s ms < JsDate.msPerDay ->
  JsDate.day (localAt d h m s ms) = d.
Proof.
  unfold localAt, JsDate.day. generalize (JsDate.makeTime h m s ms).
  unfold JsDate.msPerDay. intros r Hr.
  rewrite Z.add_comm, Z.div_add by discriminate.
  rewrite Z.div_small by exact Hr. reflexivity.
Qed.

Lemma getDay_civilDay (t : Date) :
  JsDate.getDay t = (civilDay t + 4) mod 7.
Proof. reflexivity. Qed.

Lemma getDay_range (t : Date) : 0 <= JsDate.getDay t < 7.
Proof. rewrite getDay_civilDay. apply Z.mod_pos_bound. lia. Qed.

Lemma daysToPreviousSaturday_eq (now : Date) :
  Week.daysToPreviousSaturday now
  = if JsDate.getDay now =? 6 then 7 else JsDate.getDay now + 1.
Proof.
  unfold Week.daysToPreviousSaturday. cbv zeta.
  pose proof (getDay_range now) as Hr.
  destruct (JsDate.getDay now =? 6) eqn:E.
  - apply Z.eqb_eq in E. rewrite E. reflexivity.
  - apply Z.eqb_neq in E.
    rewrite (Z.mod_small (JsDate.getDay now + 1) 7) by lia.
    destruct (JsDate.getDay now + 1 =? 0) eqn:E1; [| reflexivity].
    apply Z.eqb_eq in E1. lia.
Qed.

Lemma daysToPreviousSaturday_range (now : Date) :
  1 <= Week.daysToPreviousSaturday now <= 7.
Proof.
  rewrite daysToPreviousSaturday_eq. pose proof (getDay_range now).
  destruct (JsDate.getDay now =? 6); lia.
Qed.

(** The Saturday of the window in terms of the days the code goes
    back. *)
Lemma windowSaturday_eq (now : Date) :
  windowSaturday (civilDay now)
  = civilDay now - Week.daysToPreviousSaturday now - 7.
Proof.
  rewrite daysToPreviousSaturday_eq, getDay_civilDay. reflexivity.
Qed.

Lemma windowSaturday_spec (today : Z) :
  (windowSaturday today + 4) mod 7 = 6
  /\ (windowSaturday today + 6 + 4) mod 7 = 5
  /\ today - 14 <= windowSaturday today <= today - 8.
Proof.
  unfold windowSaturday. cbv zeta.
  destruct ((today + 4) mod 7 =? 6) eqn:E.
  - apply Z.eqb_eq in E. revert E. Z.div_mod_to_equations. lia.
  - apply Z.eqb_neq in E. revert E. Z.div_mod_to_equations. lia.
Qed.

Hypothesis keepsDay : zoneKeepsCivilDay.

Lemma civilDay_utc (l : Z) : civilDay (utc l) = JsDate.day l.
Proof. apply keepsDay. Qed.

Lemma civilDay_addDays (t : Date) (k : Z) :
  civilDay (JsDate.addDays t k) = civilDay t + k.
Proof.
  unfold JsDate.addDays. rewrite civilDay_utc.
  unfold civilDay, JsDate.day, JsDate.msPerDay.
  apply Z.div_add. discriminate.
Qed.

Lemma setHours_eq (t : Date) (h m s ms : Z) :
  JsDate.setHours t h m s ms = utc (localAt (civilDay t) h m s ms).
Proof. reflexivity. Qed.

Lemma weekStart_eq (now : Date) :
  Week.weekStart now
  = utc (localAt (windowSaturday (civilDay now)) 0 0 0 0).
Proof.
  unfold Week.weekStart, Week.previousSaturday.
  rewrite setHours_eq, !civilDay_addDays, windowSaturday_eq.
  f_equal; unfold localAt; lia.
Qed.

Lemma weekEnd_eq (now : Date) :
  Week.weekEnd now
  = utc (localAt (windowSaturday (civilDay now) + 6) 23 59 59 999).
Proof.
  unfold Week.weekEnd, Week.previousSaturday.
  rewrite setHours_eq, !civilDay_addDays, windowSaturday_eq.
  f_equal; unfold localAt; lia.
Qed.

Lemma civilDay_weekStart (now : Date) :
  civilDay (Week.weekStart now) = windowSaturday (civilDay now).
Proof.
  rewrite weekStart_eq, civilDay_utc. apply day_localAt.
  rewrite makeTime_midnight. unfold JsDate.msPerDay. lia.
Qed.

Lemma civilDay_weekEnd (now : Date) :
  civilDay (Week.weekEnd now) = windowSaturday (civilDay now) + 6.
Proof.
  rewrite weekEnd_eq, civilDay_utc. apply day_localAt.
  rewrite makeTime_last. unfold JsDate.msPerDay. lia.
Qed.

(** Two instants with the same start of the window have the same
    window. *)
Lemma weekEnd_of_weekStart (now1 now2 : Date) :
  Week.weekStart now2 = Week.weekStart now1 ->
  Week.weekEnd now2 = Week.weekEnd now1.
Proof.
  intros Hws. rewrite !weekEnd_eq.
  rewrite <- !civilDay_weekStart, Hws. reflexivity.
Qed.

Hypothesis inOrder : civilDaysInOrder.

Lemma earlier_civilDay (t t' : Date) : civilDay t < civilDay t' -> t < t'.
Proof.
  intros Hlt. destruct (Z_lt_le_dec t t') as [Ht | Ht]; [exact Ht |].
  apply inOrder in Ht. lia.
Qed.

Lemma weekEnd_before_now (now : Date) : Week.weekEnd now < now.
Proof.
  apply earlier_civilDay. rewrite civilDay_weekEnd.
  pose proof (windowSaturday_spec (civilDay now)). lia.
Qed.

Lemma weekStart_before_weekEnd (now : Date) :
  Week.weekStart now < Week.weekEnd now.
Proof.
  apply earlier_civilDay. rewrite civilDay_weekStart, civilDay_weekEnd. lia.
Qed.

End Window.

End WindowFacts.

Section SampleZone.

#[local] Existing Instance Sample.engine.

(** The zone of the samples keeps the civil day, also at the two clock
    changes, and its civil days follow the instants. *)
Lemma sample_zoneKeepsCivilDay : zoneKeepsCivilDay.
Proof.
  intros l. cbn [localTime utc Sample.engine].
  unfold Sample.cairoLocalTime, Sample.cairoUtc, Sample.summerStarts,
    Sample.summerEnds, Sample.day, Sample.hour, JsDate.day, JsDate.msPerDay.
  destruct ((19839 * 86400000 + 3600000 <=? l) && (l <? 20028 * 86400000))
    eqn:E.
  - apply andb_prop in E. destruct E as [E1 E2].
    apply Z.leb_le in E1. apply Z.ltb_lt in E2.
    destruct ((19839 * 86400000 - 2 * 3600000 <=? l - 3 * 3600000)
              && (l - 3 * 3600000 <? 20028 * 86400000 - 3 * 3600000)) eqn:E'.
    + f_equal. lia.
    + apply andb_false_iff in E'.
      destruct E' as [E' | E']; [apply Z.leb_gt in E' | apply Z.ltb_ge in E'];
        lia.
  - destruct ((19839 * 86400000 - 2 * 3600000 <=? l - 2 * 3600000)
              && (l - 2 * 3600000 <? 20028 * 86400000 - 3 * 3600000)) eqn:E'.
    + apply andb_prop in E'. destruct E' as [E1 E2].
      apply Z.leb_le in E1. apply Z.ltb_lt in E2.
      apply andb_false_iff in E.
      destruct E as [E | E]; [apply Z.leb_gt in E | apply Z.ltb_ge in E].
      * Z.div_mod_to_equations. lia.
      * Z.div_mod_to_equations. lia.
    + f_equal. lia.
Qed.

Lemma sample_civilDaysInOrder : civilDaysInOrder.
Proof.
  intros t t' Hle. unfold civilDay. cbn [localTime Sample.engine].
  unfold Sample.cairoLocalTime, Sample.summerStarts,
    Sample.summerEnds, Sample.day, Sample.hour, JsDate.day, JsDate.msPerDay.
  destruct ((19839 * 86400000 - 2 * 3600000 <=? t)
            && (t <? 20028 * 86400000 - 3 * 3600000)) eqn:E;
    destruct ((19839 * 86400000 - 2 * 3600000 <=? t')
              && (t' <? 20028 * 86400000 - 3 * 3600000)) eqn:E';
    repeat match goal with
      | H : _ && _ = true |- _ =>
          apply andb_prop in H; let H1 := fresh in destruct H as [H1 H];
          apply Z.leb_le in H1; apply Z.ltb_lt in H
      | H : _ && _ = false |- _ =>
          apply andb_false_iff in H;
          destruct H as [H | H]; [apply Z.leb_gt in H | apply Z.ltb_ge in H]
      end;
    Z.div_mod_to_equations; lia.
Qed.

(** The window of a Sunday, of the Saturday before it and of the Sunday
    after it. *)
Example saturday_looks_back_a_week :
  JsDate.getDay Sample.saturday = 6
  /\ Week.daysToPreviousSaturday Sample.saturday = 7
  /\ civilDay (Week.weekStart Sample.saturday) = -5
  /\ civilDay (Week.weekEnd Sample.saturday) = 1.
Proof. vm_compute. repeat split. Qed.

Example sunday_window :
  JsDate.getDay Sample.sunday = 0
  /\ Week.weekStart Sample.sunday = Sample.day 2 - 2 * Sample.hour
  /\ Week.weekEnd Sample.sunday = Sample.day 9 - 2 * Sample.hour - 1.
Proof. vm_compute. repeat split. Qed.

(** The elapsed length of a window with a clock change in it: an hour
    less than seven days in spring, an hour more in autumn. *)
Example windows_with_a_clock_change :
  Week.weekEnd Sample.springSunday - Week.weekStart Sample.springSunday + 1
  = 7 * JsDate.msPerDay - Sample.hour
  /\ Week.weekEnd Sample.autumnSunday - Week.weekStart Sample.autumnSunday + 1
     = 7 * JsDate.msPerDay + Sample.hour.
Proof. vm_compute. split; reflexivity. Qed.
End SampleZone.

Section WindowClaims.

Context {engine : Engine}.

Lemma windowSaturday_next (today : Z) :
  windowSaturday (today + 1)
  = if (today + 4) mod 7 =? 6 then windowSaturday today + 7
    else windowSaturday today.
Proof.
  unfold windowSaturday. cbv zeta.
  destruct (Z.eqb_spec ((today + 4) mod 7) 6) as [E | E];
    destruct (Z.eqb_spec ((today + 1 + 4) mod 7) 6) as [E' | E'];
    revert E E'; Z.div_mod_to_equations; lia.
Qed.

Lemma windowSaturday_next_week (today : Z) :
  windowSaturday (today + 7) = windowSaturday today + 7.
Proof.
  unfold windowSaturday. cbv zeta.
  replace (today + 7 + 4) with (today + 4 + 1 * 7) by lia.
  rewrite Z.mod_add by discriminate.
  destruct ((today + 4) mod 7 =? 6); lia.
Qed.

(** C2, as the code has it. In a time zone that keeps the civil day and
    whose civil days follow the instants, for every "now": the window
    starts at the instant of 00:00:00.000 local time of a Saturday and
    ends at the instant of 23:59:59.999 local time of the Friday six
    civil days later, so it covers seven civil days; that Saturday is
    the one a week before the last Saturday earlier than today, between
    8 and 14 civil days back; the window ends on a civil day before
    today, before the start of today and before "now"; the number of
    days back to the previous Saturday is 7, not 0, when "now" is on a
    Saturday, and one more than the week day otherwise. *)
Theorem week_window_is_previous_saturday_to_friday (now : Date) :
  zoneKeepsCivilDay -> civilDaysInOrder ->
  let saturday := windowSaturday (civilDay now) in
  Week.weekStart now = utc (localAt saturday 0 0 0 0)
  /\ Week.weekEnd now = utc (localAt (saturday + 6) 23 59 59 999)
  /\ civilDay (Week.weekStart now) = saturday
  /\ civilDay (Week.weekEnd now) = saturday + 6
  /\ JsDate.getDay (Week.weekStart now) = 6
  /\ JsDate.getDay (Week.weekEnd now) = 5
  /\ civilDay now - 14 <= saturday <= civilDay now - 8
  /\ Week.weekStart now < Week.weekEnd now
  /\ Week.weekEnd now < JsDate.setHours now 0 0 0 0
  /\ Week.weekEnd now < now
  /\ Week.daysToPreviousSaturday now
     = (if JsDate.getDay now =? 6 then 7 else JsDate.getDay now + 1).
Proof.
  intros Hkeeps Horder saturday.
  pose proof (windowSaturday_spec (civilDay now)) as (Hsat & Hfri & Hback).
  fold saturday in Hsat, Hfri, Hback.
  pose proof (civilDay_weekStart Hkeeps now) as Hs.
  pose proof (civilDay_weekEnd Hkeeps now) as He.
  fold saturday in Hs, He.
  split; [apply weekStart_eq; exact Hkeeps |].
  split; [apply weekEnd_eq; exact Hkeeps |].
  split; [exact Hs |]. split; [exact He |].
  split; [rewrite getDay_civilDay, Hs; exact Hsat |].
  split; [rewrite getDay_civilDay, He; exact Hfri |].
  split; [exact Hback |].
  split; [apply weekStart_before_weekEnd; assumption |].
  split.
  - apply (earlier_civilDay Horder). rewrite He, setHours_eq.
    rewrite (civilDay_utc Hkeeps), day_localAt; [lia |].
    rewrite makeTime_midnight. unfold JsDate.msPerDay. lia.
  - split; [apply weekEnd_before_now; assumption |].
    apply daysToPreviousSaturday_eq.
Qed.

(** X1. In a time zone that keeps the civil day the window moves once a
    week, when Saturday ends: from a civil day that is not a Saturday to
    the next it is the same window, from a Saturday to the Sunday it is
    the window of seven days later. Seven days on, the window starts
    seven civil days later, on the civil day after the one this window
    ends on, so the windows of successive weeks leave no civil day out
    and share none. *)
Theorem window_advances_when_saturday_ends (now : Date) :
  zoneKeepsCivilDay ->
  Week.weekStart (JsDate.addDays now 1)
  = (if JsDate.getDay now =? 6
     then Week.weekStart (JsDate.addDays now 7)
     else Week.weekStart now)
  /\ Week.weekEnd (JsDate.addDays now 1)
     = (if JsDate.getDay now =? 6
        then Week.weekEnd (JsDate.addDays now 7)
        else Week.weekEnd now)
  /\ civilDay (Week.weekStart (JsDate.addDays now 7))
     = civilDay (Week.weekStart now) + 7
  /\ civilDay (Week.weekStart (JsDate.addDays now 7))
     = civilDay (Week.weekEnd now) + 1.
Proof.
  intros Hkeeps.
  rewrite !(weekStart_eq Hkeeps), !(weekEnd_eq Hkeeps).
  rewrite !(civilDay_utc Hkeeps), !(civilDay_addDays Hkeeps).
  rewrite windowSaturday_next, windowSaturday_next_week, getDay_civilDay.
  rewrite !day_localAt
    by (rewrite ?makeTime_midnight, ?makeTime_last; unfold JsDate.msPerDay;
        lia).
  destruct ((civilDay now + 4) mod 7 =? 6); repeat split; lia.
Qed.

End WindowClaims.

Section SampleWindows.

#[local] Existing Instance Sample.engine.

(** On the Sunday after the clocks went forward: the window is the week
    from Saturday, 20 April 2024 to Friday, 26 April 2024, the day of the
    change. *)
Lemma week_window_is_previous_saturday_to_friday_witness :
  Week.weekStart Sample.springSunday = Sample.day 19833 - 2 * Sample.hour
  /\ Week.weekEnd Sample.springSunday
     = Sample.day 19840 - 3 * Sample.hour - 1
  /\ Week.weekEnd Sample.springSunday < Sample.springSunday.
Proof.
  destruct (week_window_is_previous_saturday_to_friday Sample.springSunday
              sample_zoneKeepsCivilDay sample_civilDaysInOrder)
    as (Hs & He & _ & _ & _ & _ & _ & _ & _ & Hnow & _).
  split; [rewrite Hs; reflexivity |].
  split; [rewrite He; reflexivity | exact Hnow].
Defined.

(** C2 as stated fails for the elapsed time of a window with a clock
    change in it. At noon UTC of Sunday, 28 April 2024 in the zone of
    the process the window starts at 00:00 of Saturday, 20 April, two
    hours ahead of UTC, and ends at 23:59:59.999 of Friday, 26 April,
    three hours ahead of UTC: seven civil days, an hour short of seven
    times twenty-four hours. *)
Lemma window_with_clock_change_is_not_seven_times_24_hours :
  Week.weekStart Sample.springSunday = Sample.day 19833 - 2 * Sample.hour
  /\ Week.weekEnd Sample.springSunday
     = Sample.day 19840 - 3 * Sample.hour - 1
  /\ Week.weekEnd Sample.springSunday - Week.weekStart Sample.springSunday
     + 1 <> 7 * JsDate.msPerDay.
Proof. vm_compute. repeat split. discriminate. Qed.

Lemma window_advances_when_saturday_ends_witness :
  Week.weekStart (JsDate.addDays Sample.saturday 1)
  = Week.weekStart (JsDate.addDays Sample.saturday 7)
  /\ Week.weekStart (JsDate.addDays Sample.sunday 1)
     = Week.weekStart Sample.sunday.
Proof.
  split.
  - apply (window_advances_when_saturday_ends Sample.saturday
             sample_zoneKeepsCivilDay).
  - apply (window_advances_when_saturday_ends Sample.sunday
             sample_zoneKeepsCivilDay).
Defined.
End SampleWindows.

Section Transaction.

Context {engine : Engine}.

(* ===================================================================== *)
(** ** Failures and the transaction *)
(* ===================================================================== *)

(** C8. Every call of the [try] block carries the session, so it reads
    and writes the view of the transaction and not the committed
    documents. Whatever calls fail, a call of [checkLowLectureMembers]
    ends in one of two ways. Either one of the calls it awaits (the start
    of the session, a read or a write of the run, the commit) failed
    and it throws, with the committed documents exactly as before the
    call (no counter update, no notification, no report): it throws the
    error of the first call that failed, or that of [abortTransaction]
    when the abort it awaits after that failure fails as well. Or none
    of those calls failed and it returns the result of the run, with
    every write of the run, in order, applied to the committed
    documents. *)
Theorem failed_run_rolls_back_or_run_commits_whole
    (faults : nat -> option Error) (isCronJob : bool) (now : Date)
    (s : Store) :
  inSession (checkLowLectureMembersBody isCronJob now)
  /\ match checkLowLectureMembers faults isCronJob now s with
     | (s', Threw e) =>
         s' = s
         /\ exists k,
              (k < callsOfRun isCronJob now s)%nat
              /\ firstFailure faults k
              /\ ((faults k = Some e /\ (k = 0%nat \/ faults (S k) = None))
                  \/ ((0 < k)%nat /\ faults (S k) = Some e))
     | (s', Ok response) =>
         (forall k, (k < callsOfRun isCronJob now s)%nat -> faults k = None)
         /\ s' = fold_left applyWrite
                   (writesOf (checkLowLectureMembersBody isCronJob now) s) s
         /\ response = fst (run (checkLowLectureMembersBody isCronJob now) s)
     end.
Proof.
  split; [apply inSession_body |].
  pose proof (checkLowLectureMembers_spec isCronJob now faults s) as H.
  destruct (checkLowLectureMembers faults isCronJob now s)
    as [s' [response | e]].
  - destruct H as (Hnone & -> & ->).
    split; [exact Hnone |]. split; [apply run_writes | reflexivity].
  - destruct H as (-> & k & Hk & Hbefore & Hcase).
    split; [reflexivity |]. exists k. split; [exact Hk |].
    split.
    + split; [| exact Hbefore].
      destruct Hcase as [[Hf _] | (Hf & _)]; congruence.
    + destruct Hcase as [Hcase | (_ & Hpos & Hf)];
        [left; exact Hcase | right; split; assumption].
Qed.

(* ===================================================================== *)
(** ** Committed runs *)
(* ===================================================================== *)

(** What a call that returns has returned and stored. *)
Lemma committed_run (faults : nat -> option Error) (isCronJob : bool)
    (now : Date) (s s' : Store) (response : Response.t) :
  checkLowLectureMembers faults isCronJob now s = (s', Ok response) ->
  response = responseOfRun isCronJob now s
  /\ users s' = applyWrites (writesOfRun isCronJob now s) (users s)
  /\ joinRequests s' = joinRequests s
  /\ reports s'
     = (if isCronJob then reports s ++ [reportOfRun isCronJob now s]
        else reports s)
  /\ notificationsExtend isCronJob
       (fun id => exists u, evaluated s u /\ id = User._id u)
       (notifications s) (notifications s').
Proof.
  intros H. apply checkLowLectureMembers_ok in H.
  injection H as -> ->. apply run_body.
Qed.

Lemma rolled_back (faults : nat -> option Error) (isCronJob : bool)
    (now : Date) (s s' : Store) (e : Error) :
  checkLowLectureMembers faults isCronJob now s = (s', Threw e) -> s' = s.
Proof.
  intros H.
  destruct (checkLowLectureMembers_cases isCronJob now faults s)
    as [(e' & k & Ht & _) | Hok]; congruence.
Qed.

Lemma userWrite_on_demand (weekStart weekEnd : Date)
    (requests : list JoinRequest.t) (u : User.t) :
  userWrite false weekStart weekEnd requests u = None.
Proof.
  unfold userWrite. destruct (approvedRequest requests u); [| reflexivity].
  destruct (flagged weekStart weekEnd u); reflexivity.
Qed.

Lemma writesOfRun_on_demand (now : Date) (s : Store) :
  writesOfRun false now s = [].
Proof.
  unfold writesOfRun. induction (volunteers s) as [| u r IH]; simpl.
  - reflexivity.
  - rewrite userWrite_on_demand. exact IH.
Qed.

Lemma on_demand_store_unchanged (faults : nat -> option Error) (now : Date)
    (s : Store) :
  fst (checkLowLectureMembers faults false now s) = s.
Proof.
  destruct (checkLowLectureMembers faults false now s) as [s' result] eqn:E.
  destruct result as [response | e].
  - apply committed_run in E.
    destruct E as (_ & Hu & Hj & Hr & (added & Hn & Hnone & _)).
    rewrite writesOfRun_on_demand in Hu. cbn in Hu.
    rewrite (Hnone eq_refl), app_nil_r in Hn.
    destruct s, s'. simpl in *. congruence.
  - simpl. eapply rolled_back. exact E.
Qed.

(** C4. Whatever the starting store, the instant and the calls that
    fail, a call in on-demand mode ([isCronJob = false]) leaves the
    store exactly as it was: no volunteer document, notification or report
    is written. *)
Theorem on_demand_run_leaves_store_unchanged
    (faults : nat -> option Error) (now : Date) (s : Store) :
  fst (checkLowLectureMembers faults false now s) = s.
Proof. apply on_demand_store_unchanged. Qed.
End Transaction.

Section Members.

Context {engine : Engine}.

Lemma same_id_same_user (l : list User.t) (u u' : User.t) :
  NoDup (map User._id l) -> In u l -> In u' l ->
  User._id u = User._id u' -> u = u'.
Proof.
  induction l as [| y r IH]; simpl; intros Hnd Hu Hu' Heq.
  - destruct Hu.
  - inversion Hnd as [| ? ? Hnotin Hnd']; subst.
    destruct Hu as [-> | Hu], Hu' as [-> | Hu'].
    + reflexivity.
    + exfalso. apply Hnotin. rewrite Heq. apply in_map. exact Hu'.
    + exfalso. apply Hnotin. rewrite <- Heq. apply in_map. exact Hu.
    + apply IH; assumption.
Qed.

Lemma findUser_unique (l : list User.t) (u : User.t) :
  NoDup (map User._id l) -> In u l -> findUser (User._id u) l = Some u.
Proof.
  unfold findUser. induction l as [| y r IH]; simpl; intros Hnd Hu.
  - destruct Hu.
  - inversion Hnd as [| ? ? Hnotin Hnd']; subst.
    destruct (User._id y =? User._id u)%nat eqn:E.
    + apply Nat.eqb_eq in E. destruct Hu as [-> | Hu]; [reflexivity |].
      exfalso. apply Hnotin. rewrite E. apply in_map. exact Hu.
    + destruct Hu as [-> | Hu].
      * rewrite Nat.eqb_refl in E. discriminate.
      * apply IH; assumption.
Qed.

Lemma findUser_map (f : User.t -> User.t) (id : ObjectId)
    (l : list User.t) :
  (forall x, User._id (f x) = User._id x) ->
  findUser id (map f l) = option_map f (findUser id l).
Proof.
  intros Hf. unfold findUser. induction l as [| y r IH]; simpl.
  - reflexivity.
  - rewrite Hf. destruct (User._id y =? id)%nat; [reflexivity | exact IH].
Qed.

Lemma usersAfterRun_ids (isCronJob : bool) (now : Date) (s : Store) :
  map User._id (usersAfterRun isCronJob now s) = map User._id (users s).
Proof.
  unfold usersAfterRun. rewrite map_map. apply map_ext.
  intros u. destruct (isVolunteer u); [apply userAfter_id | reflexivity].
Qed.

Lemma findUser_usersAfterRun (isCronJob : bool) (now : Date) (s : Store)
    (u : User.t) :
  uniqueIds s -> In u (users s) ->
  findUser (User._id u) (usersAfterRun isCronJob now s)
  = Some (if isVolunteer u
          then userAfter isCronJob (Week.weekStart now) (Week.weekEnd now)
                 (joinRequests s) u
          else u).
Proof.
  intros Hnd Hin. unfold usersAfterRun.
  rewrite findUser_map.
  - rewrite (findUser_unique _ _ Hnd Hin). reflexivity.
  - intros x. destruct (isVolunteer x); [apply userAfter_id | reflexivity].
Qed.

(** The stored volunteers after a committed call. *)
Lemma committed_users (faults : nat -> option Error) (isCronJob : bool)
    (now : Date) (s s' : Store) (response : Response.t) :
  uniqueIds s ->
  checkLowLectureMembers faults isCronJob now s = (s', Ok response) ->
  users s' = usersAfterRun isCronJob now s.
Proof.
  intros Hnd H. apply committed_run in H.
  destruct H as (_ & Hu & _). rewrite Hu.
  apply applyWrites_writesOfRun. exact Hnd.
Qed.

Lemma committed_members (faults : nat -> option Error) (isCronJob : bool)
    (now : Date) (s s' : Store) (response : Response.t) :
  checkLowLectureMembers faults isCronJob now s = (s', Ok response) ->
  Response.members response = membersOfRun isCronJob now s.
Proof.
  intros H. apply committed_run in H. destruct H as (-> & _). reflexivity.
Qed.

(* ===================================================================== *)
(** ** Flagged volunteers *)
(* ===================================================================== *)

Lemma In_underTargetSubjectsOf (weekStart weekEnd : Date) (u : User.t)
    (st : Student.t) (e : UnderTargetSubject.t) :
  In e (underTargetSubjectsOf weekStart weekEnd u st)
  <-> exists sb, In sb (Student.subjects st)
                 /\ isUnderTarget weekStart weekEnd u st sb = true
                 /\ e = underTargetEntry weekStart weekEnd u st sb.
Proof.
  unfold underTargetSubjectsOf. rewrite in_map_iff. split.
  - intros (sb & He & Hin). apply filter_In in Hin. exists sb.
    destruct Hin. auto.
  - intros (sb & Hin & Hu & He). exists sb. split; [auto |].
    apply filter_In. auto.
Qed.

Lemma In_underTargetStudentsOf (weekStart weekEnd : Date) (u : User.t)
    (x : UnderTargetStudent.t) :
  In x (underTargetStudentsOf weekStart weekEnd u)
  <-> exists st, In st (User.students u)
                 /\ underTargetSubjectsOf weekStart weekEnd u st <> []
                 /\ x = UnderTargetStudent.mk
                          (Str.orElse (Student.name st) "اسم غير متوفر")
                          (Str.trim (toLowerCase (Student.email st)))
                          (Str.orElse (Student.academicLevel st) "غير محدد")
                          (underTargetSubjectsOf weekStart weekEnd u st).
Proof.
  unfold underTargetStudentsOf. rewrite in_flat_map. split.
  - intros (st & Hin & Hx). exists st. split; [exact Hin |].
    unfold underTargetStudentOf in Hx.
    destruct (underTargetSubjectsOf weekStart weekEnd u st) as [| e es].
    + destruct Hx.
    + destruct Hx as [<- | []]. split; [discriminate | reflexivity].
  - intros (st & Hin & Hne & ->). exists st. split; [exact Hin |].
    unfold underTargetStudentOf.
    destruct (underTargetSubjectsOf weekStart weekEnd u st) as [| e es].
    + contradiction.
    + left. reflexivity.
Qed.

Lemma flagged_iff (weekStart weekEnd : Date) (u : User.t) :
  flagged weekStart weekEnd u = true <-> hasUnderTargetPair weekStart weekEnd u.
Proof.
  unfold flagged, hasUnderTargetPair. split.
  - destruct (underTargetStudentsOf weekStart weekEnd u) as [| x xs] eqn:E;
      [discriminate |]. intros _.
    assert (Hx : In x (underTargetStudentsOf weekStart weekEnd u))
      by (rewrite E; left; reflexivity).
    apply In_underTargetStudentsOf in Hx.
    destruct Hx as (st & Hst & Hne & _).
    destruct (underTargetSubjectsOf weekStart weekEnd u st) as [| e es] eqn:E';
      [contradiction |].
    assert (He : In e (underTargetSubjectsOf weekStart weekEnd u st))
      by (rewrite E'; left; reflexivity).
    apply In_underTargetSubjectsOf in He.
    destruct He as (sb & Hsb & Hu & _).
    exists st, sb. unfold isUnderTarget in Hu. apply Z.ltb_lt in Hu. auto.
  - intros (st & sb & Hst & Hsb & Hlt).
    assert (He : In (underTargetEntry weekStart weekEnd u st sb)
                   (underTargetSubjectsOf weekStart weekEnd u st)).
    { apply In_underTargetSubjectsOf. exists sb. repeat split; auto.
      unfold isUnderTarget. apply Z.ltb_lt. exact Hlt. }
    assert (Hx : exists x, In x (underTargetStudentsOf weekStart weekEnd u)).
    { eexists. apply In_underTargetStudentsOf. exists st.
      repeat split; auto. intros Hnil. rewrite Hnil in He. destruct He. }
    destruct Hx as [x Hx].
    destruct (underTargetStudentsOf weekStart weekEnd u); [destruct Hx |].
    reflexivity.
Qed.

Lemma In_membersOfRun (isCronJob : bool) (now : Date) (s : Store)
    (m : Member.t) :
  In m (membersOfRun isCronJob now s)
  <-> exists u j,
        In u (users s) /\ isVolunteer u = true
        /\ approvedRequest (joinRequests s) u = Some j
        /\ flagged (Week.weekStart now) (Week.weekEnd now) u = true
        /\ m = memberOf
                 (userAfter isCronJob (Week.weekStart now)
                    (Week.weekEnd now) (joinRequests s) u)
                 j
                 (underTargetStudentsOf (Week.weekStart now)
                    (Week.weekEnd now) u).
Proof.
  unfold membersOfRun, volunteers. rewrite in_flat_map. split.
  - intros (u & Hin & Hm). apply filter_In in Hin. destruct Hin as [Hin Hv].
    unfold memberFor in Hm.
    destruct (approvedRequest (joinRequests s) u) as [j |] eqn:Ha;
      [| destruct Hm].
    destruct (flagged (Week.weekStart now) (Week.weekEnd now) u) eqn:Hf;
      [| destruct Hm].
    destruct Hm as [<- | []]. exists u, j. auto.
  - intros (u & j & Hin & Hv & Ha & Hf & ->). exists u. split.
    + apply filter_In. auto.
    + unfold memberFor. rewrite Ha, Hf. left. reflexivity.
Qed.

(** With unique [_id]s, the flagged members are the evaluated volunteers
    with an under-target pair. *)
Lemma isMember_iff (isCronJob : bool) (now : Date) (s : Store) (u : User.t) :
  uniqueIds s -> In u (users s) ->
  (isMember (membersOfRun isCronJob now s) (User._id u)
   <-> isVolunteer u = true
       /\ approvedRequest (joinRequests s) u <> None
       /\ flagged (Week.weekStart now) (Week.weekEnd now) u = true).
Proof.
  intros Hnd Hin. unfold isMember. split.
  - intros (m & Hm & Hid). apply In_membersOfRun in Hm.
    destruct Hm as (u' & j & Hin' & Hv & Ha & Hf & ->).
    simpl in Hid. rewrite userAfter_id in Hid.
    assert (u' = u) by (eapply same_id_same_user; eauto). subst u'.
    repeat split; auto. congruence.
  - intros (Hv & Ha & Hf).
    destruct (approvedRequest (joinRequests s) u) as [j |] eqn:Ha';
      [| contradiction].
    eexists. split.
    + apply In_membersOfRun. exists u, j. repeat split; eauto.
    + simpl. apply userAfter_id.
Qed.

End Members.


Ltac distinct_ids :=
  unfold uniqueIds; repeat constructor; simpl; intuition discriminate.

(* ===================================================================== *)
(** ** The sample store *)
(* ===================================================================== *)

Section SampleStore.

#[local] Existing Instance Sample.engine.

Lemma sample_store_unique_ids : uniqueIds Sample.store.
Proof. distinct_ids. Qed.

Lemma sample_store_after_run_unique_ids : uniqueIds Sample.storeAfterRun.
Proof. unfold uniqueIds. vm_compute. distinct_ids. Qed.

Lemma sample_scheduled_run :
  checkLowLectureMembers noFaults true Sample.sunday Sample.store
  = (Sample.storeAfterRun, Ok Sample.responseOfSunday).
Proof. vm_compute. reflexivity. Qed.

Lemma sample_volunteer_evaluated : evaluated Sample.store Sample.volunteer.
Proof.
  repeat split; [simpl; auto | vm_compute; discriminate].
Qed.

Lemma sample_idle_evaluated : evaluated Sample.store Sample.idle.
Proof.
  repeat split; [simpl; auto | vm_compute; discriminate].
Qed.

End SampleStore.

Section Counting.

Context {engine : Engine}.

(* ===================================================================== *)
(** ** Counting lectures *)
(* ===================================================================== *)

Lemma truthy_iff (s : string) : Str.truthy s = true <-> s <> "".
Proof.
  destruct s; simpl; split; intros H; try reflexivity; try discriminate.
  contradiction.
Qed.

(** The filter keeps the lectures of the window that carry a non-empty
    student email agreeing with the student's once both are lower-cased
    and trimmed, and whose subject is the assignment's name. *)
Lemma matchesLecture_iff (weekStart weekEnd : Date) (st : Student.t)
    (sb : Subject.t) (l : Lecture.t) :
  matchesLecture weekStart weekEnd st sb l = true
  <-> countsForWeek weekStart weekEnd st sb l.
Proof.
  unfold matchesLecture, countsForWeek, emailsAgree. cbv zeta.
  rewrite !andb_true_iff, !Z.leb_le, String.eqb_eq.
  destruct (Lecture.studentEmail l) as [e |].
  - rewrite andb_true_iff, truthy_iff, String.eqb_eq. split.
    + intros [[Ht [Hne He]] Hs]. repeat split; try tauto.
      exists e. auto.
    + intros (Ht & (e' & He' & Hne & He) & Hs).
      injection He' as <-. tauto.
  - split.
    + intros [[_ Hf] _]. discriminate.
    + intros (_ & (e & He & _) & _). discriminate.
Qed.

(** A lecture dated exactly at a bound of the window is inside it. *)
Lemma window_bounds_are_counted (weekStart weekEnd : Date) (st : Student.t)
    (sb : Subject.t) (l : Lecture.t) :
  weekStart <= weekEnd ->
  Lecture.createdAt l = weekStart \/ Lecture.createdAt l = weekEnd ->
  emailsAgree (Lecture.studentEmail l) (Student.email st) ->
  Lecture.subject l = Subject.name sb ->
  matchesLecture weekStart weekEnd st sb l = true.
Proof.
  intros Hle Hat He Hs. apply matchesLecture_iff.
  unfold countsForWeek. repeat split; auto; lia.
Qed.

Lemma Counts_filter {A : Type} (P : A -> Prop) (f : A -> bool)
    (l : list A) :
  (forall x, f x = true <-> P x) -> Counts P l (List.length (filter f l)).
Proof.
  intros Hf. induction l as [| x r IH]; simpl.
  - constructor.
  - destruct (f x) eqn:E.
    + simpl. apply Counts_in; [apply Hf; exact E | exact IH].
    + apply Counts_out; [| exact IH].
      intros HP. apply Hf in HP. congruence.
Qed.

Lemma Counts_unique {A : Type} (P : A -> Prop) (l : list A) (n m : nat) :
  Counts P l n -> Counts P l m -> n = m.
Proof.
  intros Hn. revert m. induction Hn as [| x l n HP Hn IH | x l n HP Hn IH];
    intros m Hm; inversion Hm; subst; auto; contradiction.
Qed.

(** The delivered count of the code is the number of the lectures that
    count for the week. *)
Lemma lectureCount_counts (weekStart weekEnd : Date) (u : User.t)
    (st : Student.t) (sb : Subject.t) :
  Counts (countsForWeek weekStart weekEnd st sb) (User.lectures u)
    (lectureCount weekStart weekEnd u st sb).
Proof.
  unfold lectureCount. apply Counts_filter. intros l.
  apply matchesLecture_iff.
Qed.

(** C1, as the code has it. For every evaluated volunteer (role [user],
    approved membership record), every student of the volunteer and every
    subject assignment of the student, let [n] be the number of the
    volunteer's lectures whose [createdAt] lies in
    [[weekStart, weekEnd]], both bounds included, whose [studentEmail] is
    present, non-empty and equal to the student's email after lower-casing
    and trimming both, and whose [subject] equals the assignment's name.
    A committed run records the entry
    [{name, minLectures, deliveredLectures = n}] for the pair in its
    result if and only if [n] is below [minLectures]. *)
Theorem under_target_iff_trimmed_count_below_minimum
    (faults : nat -> option Error) (isCronJob : bool) (now : Date)
    (s s' : Store) (response : Response.t) (u : User.t) (st : Student.t)
    (sb : Subject.t) (n : nat) :
  uniqueIds s ->
  checkLowLectureMembers faults isCronJob now s = (s', Ok response) ->
  evaluated s u ->
  In st (User.students u) ->
  In sb (Student.subjects st) ->
  Counts (countsForWeek (Week.weekStart now) (Week.weekEnd now) st sb)
    (User.lectures u) n ->
  (recordsUnderTarget (Response.members response) (User._id u)
     (Str.trim (toLowerCase (Student.email st)))
     (UnderTargetSubject.mk (Subject.name sb) (Subject.minLectures sb) n)
   <-> Z.of_nat n < Subject.minLectures sb).
Proof.
  intros Hnd Hrun (Hin & Hv & Ha) Hst Hsb Hn.
  assert (n = lectureCount (Week.weekStart now) (Week.weekEnd now) u st sb)
    as ->.
  { eapply Counts_unique; [exact Hn | apply lectureCount_counts]. }
  rewrite (committed_members _ _ _ _ _ _ Hrun).
  unfold recordsUnderTarget. split.
  - intros (m & x & Hm & Hid & Hx & Hmail & He).
    apply In_membersOfRun in Hm.
    destruct Hm as (u' & j & Hin' & Hv' & Ha' & Hf & ->).
    simpl in Hid, Hx. rewrite userAfter_id in Hid.
    assert (u' = u) by (eapply same_id_same_user; eauto). subst u'.
    apply In_underTargetStudentsOf in Hx.
    destruct Hx as (st' & Hst' & _ & ->). simpl in He.
    apply In_underTargetSubjectsOf in He.
    destruct He as (sb' & Hsb' & Hu & He).
    unfold underTargetEntry in He. injection He as Hname Hmin Hcount.
    unfold isUnderTarget in Hu. apply Z.ltb_lt in Hu.
    rewrite Hcount, Hmin. exact Hu.
  - intros Hlt.
    assert (He : In (underTargetEntry (Week.weekStart now) (Week.weekEnd now)
                      u st sb)
                   (underTargetSubjectsOf (Week.weekStart now)
                      (Week.weekEnd now) u st)).
    { apply In_underTargetSubjectsOf. exists sb. repeat split; auto.
      unfold isUnderTarget. apply Z.ltb_lt. exact Hlt. }
    assert (Hf : flagged (Week.weekStart now) (Week.weekEnd now) u = true).
    { apply flagged_iff. exists st, sb. auto. }
    destruct (approvedRequest (joinRequests s) u) as [j |] eqn:Ha';
      [| contradiction].
    eexists. eexists. split; [| split; [| split; [| split]]].
    + apply In_membersOfRun. exists u, j. repeat split; eauto.
    + simpl. apply userAfter_id.
    + simpl. apply In_underTargetStudentsOf. exists st.
      split; [exact Hst |]. split; [| reflexivity].
      intros Hnil. rewrite Hnil in He. destruct He.
    + reflexivity.
    + simpl. exact He.
Qed.

End Counting.

Section SampleCounts.

#[local] Existing Instance Sample.engine.

(** At the sample store the hypotheses hold for the volunteer, Sara and
    her Math assignment: of the three lectures one counts, the one dated
    exactly at [weekStart] (the second is for another subject, the third
    is dated after [weekEnd]), and the pair is recorded since 1 < 2. *)
Lemma under_target_iff_trimmed_count_below_minimum_witness :
  uniqueIds Sample.store
  /\ evaluated Sample.store Sample.volunteer
  /\ Counts (countsForWeek (Week.weekStart Sample.sunday)
               (Week.weekEnd Sample.sunday) Sample.sara Sample.math)
       (User.lectures Sample.volunteer) 1
  /\ recordsUnderTarget (Response.members Sample.responseOfSunday) 7%nat
       "s@x.com" (UnderTargetSubject.mk "Math" 2 1).
Proof.
  pose proof sample_store_unique_ids as Hnd.
  pose proof sample_volunteer_evaluated as Hev.
  assert (Hn : Counts (countsForWeek (Week.weekStart Sample.sunday)
                         (Week.weekEnd Sample.sunday) Sample.sara Sample.math)
                 (User.lectures Sample.volunteer) 1).
  { assert (E : lectureCount (Week.weekStart Sample.sunday)
                   (Week.weekEnd Sample.sunday) Sample.volunteer Sample.sara
                   Sample.math = 1%nat) by (vm_compute; reflexivity).
    rewrite <- E. apply lectureCount_counts. }
  split; [exact Hnd |]. split; [exact Hev |]. split; [exact Hn |].
  apply (proj2 (under_target_iff_trimmed_count_below_minimum noFaults true
                  Sample.sunday Sample.store Sample.storeAfterRun
                  Sample.responseOfSunday Sample.volunteer Sample.sara
                  Sample.math 1%nat Hnd sample_scheduled_run Hev
                  (or_introl eq_refl) (or_introl eq_refl) Hn)).
  vm_compute. reflexivity.
Defined.

(** C1 as stated fails where the stored student email has surrounding
    white space. The tutor's student has the email ["o@x.com "] and one
    lecture of the window for ["o@x.com"], with a minimum of 1. No lecture
    has a [studentEmail] equal to the student's email up to letter case, so
    the count of the claim is 0 and the pair would be under target; the
    code counts the lecture and records nothing. *)
Lemma trimmed_email_is_counted :
  specLectureCount (Week.weekStart Sample.sunday) (Week.weekEnd Sample.sunday)
    Sample.tutor Sample.omar Sample.physics = 0%nat
  /\ Z.of_nat 0 < Subject.minLectures Sample.physics
  /\ lectureCount (Week.weekStart Sample.sunday) (Week.weekEnd Sample.sunday)
       Sample.tutor Sample.omar Sample.physics = 1%nat
  /\ checkLowLectureMembers noFaults false Sample.sunday Sample.tutorStore
     = (Sample.tutorStore, Ok (responseOfRun false Sample.sunday
                                 Sample.tutorStore))
  /\ Response.members (responseOfRun false Sample.sunday Sample.tutorStore)
     = []
  /\ ~ (recordsUnderTarget
          (Response.members (responseOfRun false Sample.sunday
                               Sample.tutorStore))
          11%nat "o@x.com" (UnderTargetSubject.mk "Physics" 1 0)
        <-> Z.of_nat (specLectureCount (Week.weekStart Sample.sunday)
                        (Week.weekEnd Sample.sunday) Sample.tutor
                        Sample.omar Sample.physics)
            < Subject.minLectures Sample.physics).
Proof.
  split; [reflexivity |]. split; [reflexivity |]. split; [reflexivity |].
  split; [vm_compute; reflexivity |]. split; [reflexivity |].
  intros [_ H].
  assert (Hlt : Z.of_nat (specLectureCount (Week.weekStart Sample.sunday)
                            (Week.weekEnd Sample.sunday) Sample.tutor
                            Sample.omar Sample.physics)
                < Subject.minLectures Sample.physics) by reflexivity.
  destruct (H Hlt) as (m & x & Hm & _). vm_compute in Hm. exact Hm.
Qed.
End SampleCounts.

Section History.

Context {engine : Engine}.

(* ===================================================================== *)
(** ** The documents a run saves and reports *)
(* ===================================================================== *)

Lemma userAfter_lectures (isCronJob : bool) (weekStart weekEnd : Date)
    (requests : list JoinRequest.t) (u : User.t) :
  User.lectures (userAfter isCronJob weekStart weekEnd requests u)
  = User.lectures u.
Proof.
  unfold userAfter, userWrite.
  destruct (approvedRequest requests u); [| reflexivity].
  destruct (flagged weekStart weekEnd u).
  - destruct (isCronJob && notCountedYet weekStart u); reflexivity.
  - destruct (isCronJob && (0 <? User.lowLectureWeekCount u)%nat);
      reflexivity.
Qed.

Lemma lectureJson_shows (l : Lecture.t) : showsLecture l (lectureJson l).
Proof. repeat split. Qed.

Lemma lectureJson_shows_all (l : list Lecture.t) :
  Forall2 showsLecture l (map lectureJson l).
Proof.
  induction l as [| x r IH]; simpl; constructor;
    [apply lectureJson_shows | exact IH].
Qed.

Lemma Forall2_In_left {A B : Type} (R : A -> B -> Prop) (l : list A)
    (l' : list B) (x : A) :
  Forall2 R l l' -> In x l -> exists y, In y l' /\ R x y.
Proof.
  intros H. induction H as [| a b r r' Hab _ IH]; intros Hin.
  - destruct Hin.
  - destruct Hin as [-> | Hin].
    + exists b. split; [left; reflexivity | exact Hab].
    + destruct (IH Hin) as (y & Hy & Hxy). exists y.
      split; [right; exact Hy | exact Hxy].
Qed.

(** C10. The [lectures] of every member of a result show the whole
    [lectures] array of the volunteer's stored document: one element for
    each stored lecture, in the order of the array, with the [_id],
    [name], [subject], [studentEmail], [link] and [createdAt] of the
    lecture; so every stored lecture is shown, whatever its
    [createdAt]. *)
Theorem member_lectures_are_whole_history
    (faults : nat -> option Error) (isCronJob : bool) (now : Date)
    (s s' : Store) (response : Response.t) (m : Member.t) :
  checkLowLectureMembers faults isCronJob now s = (s', Ok response) ->
  In m (Response.members response) ->
  exists u,
    In u (users s) /\ isVolunteer u = true
    /\ Member._id m = User._id u
    /\ Forall2 showsLecture (User.lectures u) (Member.lectures m)
    /\ forall l, In l (User.lectures u) ->
                 exists shown,
                   In shown (Member.lectures m) /\ showsLecture l shown.
Proof.
  intros Hrun Hm. rewrite (committed_members _ _ _ _ _ _ Hrun) in Hm.
  apply In_membersOfRun in Hm.
  destruct Hm as (u & j & Hin & Hv & Ha & Hf & ->).
  exists u. simpl. rewrite userAfter_id, userAfter_lectures.
  repeat split; auto; [apply lectureJson_shows_all |].
  intros l Hl.
  apply (Forall2_In_left _ _ _ _ (lectureJson_shows_all (User.lectures u)) Hl).
Qed.

End History.

Section SampleHistory.

#[local] Existing Instance Sample.engine.

(** The flagged volunteer of the sample store gets its three lectures,
    of which one only lies in the window and counts for Math; the
    lecture dated after the window is shown with its fields. *)
Lemma member_lectures_are_whole_history_witness :
  exists m,
    In m (Response.members Sample.responseOfSunday)
    /\ List.length (Member.lectures m) = 3%nat
    /\ exists shown,
         In shown (Member.lectures m)
         /\ showsLecture Sample.lectureAfter shown.
Proof.
  destruct (member_lectures_are_whole_history noFaults true Sample.sunday
              Sample.store Sample.storeAfterRun Sample.responseOfSunday
              (nth 0 (Response.members Sample.responseOfSunday)
                 (Member.mk 0%nat "" "" 0%nat [] [])))
    as (u & Hin & Hv & Hid & Hall & Hshown).
  - apply sample_scheduled_run.
  - vm_compute. left. reflexivity.
  - eexists. split; [vm_compute; left; reflexivity |].
    assert (Hu : u = Sample.volunteer).
    { apply (same_id_same_user (users Sample.store));
        [apply sample_store_unique_ids | exact Hin | simpl; auto |].
      rewrite <- Hid. reflexivity. }
    subst u. split; [reflexivity |].
    apply Hshown. simpl. auto.
Defined.

End SampleHistory.

Section Skipped.

Context {engine : Engine}.

Lemma notificationsExtend_other (b : bool) (P : ObjectId -> Prop)
    (id : ObjectId) (l l' : list Notification.t) :
  notificationsExtend b P l l' ->
  ~ P id ->
  filter (fun n => (Notification.userId n =? id)%nat) l'
  = filter (fun n => (Notification.userId n =? id)%nat) l.
Proof.
  intros (added & -> & _ & Hall & _) Hnot.
  rewrite filter_app.
  assert (Hnil : filter (fun n => (Notification.userId n =? id)%nat) added
                 = []).
  { induction Hall as [| n r [Hp _] _ IH]; simpl.
    - reflexivity.
    - destruct (Notification.userId n =? id)%nat eqn:E; [| exact IH].
      apply Nat.eqb_eq in E. subst id. contradiction. }
  rewrite Hnil. apply app_nil_r.
Qed.

Lemma userAfter_not_approved (isCronJob : bool) (weekStart weekEnd : Date)
    (requests : list JoinRequest.t) (u : User.t) :
  approvedRequest requests u = None ->
  userAfter isCronJob weekStart weekEnd requests u = u.
Proof. unfold userAfter, userWrite. intros ->. reflexivity. Qed.

(** C9. A volunteer of role [user] whose membership record is missing or
    not [Approved] is skipped by a call in either mode, whatever store
    calls fail: it is no member of a returned result, its stored document
    is the same after the call, the notifications it owns are the same
    after the call, and an error the call throws is the error of a failed
    store call, never one raised for this volunteer. *)
Theorem volunteer_without_approved_request_is_skipped
    (faults : nat -> option Error) (isCronJob : bool) (now : Date)
    (s s' : Store) (result : Result Response.t) (u : User.t) :
  uniqueIds s ->
  checkLowLectureMembers faults isCronJob now s = (s', result) ->
  In u (users s) ->
  isVolunteer u = true ->
  approvedRequest (joinRequests s) u = None ->
  (forall response, result = Ok response ->
                    ~ isMember (Response.members response) (User._id u))
  /\ findUser (User._id u) (users s') = Some u
  /\ filter (fun n => (Notification.userId n =? User._id u)%nat)
       (notifications s')
     = filter (fun n => (Notification.userId n =? User._id u)%nat)
         (notifications s)
  /\ (forall e, result = Threw e -> exists k, faults k = Some e).
Proof.
  intros Hnd Hrun Hin Hv Hna.
  destruct result as [response | e].
  - pose proof (committed_members _ _ _ _ _ _ Hrun) as Hm.
    pose proof (committed_users _ _ _ _ _ _ Hnd Hrun) as Hu.
    apply committed_run in Hrun.
    destruct Hrun as (_ & _ & _ & _ & Hn).
    split; [| split; [| split]].
    + intros response' Heq. injection Heq as <-. rewrite Hm.
      rewrite (isMember_iff isCronJob now s u Hnd Hin).
      intros (_ & Ha & _). contradiction.
    + rewrite Hu, (findUser_usersAfterRun isCronJob now s u Hnd Hin), Hv.
      rewrite userAfter_not_approved by exact Hna. reflexivity.
    + eapply notificationsExtend_other; [exact Hn |].
      intros (u' & (Hin' & _ & Ha') & Heq).
      assert (u = u') by (eapply same_id_same_user; eauto). subst u'.
      contradiction.
    + intros e He. discriminate.
  - assert (s' = s) by (eapply rolled_back; exact Hrun). subst s'.
    split; [| split; [| split]].
    + intros response He. discriminate.
    + apply findUser_unique; assumption.
    + reflexivity.
    + intros e' He. injection He as <-.
      destruct (checkLowLectureMembers_cases isCronJob now faults s)
        as [(e' & k & Ht & Hf) | Hok].
      * exists k. congruence.
      * congruence.
Qed.

End Skipped.

Section SampleSkipped.

#[local] Existing Instance Sample.engine.

(** The volunteer of the sample store whose record is pending keeps its
    counter and its last counted week through the scheduled run. *)
Lemma volunteer_without_approved_request_is_skipped_witness :
  uniqueIds Sample.store
  /\ approvedRequest (joinRequests Sample.store) Sample.pending = None
  /\ ~ isMember (Response.members Sample.responseOfSunday) 9%nat
  /\ findUser 9%nat (users Sample.storeAfterRun) = Some Sample.pending.
Proof.
  pose proof sample_store_unique_ids as Hnd.
  assert (Hna : approvedRequest (joinRequests Sample.store) Sample.pending
                = None) by reflexivity.
  destruct (volunteer_without_approved_request_is_skipped noFaults true
              Sample.sunday Sample.store Sample.storeAfterRun
              (Ok Sample.responseOfSunday) Sample.pending Hnd)
    as (Hm & Hu & _).
  - vm_compute. reflexivity.
  - simpl. auto.
  - reflexivity.
  - exact Hna.
  - split; [exact Hnd |]. split; [exact Hna |].
    split; [apply Hm; reflexivity | exact Hu].
Defined.

End SampleSkipped.

Section Counters.

Context {engine : Engine}.

Lemma userAfter_not_flagged (weekStart weekEnd : Date)
    (requests : list JoinRequest.t) (u : User.t) :
  approvedRequest requests u <> None ->
  flagged weekStart weekEnd u = false ->
  userAfter true weekStart weekEnd requests u
  = if (0 <? User.lowLectureWeekCount u)%nat then resetCounter u else u.
Proof.
  intros Ha Hf. unfold userAfter, userWrite.
  destruct (approvedRequest requests u); [| contradiction].
  rewrite Hf. cbn [andb].
  destruct (0 <? User.lowLectureWeekCount u)%nat; reflexivity.
Qed.

Lemma userAfter_flagged (weekStart weekEnd : Date)
    (requests : list JoinRequest.t) (u : User.t) :
  approvedRequest requests u <> None ->
  flagged weekStart weekEnd u = true ->
  userAfter true weekStart weekEnd requests u
  = if notCountedYet weekStart u then incrementCounter weekStart u else u.
Proof.
  intros Ha Hf. unfold userAfter, userWrite.
  destruct (approvedRequest requests u); [| contradiction].
  rewrite Hf. cbn [andb]. destruct (notCountedYet weekStart u); reflexivity.
Qed.

Lemma not_flagged_without_pair (weekStart weekEnd : Date) (u : User.t) :
  User.students u = [] \/ ~ hasUnderTargetPair weekStart weekEnd u ->
  flagged weekStart weekEnd u = false.
Proof.
  intros H. destruct (flagged weekStart weekEnd u) eqn:Hf; [| reflexivity].
  apply flagged_iff in Hf. destruct H as [Hnil | Hno].
  - destruct Hf as (st & _ & Hst & _). rewrite Hnil in Hst. destruct Hst.
  - contradiction.
Qed.

(** C6. In scheduled mode, an evaluated volunteer that has no students,
    or no under-target (student, subject) pair in the window, is no
    member of the result; if its [lowLectureWeekCount] was not zero the
    committed run has stored its document with [lowLectureWeekCount] 0
    and [lastLowLectureWeek] null, nothing else changed, and if it was
    zero the document is as before. *)
Theorem compliant_volunteer_counter_is_reset
    (faults : nat -> option Error) (now : Date) (s s' : Store)
    (response : Response.t) (u : User.t) :
  uniqueIds s ->
  checkLowLectureMembers faults true now s = (s', Ok response) ->
  evaluated s u ->
  User.students u = []
  \/ ~ hasUnderTargetPair (Week.weekStart now) (Week.weekEnd now) u ->
  ~ isMember (Response.members response) (User._id u)
  /\ (User.lowLectureWeekCount u <> 0%nat ->
      exists u',
        findUser (User._id u) (users s') = Some u'
        /\ u' = resetCounter u
        /\ User.lowLectureWeekCount u' = 0%nat
        /\ User.lastLowLectureWeek u' = None)
  /\ (User.lowLectureWeekCount u = 0%nat ->
      findUser (User._id u) (users s') = Some u).
Proof.
  intros Hnd Hrun (Hin & Hv & Ha) Hno.
  apply not_flagged_without_pair in Hno.
  rewrite (committed_members _ _ _ _ _ _ Hrun).
  rewrite (committed_users _ _ _ _ _ _ Hnd Hrun).
  rewrite (findUser_usersAfterRun true now s u Hnd Hin), Hv.
  rewrite userAfter_not_flagged by assumption.
  split; [| split].
  - rewrite (isMember_iff true now s u Hnd Hin).
    intros (_ & _ & Hf). congruence.
  - intros Hc. exists (resetCounter u).
    destruct (User.lowLectureWeekCount u); [contradiction |].
    repeat split.
  - intros ->. reflexivity.
Qed.

(** The volunteer without students of the sample store had a counter of
    2; the scheduled run stores 0 and null. *)

End Counters.

Section SampleCounters.

#[local] Existing Instance Sample.engine.

Lemma compliant_volunteer_counter_is_reset_witness :
  uniqueIds Sample.store
  /\ evaluated Sample.store Sample.idle
  /\ User.students Sample.idle = []
  /\ User.lowLectureWeekCount Sample.idle = 2%nat
  /\ ~ isMember (Response.members Sample.responseOfSunday) 8%nat
  /\ exists u',
       findUser 8%nat (users Sample.storeAfterRun) = Some u'
       /\ User.lowLectureWeekCount u' = 0%nat
       /\ User.lastLowLectureWeek u' = None.
Proof.
  pose proof sample_store_unique_ids as Hnd.
  pose proof sample_idle_evaluated as Hev.
  destruct (compliant_volunteer_counter_is_reset noFaults Sample.sunday
              Sample.store Sample.storeAfterRun Sample.responseOfSunday
              Sample.idle Hnd)
    as (Hm & Hreset & _).
  - vm_compute. reflexivity.
  - exact Hev.
  - left. reflexivity.
  - split; [exact Hnd |]. split; [exact Hev |].
    split; [reflexivity |]. split; [reflexivity |].
    split; [exact Hm |].
    destruct Hreset as (u' & Hu & _ & Hc & Hl); [simpl; discriminate |].
    exists u'. split; [exact Hu |]. split; [exact Hc | exact Hl].
Defined.

(* ===================================================================== *)
(** ** Running the schedule twice *)
(* ===================================================================== *)

End SampleCounters.

Section Counters2.

Context {engine : Engine}.

(** A second evaluation with the same window saves nothing for a
    volunteer the first has been through. *)
Lemma userAfter_idempotent (weekStart weekEnd : Date)
    (requests : list JoinRequest.t) (u : User.t) :
  userAfter true weekStart weekEnd requests
    (userAfter true weekStart weekEnd requests u)
  = userAfter true weekStart weekEnd requests u.
Proof.
  destruct (approvedRequest requests u) as [j |] eqn:Ha.
  2:{ rewrite (userAfter_not_approved _ _ _ _ _ Ha).
      apply userAfter_not_approved. exact Ha. }
  assert (Ha' : approvedRequest requests u <> None) by congruence.
  destruct (flagged weekStart weekEnd u) eqn:Hf.
  - rewrite (userAfter_flagged _ _ _ _ Ha' Hf).
    destruct (notCountedYet weekStart u) eqn:Hc.
    + rewrite userAfter_flagged; [| exact Ha' | exact Hf].
      unfold notCountedYet. simpl. rewrite Z.ltb_irrefl. reflexivity.
    + rewrite userAfter_flagged by assumption. rewrite Hc. reflexivity.
  - rewrite (userAfter_not_flagged _ _ _ _ Ha' Hf).
    destruct (0 <? User.lowLectureWeekCount u)%nat eqn:Hc.
    + rewrite userAfter_not_flagged; [| exact Ha' | exact Hf]. reflexivity.
    + rewrite userAfter_not_flagged by assumption. rewrite Hc. reflexivity.
Qed.

Lemma userAfter_role (isCronJob : bool) (weekStart weekEnd : Date)
    (requests : list JoinRequest.t) (u : User.t) :
  isVolunteer (userAfter isCronJob weekStart weekEnd requests u)
  = isVolunteer u.
Proof.
  unfold userAfter, userWrite.
  destruct (approvedRequest requests u); [| reflexivity].
  destruct (flagged weekStart weekEnd u).
  - destruct (isCronJob && notCountedYet weekStart u); reflexivity.
  - destruct (isCronJob && (0 <? User.lowLectureWeekCount u)%nat);
      reflexivity.
Qed.

Lemma second_run_same_week (faults1 faults2 : nat -> option Error)
    (now1 now2 : Date) (s s1 s2 : Store) (response1 : Response.t)
    (result2 : Result Response.t) :
  zoneKeepsCivilDay ->
  uniqueIds s ->
  Week.weekStart now2 = Week.weekStart now1 ->
  checkLowLectureMembers faults1 true now1 s = (s1, Ok response1) ->
  checkLowLectureMembers faults2 true now2 s1 = (s2, result2) ->
  users s2 = users s1.
Proof.
  intros Hkeeps Hnd Hws Hrun1 Hrun2.
  pose proof (committed_users _ _ _ _ _ _ Hnd Hrun1) as Hu1.
  apply committed_run in Hrun1. destruct Hrun1 as (_ & _ & Hj1 & _).
  destruct result2 as [response2 | e].
  2:{ assert (s2 = s1) by (eapply rolled_back; exact Hrun2). congruence. }
  assert (Hnd1 : uniqueIds s1).
  { unfold uniqueIds. rewrite Hu1, usersAfterRun_ids. exact Hnd. }
  rewrite (committed_users _ _ _ _ _ _ Hnd1 Hrun2).
  unfold usersAfterRun at 1.
  rewrite Hj1, Hws, (weekEnd_of_weekStart Hkeeps now1 now2 Hws).
  rewrite Hu1. unfold usersAfterRun. rewrite map_map. apply map_ext.
  intros u. destruct (isVolunteer u) eqn:Hv.
  - rewrite userAfter_role, Hv. apply userAfter_idempotent.
  - rewrite Hv. reflexivity.
Qed.

(** C3. (1) In a time zone that keeps the civil day, a scheduled run
    that follows a committed scheduled run with the same [weekStart]
    leaves the volunteer documents as the first run
    left them: the [lowLectureWeekCount] and [lastLowLectureWeek] of a
    volunteer flagged by the first run are unchanged. (2) A committed
    scheduled run that flags a volunteer whose [lastLowLectureWeek] is
    null or earlier than the run's [weekStart] stores the volunteer with
    [lowLectureWeekCount] increased by exactly 1 and [lastLowLectureWeek]
    equal to that [weekStart]. *)
Theorem counter_increments_once_per_week :
  (forall (faults1 faults2 : nat -> option Error) (now1 now2 : Date)
          (s s1 s2 : Store) (response1 : Response.t)
          (result2 : Result Response.t) (u1 : User.t),
      zoneKeepsCivilDay ->
      uniqueIds s ->
      Week.weekStart now2 = Week.weekStart now1 ->
      checkLowLectureMembers faults1 true now1 s = (s1, Ok response1) ->
      checkLowLectureMembers faults2 true now2 s1 = (s2, result2) ->
      In u1 (users s1) ->
      isMember (Response.members response1) (User._id u1) ->
      users s2 = users s1
      /\ findUser (User._id u1) (users s2) = Some u1)
  /\ (forall (faults : nat -> option Error) (now : Date) (s s' : Store)
             (response : Response.t) (u : User.t),
         uniqueIds s ->
         checkLowLectureMembers faults true now s = (s', Ok response) ->
         In u (users s) ->
         isMember (Response.members response) (User._id u) ->
         match User.lastLowLectureWeek u with
         | Some w => w < Week.weekStart now
         | None => True
         end ->
         exists u',
           findUser (User._id u) (users s') = Some u'
           /\ User.lowLectureWeekCount u'
              = (User.lowLectureWeekCount u + 1)%nat
           /\ User.lastLowLectureWeek u' = Some (Week.weekStart now)).
Proof.
  split.
  - intros faults1 faults2 now1 now2 s s1 s2 response1 result2 u1
      Hkeeps Hnd Hws Hrun1 Hrun2 Hin Hm.
    assert (Heq : users s2 = users s1)
      by (eapply second_run_same_week; eauto).
    split; [exact Heq |]. rewrite Heq.
    apply findUser_unique; [| exact Hin].
    rewrite (committed_users _ _ _ _ _ _ Hnd Hrun1), usersAfterRun_ids.
    exact Hnd.
  - intros faults now s s' response u Hnd Hrun Hin Hm Hlast.
    rewrite (committed_members _ _ _ _ _ _ Hrun) in Hm.
    apply (isMember_iff true now s u Hnd Hin) in Hm.
    destruct Hm as (Hv & Ha & Hf).
    exists (incrementCounter (Week.weekStart now) u).
    rewrite (committed_users _ _ _ _ _ _ Hnd Hrun).
    rewrite (findUser_usersAfterRun true now s u Hnd Hin), Hv.
    rewrite userAfter_flagged by assumption.
    assert (Hc : notCountedYet (Week.weekStart now) u = true).
    { unfold notCountedYet. destruct (User.lastLowLectureWeek u).
      - apply Z.ltb_lt. exact Hlast.
      - reflexivity. }
    rewrite Hc. repeat split.
Qed.

End Counters2.

Section SampleCounters2.

#[local] Existing Instance Sample.engine.

(** On the sample store: the scheduled run of Sunday flags the volunteer
    and makes its counter 1; a second run the same day changes no
    volunteer document; the run of the following Sunday, for the next
    window, makes the counter 2 and moves the last counted week. *)
Lemma counter_increments_once_per_week_witness :
  users (fst (checkLowLectureMembers noFaults true Sample.sunday
                Sample.storeAfterRun))
  = users Sample.storeAfterRun
  /\ exists u u',
       findUser 7%nat (users Sample.storeAfterRun) = Some u
       /\ User.lowLectureWeekCount u = 1%nat
       /\ findUser 7%nat
            (users (fst (checkLowLectureMembers noFaults true
                           Sample.nextSunday Sample.storeAfterRun)))
          = Some u'
       /\ User.lowLectureWeekCount u' = 2%nat
       /\ User.lastLowLectureWeek u'
          = Some (Week.weekStart Sample.nextSunday).
Proof.
  pose proof sample_store_unique_ids as Hnd.
  pose proof sample_store_after_run_unique_ids as Hnd'.
  destruct counter_increments_once_per_week as [Hsame Hnext].
  split.
  - eapply (Hsame noFaults noFaults Sample.sunday Sample.sunday Sample.store
              Sample.storeAfterRun _ Sample.responseOfSunday
              (snd (checkLowLectureMembers noFaults true Sample.sunday
                      Sample.storeAfterRun))
              (incrementCounter (Week.weekStart Sample.sunday)
                 Sample.volunteer) sample_zoneKeepsCivilDay Hnd eq_refl).
    + vm_compute. reflexivity.
    + apply surjective_pairing.
    + vm_compute. auto.
    + eexists. split; [vm_compute; left; reflexivity | reflexivity].
  - exists (incrementCounter (Week.weekStart Sample.sunday) Sample.volunteer).
    destruct (Hnext noFaults Sample.nextSunday Sample.storeAfterRun
                (fst (checkLowLectureMembers noFaults true Sample.nextSunday
                        Sample.storeAfterRun))
                (responseOfRun true Sample.nextSunday Sample.storeAfterRun)
                (incrementCounter (Week.weekStart Sample.sunday)
                   Sample.volunteer) Hnd')
      as (u' & Hu' & Hc & Hl).
    + vm_compute. reflexivity.
    + vm_compute. auto.
    + eexists. split; [vm_compute; left; reflexivity | reflexivity].
    + vm_compute. reflexivity.
    + exists u'. split; [reflexivity |]. split; [reflexivity |].
      split; [exact Hu' |]. split; [exact Hc | exact Hl].
Defined.
End SampleCounters2.


(* ===================================================================== *)
(** ** Handlers that end their transaction themselves *)
(* ===================================================================== *)

(** A handler that starts a session, runs a [try] block whose calls all
    carry the session and ends the transaction as the block says, with
    a [catch] block that aborts and replies. It ends in one of four
    ways: the block asked for the commit, no call failed, and the run of
    the block is committed; the block asked for the abort, no call
    failed, and nothing is committed; the [catch] block replies for the
    error of a failed call or for the error the block raised, and nothing
    is committed; or it throws the error of a failed call, and nothing
    is committed. *)
Lemma transaction_cases {A : Type} (body : Prog (TxEnd A))
    (onError : Error -> A) (faults : nat -> option Error) (s : Store) :
  inSession body ->
  match (call startTransaction ;;
         tryCatch (ending <- exec body ;; endTransaction ending)
           (fun error => call abort ;; ret (onError error)))%handler
          faults 0%nat (mkDb s None) with
  | Returned reply _ db =>
      (exists r, fst (run body s) = Commit r /\ reply = r
                 /\ committed db = snd (run body s)
                 /\ forall k, (k < 2 + calls body s)%nat -> faults k = None)
      \/ (committed db = s
          /\ exists r, fst (run body s) = Abort r /\ reply = r
                       /\ forall k, (k < 2 + calls body s)%nat ->
                                    faults k = None)
      \/ (committed db = s
          /\ exists e, reply = onError e
                       /\ ((exists k, faults k = Some e)
                           \/ (fst (run body s) = Raise e
                               /\ forall k, (k < 2 + calls body s)%nat ->
                                            faults k = None)))
  | Thrown e _ db => committed db = s /\ exists k, faults k = Some e
  end.
Proof.
  intros Hin. unfold andThen at 1. unfold call at 1.
  destruct (faults 0%nat) as [e0 |] eqn:F0.
  { split; [reflexivity | exists 0%nat; exact F0]. }
  cbn [startTransaction committed]. unfold tryCatch, andThen.
  pose proof (exec_inSession body Hin faults 1 s s) as Hx.
  destruct (exec body faults 1%nat (mkDb s (Some s))) as [a n' db | e n' db].
  - destruct Hx as (-> & -> & -> & Hnone).
    assert (Hbefore : forall j, (j < 1 + calls body s)%nat -> faults j = None).
    { intros j Hj. destruct j as [| j]; [exact F0 |].
      apply (Hnone j). lia. }
    destruct (fst (run body s)) as [r | r | e] eqn:Hend;
      cbn [endTransaction]; unfold andThen, call.
    + destruct (faults (1 + calls body s)%nat) as [e |] eqn:Fc.
      * destruct (faults (S (1 + calls body s))) as [e' |] eqn:Fa.
        -- split; [reflexivity | exists (S (1 + calls body s)); exact Fa].
        -- cbn [abort committed ret]. right. right.
           split; [reflexivity |]. exists e. split; [reflexivity |].
           left. exists (1 + calls body s)%nat. exact Fc.
      * cbn [commit session committed ret]. left. exists r.
        repeat split. intros k Hk.
        destruct (Nat.eq_dec k (1 + calls body s)) as [-> | Hne];
          [exact Fc | apply Hbefore; lia].
    + destruct (faults (1 + calls body s)%nat) as [e |] eqn:Fc.
      * destruct (faults (S (1 + calls body s))) as [e' |] eqn:Fa.
        -- split; [reflexivity | exists (S (1 + calls body s)); exact Fa].
        -- cbn [abort committed ret]. right. right.
           split; [reflexivity |]. exists e. split; [reflexivity |].
           left. exists (1 + calls body s)%nat. exact Fc.
      * cbn [abort committed ret]. right. left.
        split; [reflexivity |]. exists r. repeat split. intros k Hk.
        destruct (Nat.eq_dec k (1 + calls body s)) as [-> | Hne];
          [exact Fc | apply Hbefore; lia].
    + unfold throw.
      destruct (faults (1 + calls body s)%nat) as [e' |] eqn:Fa.
      * split; [reflexivity | exists (1 + calls body s)%nat; exact Fa].
      * cbn [abort committed ret]. right. right.
        split; [reflexivity |]. exists e. split; [reflexivity |].
        right. split; [reflexivity |]. intros k Hk.
        destruct (Nat.eq_dec k (1 + calls body s)) as [-> | Hne];
          [exact Fa | apply Hbefore; lia].
  - destruct Hx as ((v' & ->) & k & Hk & Hf & Hbefore & ->).
    unfold call.
    destruct (faults (S (1 + k))) as [e' |] eqn:Fa.
    + split; [reflexivity | exists (S (1 + k)); exact Fa].
    + cbn [abort committed ret]. right. right.
      split; [reflexivity |]. exists e. split; [reflexivity |].
      left. exists (1 + k)%nat. exact Hf.
Qed.


(* ===================================================================== *)
(** ** One notification per tuple *)
(* ===================================================================== *)


Section Notifications.

Context {engine : Engine}.

Lemma notificationsExtend_count_le (b : bool) (P : ObjectId -> Prop)
    (q : NotificationFilter) (l l' : list Notification.t) :
  notificationsExtend b P l l' ->
  (countMatching q l <= countMatching q l')%nat.
Proof.
  intros (added & -> & _). rewrite countMatching_app. lia.
Qed.

Lemma notificationsExtend_invariant (b : bool) (P : ObjectId -> Prop)
    (l l' : list Notification.t) :
  notificationsExtend b P l l' ->
  atMostOnePerTuple l -> atMostOnePerTuple l'.
Proof.
  intros (added & _ & _ & _ & Hc) Hinv userId subject studentEmail.
  specialize (Hinv userId subject studentEmail).
  destruct (Hc (mkFilter userId low_lecture_count_per_subject subject
                  studentEmail)) as [H | [_ H]]; lia.
Qed.

(** A loop establishes what one of its iterations establishes and the
    others keep. *)
Lemma forEach_establishes {A B : Type} (body : B -> A -> Prog B)
    (Q : Store -> Prop) (x : A) (l : list A) :
  (forall acc a s, Q s -> Q (snd (run (body acc a) s))) ->
  (forall acc s, Q (snd (run (body acc x) s))) ->
  In x l ->
  forall acc s, Q (snd (run (forEach body l acc) s)).
Proof.
  intros Hkeep Hx.
  assert (Hloop : forall l acc s, Q s -> Q (snd (run (forEach body l acc) s))).
  { clear l. induction l as [| a r IH]; intros acc s Hq.
    - exact Hq.
    - rewrite run_forEach_cons. apply IH. apply Hkeep. exact Hq. }
  induction l as [| a r IH]; intros Hin acc s.
  - destruct Hin.
  - rewrite run_forEach_cons. destruct Hin as [-> | Hin].
    + apply Hloop. apply Hx.
    + apply IH. exact Hin.
Qed.

Section Notified.

Variables (now weekStart weekEnd : Date) (u : User.t) (st : Student.t)
  (sb : Subject.t).

Hypothesis under : isUnderTarget weekStart weekEnd u st sb = true.
Hypothesis sb_in : In sb (Student.subjects st).
Hypothesis st_in : In st (User.students u).

Lemma find_some_count (q : NotificationFilter) (l : list Notification.t)
    (n : Notification.t) :
  find (notificationMatches q) l = Some n -> (1 <= countMatching q l)%nat.
Proof.
  unfold countMatching. induction l as [| x r IH]; simpl; [discriminate |].
  destruct (notificationMatches q x); simpl; intros H; [lia | auto].
Qed.

Lemma subjectLoopBody_notifies (acc : list UnderTargetSubject.t)
    (s : Store) :
  hasNotification u st sb (snd (run (subjectLoopBody true now weekStart weekEnd u st acc sb)
                   s)).
Proof.
  unfold hasNotification, subjectLoopBody. cbv zeta.
  unfold isUnderTarget in under. rewrite under.
  awaited.
  destruct (find (notificationMatches (lowLectureFilter u st sb))
              (notifications s)) as [n |] eqn:Hfind.
  - cbn [run snd]. eapply find_some_count. exact Hfind.
  - rewrite run_bind, run_withSession. cbn [perform run fst snd notifications].
    rewrite countMatching_app.
    unfold countMatching at 2. simpl.
    rewrite lowLectureNotification_matches. simpl. lia.
Qed.

Lemma subjectLoop_notifies (acc : list UnderTargetSubject.t) (s : Store) :
  hasNotification u st sb (snd (run (forEach (subjectLoopBody true now weekStart weekEnd
                                 u st)
                        (Student.subjects st) acc) s)).
Proof.
  apply forEach_establishes with (x := sb).
  - intros acc' a s' Hq. unfold hasNotification in *.
    destruct (run_subjectLoopBody true now weekStart weekEnd u st acc' a s')
      as (_ & _ & Hn).
    eapply Nat.le_trans; [exact Hq |].
    eapply notificationsExtend_count_le. exact Hn.
  - intros acc' s'. apply subjectLoopBody_notifies.
  - exact sb_in.
Qed.

Lemma studentLoopBody_notifies (acc : list UnderTargetStudent.t)
    (s : Store) :
  hasNotification u st sb (snd (run (studentLoopBody true now weekStart weekEnd u acc st) s)).
Proof.
  unfold studentLoopBody.
  pose proof (subjectLoop_notifies [] s) as H.
  destruct (Student.subjects st) as [| sb0 rest] eqn:Hsub.
  - destruct sb_in.
  - rewrite run_bind.
    destruct (0 <? List.length _)%nat; cbn [run snd]; exact H.
Qed.

Lemma studentLoop_notifies (acc : list UnderTargetStudent.t) (s : Store) :
  hasNotification u st sb (snd (run (forEach (studentLoopBody true now weekStart weekEnd u)
                        (User.students u) acc) s)).
Proof.
  apply forEach_establishes with (x := st).
  - intros acc' a s' Hq. unfold hasNotification in *.
    destruct (run_studentLoopBody true now weekStart weekEnd u acc' a s')
      as (_ & _ & Hn).
    eapply Nat.le_trans; [exact Hq |].
    eapply notificationsExtend_count_le. exact Hn.
  - intros acc' s'. apply studentLoopBody_notifies.
  - exact st_in.
Qed.

Lemma userLoopBody_notifies (members : list Member.t) (s : Store) :
  approvedRequest (joinRequests s) u <> None ->
  hasNotification u st sb (snd (run (userLoopBody true now weekStart weekEnd members u) s)).
Proof.
  intros Ha. unfold approvedRequest in Ha. unfold userLoopBody.
  awaited.
  destruct (find _ (joinRequests s)) as [j |]; [| contradiction].
  destruct (JoinRequest.status j =? "Approved")%string; [| contradiction].
  cbn [negb].
  pose proof (studentLoop_notifies [] s) as H.
  destruct (User.students u) as [| st0 rest] eqn:Hstud.
  - destruct st_in.
  - rewrite run_bind.
    set (r1 := run (forEach _ (st0 :: rest) []) s) in *.
    destruct (0 <? List.length (fst r1))%nat.
    + rewrite run_bind. cbn [andb].
      destruct (notCountedYet weekStart u).
      * rewrite run_bind, run_withSession. cbn [perform run fst snd]. exact H.
      * cbn [run fst snd]. exact H.
    + rewrite run_bind, run_resetIfFlagged. cbn [run fst snd andb].
      destruct (0 <? User.lowLectureWeekCount u)%nat; exact H.
Qed.

End Notified.

(** A committed scheduled run leaves a notification for every
    under-target tuple of an evaluated volunteer. *)
Lemma scheduled_run_notifies (now : Date) (s : Store) (u : User.t)
    (st : Student.t) (sb : Subject.t) :
  evaluated s u ->
  In st (User.students u) -> In sb (Student.subjects st) ->
  isUnderTarget (Week.weekStart now) (Week.weekEnd now) u st sb = true ->
  hasNotification u st sb
    (snd (run (checkLowLectureMembersBody true now) s)).
Proof.
  intros (Hin & Hv & Ha) Hst Hsb Hunder.
  unfold checkLowLectureMembersBody. cbv zeta.
  awaited.
  fold isVolunteer. fold (volunteers s).
  rewrite run_bind.
  assert (Hloop : forall l,
             In u l ->
             forall acc s0, joinRequests s0 = joinRequests s ->
               hasNotification u st sb
                 (snd (run (forEach (userLoopBody true now
                                       (Week.weekStart now)
                                       (Week.weekEnd now)) l acc) s0))
               /\ joinRequests
                    (snd (run (forEach (userLoopBody true now
                                          (Week.weekStart now)
                                          (Week.weekEnd now)) l acc) s0))
                  = joinRequests s).
  { assert (Hkeep : forall l acc s0,
               joinRequests s0 = joinRequests s ->
               hasNotification u st sb s0 ->
               hasNotification u st sb
                 (snd (run (forEach (userLoopBody true now
                                       (Week.weekStart now)
                                       (Week.weekEnd now)) l acc) s0))
               /\ joinRequests
                    (snd (run (forEach (userLoopBody true now
                                          (Week.weekStart now)
                                          (Week.weekEnd now)) l acc) s0))
                  = joinRequests s).
    { intros l acc s0 Hj Hq.
      destruct (run_userLoop true now (Week.weekStart now)
                  (Week.weekEnd now) l acc s0) as (_ & _ & Hj' & _ & Hn).
      split; [| congruence].
      unfold hasNotification in *.
      eapply Nat.le_trans; [exact Hq |].
      eapply notificationsExtend_count_le. exact Hn. }
    induction l as [| a r IH]; intros Hinl acc s0 Hj.
    - destruct Hinl.
    - rewrite run_forEach_cons.
      destruct (run_userLoopBody true now (Week.weekStart now)
                  (Week.weekEnd now) acc a s0) as (_ & _ & Hj' & _ & _).
      destruct Hinl as [-> | Hinl].
      + apply Hkeep; [congruence |].
        apply userLoopBody_notifies; try assumption.
        rewrite Hj. exact Ha.
      + apply IH; [exact Hinl | congruence]. }
  destruct (Hloop (volunteers s)
              ltac:(apply filter_In; split; assumption) [] s eq_refl)
    as [Hq _].
  set (r1 := run (forEach _ (volunteers s) []) s) in *.
  awaited. cbn [run fst snd]. exact Hq.
Qed.


(* ===================================================================== *)
(** ** Adding a lecture *)
(* ===================================================================== *)

Section AddLectureFacts.

Variables isURL isEmail : string -> bool.
Variable isLength : string -> Z -> Z -> bool.
Variable notAString : Json.t -> Error.

Lemma inSession_addLectureWrites (now : Date) (lectureId userId : ObjectId)
    (body : LectureBody.t) (email : string) (user : User.t)
    (joinRequest : JoinRequest.t) :
  inSession (addLectureWrites now lectureId userId body email user
               joinRequest).
Proof.
  unfold addLectureWrites. cbv zeta.
  repeat (apply inSession_bind; [apply inSession_withSession | intros _]).
  exact I.
Qed.

Lemma inSession_addLectureQueries (now : Date) (lectureId userId : ObjectId)
    (body : LectureBody.t) :
  inSession (addLectureQueries now lectureId userId body).
Proof.
  unfold addLectureQueries. cbv zeta.
  apply inSession_bind; [apply inSession_withSession |].
  intros [user |]; [| exact I].
  destruct (negb _); [exact I |].
  apply inSession_bind; [apply inSession_withSession |].
  intros [j |]; [apply inSession_addLectureWrites | exact I].
Qed.

(** Every call of the [try] block carries the session, lines 76-143. *)
Lemma inSession_addLectureBody (now : Date) (lectureId userId : ObjectId)
    (body : LectureBody.t) :
  inSession (addLectureBody isURL isEmail isLength notAString now lectureId
               userId body).
Proof.
  unfold addLectureBody. cbv zeta.
  destruct (_ || _); [exact I |].
  destruct (validated notAString isURL _) as [[|] | e]; try exact I.
  destruct (validated notAString _ (LectureBody.nameValue body))
    as [[|] | e]; try exact I.
  destruct (validated notAString _ (LectureBody.subjectValue body))
    as [[|] | e]; try exact I.
  destruct (validated notAString isEmail _) as [[|] | e]; try exact I.
  apply inSession_addLectureQueries.
Qed.

(** A validator throws for a value that is no string. *)
Lemma validated_threw (check : string -> bool) (v : Json.t) (e : Error) :
  validated notAString check v = Threw e ->
  Json.isText v = false /\ e = notAString v.
Proof.
  destruct v; simpl; intros H; try discriminate; injection H as <-;
    split; reflexivity.
Qed.

Lemma validated_ok (check : string -> bool) (v : Json.t) (b : bool) :
  validated notAString check v = Ok b ->
  Json.isText v = true /\ check (Json.text v) = b.
Proof.
  destruct v; simpl; intros H; try discriminate; injection H as <-;
    split; reflexivity.
Qed.

Lemma truthy_text (v : Json.t) :
  Json.isText v = true -> Str.truthy (Json.text v) = Json.truthy v.
Proof. destruct v; simpl; intros H; try discriminate; reflexivity. Qed.

(** What a run of the queries that asks for the commit has found and
    written. *)
Lemma run_addLectureQueries_commit (now : Date)
    (lectureId userId : ObjectId) (body : LectureBody.t) (s : Store)
    (reply : PostReply) :
  fst (run (addLectureQueries now lectureId userId body) s) = Commit reply ->
  exists user joinRequest,
    findUser userId (users s) = Some user
    /\ inRoster body user = true
    /\ requestOf (joinRequests s) user = Some joinRequest
    /\ reply = PostOk (submittedLecture now lectureId body)
                 (User.lectureCount user + 1)
                 (JoinRequest.volunteerHours joinRequest + 2)
    /\ users (snd (run (addLectureQueries now lectureId userId body) s))
       = replaceUser (withLecture (submittedLecture now lectureId body) user)
           (users s)
    /\ joinRequests (snd (run (addLectureQueries now lectureId userId body)
                            s))
       = replaceJoinRequest (plusTwoHours joinRequest) (joinRequests s)
    /\ reports (snd (run (addLectureQueries now lectureId userId body) s))
       = reports s
    /\ notifications (snd (run (addLectureQueries now lectureId userId body)
                             s))
       = filter
           (fun n =>
              negb (notificationMatches
                      (mkFilter userId low_lecture_count_per_subject
                         (LectureBody.subject body)
                         (Str.trim (toLowerCase
                                      (LectureBody.studentEmail body))))
                      n))
           (notifications s)
         ++ [lectureAddedNotification now userId user body
               (Str.trim (toLowerCase (LectureBody.studentEmail body)))].
Proof.
  unfold addLectureQueries, inRoster, requestOf, findUser. cbv zeta.
  awaited.
  destruct (find _ (users s)) as [user |]; [| discriminate].
  destruct (existsb _ (User.students user)) eqn:Hroster; cbn [negb];
    [| discriminate].
  awaited.
  destruct (find _ (joinRequests s)) as [j |] eqn:Hj; [| discriminate].
  unfold addLectureWrites. cbv zeta.
  repeat awaited. cbn [run fst snd users joinRequests reports notifications].
  intros H. injection H as <-. exists user, j. repeat split; assumption.
Qed.

Lemma run_addLectureQueries_other (now : Date)
    (lectureId userId : ObjectId) (body : LectureBody.t) (s : Store) :
  match fst (run (addLectureQueries now lectureId userId body) s) with
  | Commit _ => True
  | Abort reply => reply = PostBadRequest \/ reply = PostNotFound
  | Raise _ => False
  end.
Proof.
  unfold addLectureQueries. cbv zeta.
  awaited.
  destruct (find _ (users s)) as [user |]; [| cbn [run fst]; auto].
  destruct (negb (existsb _ (User.students user))); [cbn [run fst]; auto |].
  awaited.
  destruct (find _ (joinRequests s)) as [j |]; [| cbn [run fst]; auto].
  unfold addLectureWrites. cbv zeta.
  repeat awaited. cbn [run fst]. exact I.
Qed.

(** How the [try] block ends, by its checks: it gives up with a 400
    when a value is falsy or a validator refuses it, it raises the
    error of a validator that is given a value that is no string, and it
    goes on to the queries when the body is acceptable. *)
Lemma addLectureBody_cases (now : Date) (lectureId userId : ObjectId)
    (body : LectureBody.t) :
  (acceptable isURL isEmail isLength body = true
   /\ addLectureBody isURL isEmail isLength notAString now lectureId userId
        body
      = addLectureQueries now lectureId userId body)
  \/ (acceptable isURL isEmail isLength body = false
      /\ (addLectureBody isURL isEmail isLength notAString now lectureId
            userId body
          = Ret (Abort PostBadRequest)
          \/ exists v,
               In v (valuesOf body) /\ Json.truthy v = true
               /\ Json.isText v = false
               /\ addLectureBody isURL isEmail isLength notAString now
                    lectureId userId body
                  = Ret (Raise (notAString v)))).
Proof.
  unfold addLectureBody, acceptable, valuesOf, LectureBody.link,
    LectureBody.name, LectureBody.subject, LectureBody.studentEmail.
  cbv zeta.
  destruct (Json.truthy (LectureBody.linkValue body)) eqn:Tl; cbn [negb orb];
    [| right; split; [rewrite ?andb_false_r | left; reflexivity];
       destruct (Json.isText (LectureBody.linkValue body)) eqn:E;
       [rewrite (truthy_text _ E), Tl, ?andb_false_r; cbn;
        rewrite ?andb_false_r; reflexivity
       | reflexivity]].
  destruct (Json.truthy (LectureBody.nameValue body)) eqn:Tn; cbn [negb orb];
    [| right; split; [| left; reflexivity];
       destruct (Json.isText (LectureBody.nameValue body)) eqn:E;
       [rewrite (truthy_text _ E), Tn; cbn; rewrite ?andb_false_r;
        reflexivity
       | rewrite ?andb_false_r; reflexivity]].
  destruct (Json.truthy (LectureBody.subjectValue body)) eqn:Ts;
    cbn [negb orb];
    [| right; split; [| left; reflexivity];
       destruct (Json.isText (LectureBody.subjectValue body)) eqn:E;
       [rewrite (truthy_text _ E), Ts; cbn; rewrite ?andb_false_r;
        reflexivity
       | rewrite ?andb_false_r; reflexivity]].
  destruct (Json.truthy (LectureBody.studentEmailValue body)) eqn:Te;
    cbn [negb orb];
    [| right; split; [| left; reflexivity];
       destruct (Json.isText (LectureBody.studentEmailValue body)) eqn:E;
       [rewrite (truthy_text _ E), Te; cbn; rewrite ?andb_false_r;
        reflexivity
       | rewrite ?andb_false_r; reflexivity]].
  destruct (validated notAString isURL (LectureBody.linkValue body))
    as [b | e] eqn:Vl.
  2:{ apply validated_threw in Vl. destruct Vl as [Hl ->]. right.
      rewrite Hl. split; [reflexivity |]. right.
      exists (LectureBody.linkValue body).
      repeat split; simpl; auto. }
  apply validated_ok in Vl. destruct Vl as [Hl <-].
  rewrite Hl, (truthy_text _ Hl), Tl. cbn [andb].
  destruct (validated notAString (fun s => isLength s 1 100)
              (LectureBody.nameValue body)) as [b | e] eqn:Vn.
  2:{ apply validated_threw in Vn. destruct Vn as [Hn ->].
      rewrite Hn. cbn [andb].
      destruct (isURL (Json.text (LectureBody.linkValue body))).
      - right. split; [reflexivity |]. right.
        exists (LectureBody.nameValue body). repeat split; simpl; auto.
      - right. split; [reflexivity |]. left. reflexivity. }
  apply validated_ok in Vn. destruct Vn as [Hn <-].
  rewrite Hn, (truthy_text _ Hn), Tn. cbn [andb].
  destruct (validated notAString (fun s => isLength s 1 100)
              (LectureBody.subjectValue body)) as [b | e] eqn:Vs.
  2:{ apply validated_threw in Vs. destruct Vs as [Hs ->].
      rewrite Hs. cbn [andb].
      destruct (isURL (Json.text (LectureBody.linkValue body)));
        [| right; split; [reflexivity | left; reflexivity]].
      destruct (isLength (Json.text (LectureBody.nameValue body)) 1 100);
        [| right; split; [reflexivity | left; reflexivity]].
      right. split; [reflexivity |]. right.
      exists (LectureBody.subjectValue body). repeat split; simpl; auto. }
  apply validated_ok in Vs. destruct Vs as [Hs <-].
  rewrite Hs, (truthy_text _ Hs), Ts. cbn [andb].
  destruct (validated notAString isEmail (LectureBody.studentEmailValue body))
    as [b | e] eqn:Ve.
  2:{ apply validated_threw in Ve. destruct Ve as [He ->].
      rewrite He. cbn [andb].
      destruct (isURL (Json.text (LectureBody.linkValue body)));
        [| right; split; [reflexivity | left; reflexivity]].
      destruct (isLength (Json.text (LectureBody.nameValue body)) 1 100);
        [| right; split; [reflexivity | left; reflexivity]].
      destruct (isLength (Json.text (LectureBody.subjectValue body)) 1 100);
        [| right; split; [reflexivity | left; reflexivity]].
      right. split; [reflexivity |]. right.
      exists (LectureBody.studentEmailValue body).
      repeat split; simpl; auto. }
  apply validated_ok in Ve. destruct Ve as [He <-].
  rewrite He, (truthy_text _ He), Te. cbn [andb].
  destruct (isURL (Json.text (LectureBody.linkValue body)));
    [| right; split; [reflexivity | left; reflexivity]].
  destruct (isLength (Json.text (LectureBody.nameValue body)) 1 100);
    [| right; split; [reflexivity | left; reflexivity]].
  destruct (isLength (Json.text (LectureBody.subjectValue body)) 1 100);
    [| right; split; [reflexivity | left; reflexivity]].
  destruct (isEmail (Json.text (LectureBody.studentEmailValue body)));
    [| right; split; [reflexivity | left; reflexivity]].
  left. split; reflexivity.
Qed.

(** What a run of the [try] block that asks for the commit has checked
    and written. *)
Lemma run_addLectureBody_commit (now : Date) (lectureId userId : ObjectId)
    (body : LectureBody.t) (s : Store) (reply : PostReply) :
  fst (run (addLectureBody isURL isEmail isLength notAString now lectureId
              userId body) s)
  = Commit reply ->
  exists user joinRequest,
    acceptable isURL isEmail isLength body = true
    /\ findUser userId (users s) = Some user
    /\ inRoster body user = true
    /\ requestOf (joinRequests s) user = Some joinRequest
    /\ reply = PostOk (submittedLecture now lectureId body)
                 (User.lectureCount user + 1)
                 (JoinRequest.volunteerHours joinRequest + 2)
    /\ users (snd (run (addLectureBody isURL isEmail isLength notAString now
                          lectureId userId body) s))
       = replaceUser (withLecture (submittedLecture now lectureId body) user)
           (users s)
    /\ joinRequests (snd (run (addLectureBody isURL isEmail isLength
                                 notAString now lectureId userId body) s))
       = replaceJoinRequest (plusTwoHours joinRequest) (joinRequests s)
    /\ reports (snd (run (addLectureBody isURL isEmail isLength notAString
                            now lectureId userId body) s))
       = reports s
    /\ notifications (snd (run (addLectureBody isURL isEmail isLength
                                  notAString now lectureId userId body) s))
       = filter
           (fun n =>
              negb (notificationMatches
                      (mkFilter userId low_lecture_count_per_subject
                         (LectureBody.subject body)
                         (Str.trim (toLowerCase
                                      (LectureBody.studentEmail body))))
                      n))
           (notifications s)
         ++ [lectureAddedNotification now userId user body
               (Str.trim (toLowerCase (LectureBody.studentEmail body)))].
Proof.
  destruct (addLectureBody_cases now lectureId userId body)
    as [[Hacc ->] | [_ [-> | (v & _ & _ & _ & ->)]]];
    [| discriminate | discriminate].
  intros Hc. apply run_addLectureQueries_commit in Hc.
  destruct Hc as (user & j & Hc). exists user, j.
  split; [exact Hacc | exact Hc].
Qed.

(** A run that gives up before writing replies 400 or 404. *)
Lemma run_addLectureBody_abort (now : Date) (lectureId userId : ObjectId)
    (body : LectureBody.t) (s : Store) (reply : PostReply) :
  fst (run (addLectureBody isURL isEmail isLength notAString now lectureId
              userId body) s)
  = Abort reply ->
  reply = PostBadRequest \/ reply = PostNotFound.
Proof.
  destruct (addLectureBody_cases now lectureId userId body)
    as [[Hacc ->] | [_ [-> | (v & _ & _ & _ & ->)]]].
  - pose proof (run_addLectureQueries_other now lectureId userId body s) as H.
    intros Ha. rewrite Ha in H. exact H.
  - cbn [run fst]. intros H. injection H as <-. auto.
  - discriminate.
Qed.

(** A run raises only the error of a validator that was given a truthy
    value that is no string. *)
Lemma run_addLectureBody_raise (now : Date) (lectureId userId : ObjectId)
    (body : LectureBody.t) (s : Store) (e : Error) :
  fst (run (addLectureBody isURL isEmail isLength notAString now lectureId
              userId body) s)
  = Raise e ->
  exists v, In v (valuesOf body) /\ Json.truthy v = true
            /\ Json.isText v = false /\ e = notAString v.
Proof.
  destruct (addLectureBody_cases now lectureId userId body)
    as [[Hacc ->] | [_ [-> | (v & Hv & Ht & Hs & ->)]]].
  - pose proof (run_addLectureQueries_other now lectureId userId body s) as H.
    intros Ha. rewrite Ha in H. destruct H.
  - discriminate.
  - cbn [run fst]. intros H. injection H as <-. exists v. auto.
Qed.

(** A committed submission has deleted the low-lecture notifications of
    its tuple and appended the [lecture_added] notification. *)
Lemma run_addLectureBody (now : Date) (lectureId userId : ObjectId)
    (body : LectureBody.t) (s : Store) :
  let r := run (addLectureBody isURL isEmail isLength notAString now
                  lectureId userId body) s in
  match fst r with
  | Commit reply =>
      (exists lecture count hours, reply = PostOk lecture count hours)
      /\ exists user,
           notifications (snd r)
           = filter
               (fun n =>
                  negb (notificationMatches
                          (mkFilter userId low_lecture_count_per_subject
                             (LectureBody.subject body)
                             (Str.trim (toLowerCase
                                          (LectureBody.studentEmail body))))
                          n))
               (notifications s)
             ++ [lectureAddedNotification now userId user body
                   (Str.trim (toLowerCase
                                (LectureBody.studentEmail body)))]
  | Abort reply => forall lecture count hours,
                     reply <> PostOk lecture count hours
  | Raise _ => True
  end.
Proof.
  cbv zeta.
  destruct (fst (run (addLectureBody isURL isEmail isLength notAString now
                        lectureId userId body) s)) as [r | r | e] eqn:E.
  - apply run_addLectureBody_commit in E.
    destruct E as (user & j & _ & _ & _ & _ & -> & _ & _ & _ & Hn).
    split; [eauto |]. exists user. exact Hn.
  - apply run_addLectureBody_abort in E.
    destruct E as [-> | ->]; discriminate.
  - exact I.
Qed.

(** How a submission ends, whatever calls fail. *)
Lemma addLecture_outcomes (faults : nat -> option Error) (now : Date)
    (lectureId userId : ObjectId) (body : LectureBody.t) (s : Store) :
  let p := addLectureBody isURL isEmail isLength notAString now lectureId
             userId body in
  match addLecture isURL isEmail isLength notAString faults now lectureId
          userId body s with
  | (s', PostOk lecture count hours) =>
      fst (run p s) = Commit (PostOk lecture count hours)
      /\ s' = snd (run p s)
      /\ forall k, (k < 2 + calls p s)%nat -> faults k = None
  | (s', PostBadRequest) => s' = s
  | (s', PostNotFound) => s' = s
  | (s', PostServerError e) =>
      s' = s /\ ((exists k, faults k = Some e) \/ fst (run p s) = Raise e)
  | (s', PostRejected e) => s' = s /\ exists k, faults k = Some e
  end.
Proof.
  cbv zeta. unfold addLecture, addLectureHandler.
  pose proof (transaction_cases
                (addLectureBody isURL isEmail isLength notAString now
                   lectureId userId body)
                PostServerError faults s
                (inSession_addLectureBody now lectureId userId body)) as H.
  match type of H with
  | match ?X with _ => _ end => destruct X as [reply n db | e n db]
  end.
  - destruct H as [(r & Hc & -> & Hdb & Hnone)
                  | [(Hdb & r & Ha & -> & _)
                    | (Hdb & e & -> & He)]].
    + pose proof (run_addLectureBody_commit _ _ _ _ _ _ Hc)
        as (user & j & _ & _ & _ & _ & -> & _).
      split; [exact Hc |]. split; [exact Hdb | exact Hnone].
    + apply run_addLectureBody_abort in Ha.
      destruct Ha as [-> | ->]; exact Hdb.
    + split; [exact Hdb |].
      destruct He as [Hf | [Hr _]]; [left; exact Hf | right; exact Hr].
  - exact H.
Qed.

Lemma addLecture_cases (faults : nat -> option Error) (now : Date)
    (lectureId userId : ObjectId) (body : LectureBody.t) (s : Store) :
  let r := run (addLectureBody isURL isEmail isLength notAString now
                  lectureId userId body) s in
  (fst (addLecture isURL isEmail isLength notAString faults now lectureId
          userId body s) = s
   /\ forall lecture count hours,
        snd (addLecture isURL isEmail isLength notAString faults now
               lectureId userId body s)
        <> PostOk lecture count hours)
  \/ exists reply,
       fst r = Commit reply
       /\ addLecture isURL isEmail isLength notAString faults now lectureId
            userId body s
          = (snd r, reply).
Proof.
  cbv zeta.
  pose proof (addLecture_outcomes faults now lectureId userId body s) as H.
  cbv zeta in H.
  destruct (addLecture isURL isEmail isLength notAString faults now lectureId
              userId body s) as [s' [| | lecture count hours | e | e]];
    cbn [fst snd].
  - left. split; [exact H | discriminate].
  - left. split; [exact H | discriminate].
  - right. destruct H as (Hc & -> & _). eexists. split; [exact Hc |].
    reflexivity.
  - left. split; [apply H | discriminate].
  - left. split; [apply H | discriminate].
Qed.

Lemma addLecture_ok (faults : nat -> option Error) (now : Date)
    (lectureId userId : ObjectId) (body : LectureBody.t) (s s' : Store)
    (lecture : Lecture.t) (count hours : nat) :
  addLecture isURL isEmail isLength notAString faults now lectureId userId
    body s
  = (s', PostOk lecture count hours) ->
  fst (run (addLectureBody isURL isEmail isLength notAString now lectureId
              userId body) s)
  = Commit (PostOk lecture count hours)
  /\ s' = snd (run (addLectureBody isURL isEmail isLength notAString now
                      lectureId userId body) s).
Proof.
  intros H.
  pose proof (addLecture_outcomes faults now lectureId userId body s) as Ho.
  cbv zeta in Ho. rewrite H in Ho. destruct Ho as (Hc & Hs & _).
  split; assumption.
Qed.

End AddLectureFacts.

End Notifications.

Section Invariant.

Context {engine : Engine}.

Lemma countMatching_filter_out (q : NotificationFilter)
    (l : list Notification.t) :
  countMatching q (filter (fun n => negb (notificationMatches q n)) l)
  = 0%nat.
Proof.
  unfold countMatching. induction l as [| n r IH]; simpl.
  - reflexivity.
  - destruct (notificationMatches q n) eqn:E; simpl; [exact IH |].
    rewrite E. exact IH.
Qed.

Lemma countMatching_filter_le (q : NotificationFilter)
    (p : Notification.t -> bool) (l : list Notification.t) :
  (countMatching q (filter p l) <= countMatching q l)%nat.
Proof.
  unfold countMatching. induction l as [| n r IH]; simpl.
  - lia.
  - destruct (p n), (notificationMatches q n) eqn:E; simpl; rewrite ?E;
      simpl; lia.
Qed.

(** C5. The invariant "at most one [low_lecture_count_per_subject]
    notification per (volunteer, subject, student) tuple" is kept by both
    operations that touch such notifications, whatever calls fail.
    (1) A call of the evaluator changes the number of notifications a
    tuple has only from 0 to 1: it creates none where one exists. After a
    committed scheduled run every under-target tuple of an evaluated
    volunteer has one. (2) A lecture submission keeps the invariant, and
    when it succeeds no low-lecture notification is left for the
    (volunteer, subject, normalised student email) of the lecture. *)
Theorem one_low_lecture_notification_per_tuple :
  (forall (faults : nat -> option Error) (isCronJob : bool) (now : Date)
          (s s' : Store) (result : Result Response.t),
      checkLowLectureMembers faults isCronJob now s = (s', result) ->
      (forall q,
          countMatching q (notifications s')
          = countMatching q (notifications s)
          \/ (countMatching q (notifications s) = 0%nat
              /\ countMatching q (notifications s') = 1%nat))
      /\ (atMostOnePerTuple (notifications s) ->
          atMostOnePerTuple (notifications s'))
      /\ (forall response u st sb,
             isCronJob = true -> result = Ok response ->
             evaluated s u ->
             In st (User.students u) -> In sb (Student.subjects st) ->
             Z.of_nat (lectureCount (Week.weekStart now) (Week.weekEnd now)
                         u st sb) < Subject.minLectures sb ->
             hasNotification u st sb s'))
  /\ (forall (isURL isEmail : string -> bool)
             (isLength : string -> Z -> Z -> bool)
             (notAString : Json.t -> Error) (faults : nat -> option Error)
             (now : Date) (lectureId userId : ObjectId)
             (body : LectureBody.t) (s s' : Store) (reply : PostReply),
         addLecture isURL isEmail isLength notAString faults now lectureId
           userId body s
         = (s', reply) ->
         (atMostOnePerTuple (notifications s) ->
          atMostOnePerTuple (notifications s'))
         /\ (forall lecture count hours,
                reply = PostOk lecture count hours ->
                countMatching
                  (mkFilter userId low_lecture_count_per_subject
                     (LectureBody.subject body)
                     (Str.trim (toLowerCase
                                  (LectureBody.studentEmail body))))
                  (notifications s') = 0%nat)).
Proof.
  split.
  - intros faults isCronJob now s s' result Hrun.
    assert (Hext : notificationsExtend isCronJob
                     (fun id => exists u, evaluated s u /\ id = User._id u)
                     (notifications s) (notifications s')).
    { destruct result as [response | e].
      - apply committed_run in Hrun. apply Hrun.
      - assert (s' = s) by (eapply rolled_back; exact Hrun). subst s'.
        apply notificationsExtend_refl. }
    split; [| split].
    + destruct Hext as (added & _ & _ & _ & Hc). exact Hc.
    + eapply notificationsExtend_invariant. exact Hext.
    + intros response u st sb -> -> Hev Hst Hsb Hlt.
      apply checkLowLectureMembers_ok in Hrun. injection Hrun as -> _.
      apply scheduled_run_notifies; try assumption.
      unfold isUnderTarget. apply Z.ltb_lt. exact Hlt.
  - intros isURL isEmail isLength notAString faults now lectureId userId
      body s s' reply Hadd.
    destruct (addLecture_cases isURL isEmail isLength notAString faults now
                lectureId userId body s) as [[Hs Hno] | (reply' & Hc & Heq)].
    + rewrite Hadd in Hs, Hno. simpl in Hs, Hno. subst s'.
      split; [auto |]. intros lecture count hours ->.
      exfalso. eapply Hno. reflexivity.
    + rewrite Hadd in Heq. injection Heq as -> ->.
      pose proof (run_addLectureBody isURL isEmail isLength notAString now
                    lectureId userId body s) as Hrun.
      cbv zeta in Hrun. rewrite Hc in Hrun.
      destruct Hrun as (_ & user & Hn). rewrite Hn.
      assert (Hadded : forall q,
                 f_type q = low_lecture_count_per_subject ->
                 countMatching q
                   [lectureAddedNotification now userId user body
                      (Str.trim (toLowerCase
                                   (LectureBody.studentEmail body)))]
                 = 0%nat).
      { intros q Hq. unfold countMatching, notificationMatches. simpl.
        rewrite Hq. simpl. rewrite andb_false_r. reflexivity. }
      split.
      * intros Hinv uid subject email.
        rewrite countMatching_app, Hadded by reflexivity.
        specialize (Hinv uid subject email).
        pose proof (countMatching_filter_le
                      (mkFilter uid low_lecture_count_per_subject subject
                         email)
                      (fun n =>
                         negb (notificationMatches
                                 (mkFilter userId
                                    low_lecture_count_per_subject
                                    (LectureBody.subject body)
                                    (Str.trim
                                       (toLowerCase
                                          (LectureBody.studentEmail body))))
                                 n))
                      (notifications s)).
        lia.
      * intros lecture count hours _.
        rewrite countMatching_app, Hadded by reflexivity.
        rewrite countMatching_filter_out. reflexivity.
Qed.

End Invariant.

Section SampleInvariant.

#[local] Existing Instance Sample.engine.

(** On the sample store the scheduled run creates the notification of
    (volunteer, Math, s@x.com); a second run creates no second one; the
    submission of a Math lecture for that student deletes it. *)
Lemma one_low_lecture_notification_per_tuple_witness :
  countMatching
    (mkFilter 7%nat low_lecture_count_per_subject "Math" "s@x.com")
    (notifications Sample.store) = 0%nat
  /\ hasNotification Sample.volunteer Sample.sara Sample.math
       Sample.storeAfterRun
  /\ atMostOnePerTuple
       (notifications (fst (checkLowLectureMembers noFaults true
                              Sample.sunday Sample.storeAfterRun)))
  /\ countMatching
       (mkFilter 7%nat low_lecture_count_per_subject "Math" "s@x.com")
       (notifications
          (fst (addLecture Desk.accept Desk.accept Desk.anyLength
                  Desk.notAString noFaults Sample.nextSunday 5%nat 7%nat
                  Sample.lectureBody Sample.storeAfterRun)))
     = 0%nat.
Proof.
  destruct one_low_lecture_notification_per_tuple as [Hrun Hadd].
  assert (Hinv0 : atMostOnePerTuple (notifications Sample.store)).
  { intros uid subject email. simpl. unfold countMatching. simpl. lia. }
  destruct (Hrun noFaults true Sample.sunday Sample.store
              Sample.storeAfterRun (Ok Sample.responseOfSunday))
    as (_ & Hinv1 & Hnotified).
  { vm_compute. reflexivity. }
  destruct (Hrun noFaults true Sample.sunday Sample.storeAfterRun
              (fst (checkLowLectureMembers noFaults true Sample.sunday
                      Sample.storeAfterRun))
              (snd (checkLowLectureMembers noFaults true Sample.sunday
                      Sample.storeAfterRun)))
    as (_ & Hinv2 & _).
  { apply surjective_pairing. }
  split; [reflexivity |]. split; [| split].
  - apply (Hnotified Sample.responseOfSunday); try reflexivity.
    + repeat split; [simpl; auto | vm_compute; discriminate].
    + simpl. auto.
    + simpl. auto.
  - apply Hinv2. apply Hinv1. exact Hinv0.
  - destruct (Hadd Desk.accept Desk.accept Desk.anyLength Desk.notAString
                noFaults Sample.nextSunday 5%nat 7%nat Sample.lectureBody
                Sample.storeAfterRun (fst Desk.submitted)
                (snd Desk.submitted))
      as (_ & Hdel).
    { apply surjective_pairing. }
    eapply Hdel. vm_compute. reflexivity.
Defined.
End SampleInvariant.


(* ===================================================================== *)
(** ** A call of the evaluator inside a handler *)
(* ===================================================================== *)

Lemma exec_later {A : Type} (p : Prog A) (faults : nat -> option Error) :
  forall n db,
    exec p faults (S n) db = later (exec p (afterFirst faults) n db).
Proof.
  induction p as [a | X scope o k IH]; intros n db.
  - reflexivity.
  - cbn [exec]. unfold andThen, call, afterFirst at 1.
    destruct (faults (S n)); [reflexivity |].
    destruct (query scope o db) as [x db']. apply IH.
Qed.

Lemma call_later {X : Type} (effect : Db -> X * Db)
    (faults : nat -> option Error) (n : nat) (db : Db) :
  call effect faults (S n) db = later (call effect (afterFirst faults) n db).
Proof.
  unfold call, afterFirst. destruct (faults (S n)); [reflexivity |].
  destruct (effect db); reflexivity.
Qed.

Lemma andThen_later {A B : Type} (m : Handler A) (f : A -> Handler B)
    (faults : nat -> option Error) :
  (forall n db, m faults (S n) db = later (m (afterFirst faults) n db)) ->
  (forall a n db,
      f a faults (S n) db = later (f a (afterFirst faults) n db)) ->
  forall n db,
    andThen m f faults (S n) db
    = later (andThen m f (afterFirst faults) n db).
Proof.
  intros Hm Hf n db. unfold andThen. rewrite Hm.
  destruct (m (afterFirst faults) n db) as [a n1 db1 | e n1 db1];
    [apply Hf | reflexivity].
Qed.

Lemma tryCatch_later {A : Type} (m : Handler A) (handler : Error -> Handler A)
    (faults : nat -> option Error) :
  (forall n db, m faults (S n) db = later (m (afterFirst faults) n db)) ->
  (forall e n db,
      handler e faults (S n) db
      = later (handler e (afterFirst faults) n db)) ->
  forall n db,
    tryCatch m handler faults (S n) db
    = later (tryCatch m handler (afterFirst faults) n db).
Proof.
  intros Hm Hh n db. unfold tryCatch. rewrite Hm.
  destruct (m (afterFirst faults) n db) as [a n1 db1 | e n1 db1];
    [reflexivity | apply Hh].
Qed.

Section Nested.

Context {engine : Engine}.

(** The evaluation ends the same way when it is started after another
    call of the handler. *)
Lemma checkLowLectureMembersHandler_later (isCronJob : bool) (now : Date)
    (faults : nat -> option Error) (n : nat) (db : Db) :
  checkLowLectureMembersHandler isCronJob now faults (S n) db
  = later (checkLowLectureMembersHandler isCronJob now (afterFirst faults)
             n db).
Proof.
  unfold checkLowLectureMembersHandler. revert n db.
  apply andThen_later; [intros; apply call_later |].
  intros _. apply tryCatch_later.
  - apply andThen_later; [intros; apply exec_later |].
    intros response. apply andThen_later; [intros; apply call_later |].
    reflexivity.
  - intros e. apply andThen_later; [intros; apply call_later |].
    reflexivity.
Qed.

(** The on-demand handler, step by step: a failed report query is
    answered with a 500; a report of the week is answered as stored;
    without one the evaluation is called, and an error it throws is
    answered with a 500. *)
Lemma getLowLectureMembers_eq (faults : nat -> option Error) (now : Date)
    (s : Store) :
  getLowLectureMembers faults now s
  = match faults 0%nat with
    | Some e => (s, GetServerError e)
    | None =>
        match findLatestReport (Week.weekStart now) (reports s) with
        | Some report => (s, GetOk (cachedResponse report))
        | None =>
            match checkLowLectureMembers (afterFirst faults) false now s with
            | (s', Ok result) => (s', GetOk result)
            | (s', Threw e) => (s', GetServerError e)
            end
        end
    end.
Proof.
  unfold getLowLectureMembers, getLowLectureMembersHandler, tryCatch.
  unfold andThen at 1. cbn [exec withoutSession].
  unfold andThen at 1. unfold call at 1.
  destruct (faults 0%nat) as [e |]; [reflexivity |].
  unfold query. cbn [session perform committed ret].
  destruct (findLatestReport (Week.weekStart now) (reports s))
    as [report |]; [destruct s; reflexivity |].
  unfold andThen. rewrite checkLowLectureMembersHandler_later.
  unfold checkLowLectureMembers.
  replace (mkDb (mkStore (users s) (joinRequests s) (notifications s)
                   (reports s)) None)
    with (mkDb s None) by (destruct s; reflexivity).
  destruct (checkLowLectureMembersHandler false now (afterFirst faults)
              0%nat (mkDb s None)); reflexivity.
Qed.

(* ===================================================================== *)
(** ** The on-demand query *)
(* ===================================================================== *)

End Nested.

Section OnDemandQuery.

Context {engine : Engine}.

Lemma fold_newerReport_spec (l : list LowLectureReport.t) :
  forall best,
    match fold_left newerReport l best with
    | Some x =>
        (In x l \/ best = Some x)
        /\ (forall y, In y l ->
                      LowLectureReport.createdAt y
                      <= LowLectureReport.createdAt x)
        /\ (forall b, best = Some b ->
                      LowLectureReport.createdAt b
                      <= LowLectureReport.createdAt x)
    | None => l = [] /\ best = None
    end.
Proof.
  induction l as [| r rest IH]; intros best; simpl.
  - destruct best as [b |].
    + split; [right; reflexivity |]. split.
      * intros y [].
      * intros b' H. injection H as <-. lia.
    + split; reflexivity.
  - specialize (IH (newerReport best r)).
    destruct (fold_left newerReport rest (newerReport best r)) as [x |].
    + destruct IH as (Hin & Hmax & Hbest).
      assert (Hr : LowLectureReport.createdAt r
                   <= LowLectureReport.createdAt x
                   /\ forall b, best = Some b ->
                                LowLectureReport.createdAt b
                                <= LowLectureReport.createdAt x).
      { unfold newerReport in Hbest. destruct best as [b |].
        - destruct (LowLectureReport.createdAt b
                    <? LowLectureReport.createdAt r) eqn:E.
          + apply Z.ltb_lt in E. specialize (Hbest r eq_refl).
            split; [exact Hbest |]. intros b' H. injection H as <-. lia.
          + apply Z.ltb_ge in E. specialize (Hbest b eq_refl).
            split; [lia |]. intros b' H. injection H as <-. exact Hbest.
        - split; [apply Hbest; reflexivity | discriminate]. }
      destruct Hr as [Hr Hb]. split; [| split].
      * destruct Hin as [Hin | Hnew]; [left; right; exact Hin |].
        unfold newerReport in Hnew. destruct best as [b |].
        -- destruct (LowLectureReport.createdAt b
                     <? LowLectureReport.createdAt r);
             injection Hnew as <-; [left; left; reflexivity |].
           right. reflexivity.
        -- injection Hnew as <-. left. left. reflexivity.
      * intros y [<- | Hy]; [exact Hr | apply Hmax; exact Hy].
      * exact Hb.
    + destruct IH as [_ Hnone]. unfold newerReport in Hnone.
      destruct best as [b |];
        [destruct (LowLectureReport.createdAt b
                   <? LowLectureReport.createdAt r) |];
        discriminate.
Qed.

(** The report query returns a stored report of the week, the most
    recently created one, and none only when the week has no report. *)
Lemma findLatestReport_spec (weekStart : Date)
    (l : list LowLectureReport.t) :
  match findLatestReport weekStart l with
  | Some report =>
      In report l
      /\ LowLectureReport.weekStart report = weekStart
      /\ forall r, In r l -> LowLectureReport.weekStart r = weekStart ->
                   LowLectureReport.createdAt r
                   <= LowLectureReport.createdAt report
  | None =>
      forall r, In r l -> LowLectureReport.weekStart r <> weekStart
  end.
Proof.
  unfold findLatestReport.
  pose proof (fold_newerReport_spec
                (filter (fun r => LowLectureReport.weekStart r =? weekStart) l)
                None) as H.
  destruct (fold_left newerReport _ None) as [x |].
  - destruct H as ([Hin | Hbad] & Hmax & _); [| discriminate].
    apply filter_In in Hin. destruct Hin as [Hin Hw].
    apply Z.eqb_eq in Hw. split; [exact Hin |]. split; [exact Hw |].
    intros r Hr Hrw. apply Hmax. apply filter_In. split; [exact Hr |].
    apply Z.eqb_eq. exact Hrw.
  - destruct H as [Hnil _]. intros r Hr Hrw.
    assert (Hf : In r (filter (fun r => LowLectureReport.weekStart r
                                        =? weekStart) l)).
    { apply filter_In. split; [exact Hr |]. apply Z.eqb_eq. exact Hrw. }
    rewrite Hnil in Hf. destruct Hf.
Qed.

(** C7. When the report query succeeds, the on-demand handler answers as
    follows. If the store has a report whose [weekStart] is the computed
    window's, it replies with the most recently created one: its members,
    counts and week bounds as stored, nothing recomputed, the store
    untouched. If there is none, it replies with what
    [checkLowLectureMembers(false)] returns (a 500 if that call throws)
    and the store, its reports included, is as before: the live result is
    not persisted. *)
Theorem on_demand_query_serves_latest_report_or_live_result
    (faults : nat -> option Error) (now : Date) (s : Store) :
  faults 0%nat = None ->
  match findLatestReport (Week.weekStart now) (reports s) with
  | Some report =>
      In report (reports s)
      /\ LowLectureReport.weekStart report = Week.weekStart now
      /\ (forall r, In r (reports s) ->
                    LowLectureReport.weekStart r = Week.weekStart now ->
                    LowLectureReport.createdAt r
                    <= LowLectureReport.createdAt report)
      /\ getLowLectureMembers faults now s = (s, GetOk (cachedResponse report))
      /\ Response.members (cachedResponse report)
         = LowLectureReport.members report
      /\ Response.debug (cachedResponse report)
         = Debug.mk (LowLectureReport.totalUsersProcessed report)
             (LowLectureReport.weekStart report)
             (LowLectureReport.weekEnd report)
             (LowLectureReport.membersWithLowLectures report)
  | None =>
      (forall r, In r (reports s) ->
                 LowLectureReport.weekStart r <> Week.weekStart now)
      /\ fst (getLowLectureMembers faults now s) = s
      /\ snd (getLowLectureMembers faults now s)
         = match snd (checkLowLectureMembers (fun n => faults (S n)) false
                        now s) with
           | Ok result => GetOk result
           | Threw e => GetServerError e
           end
      /\ ((forall n, faults n = None) ->
          getLowLectureMembers faults now s
          = (s, GetOk (responseOfRun false now s)))
  end.
Proof.
  intros Hq.
  pose proof (findLatestReport_spec (Week.weekStart now) (reports s)) as Hspec.
  rewrite getLowLectureMembers_eq, Hq.
  change (afterFirst faults) with (fun n => faults (S n)).
  destruct (findLatestReport (Week.weekStart now) (reports s))
    as [report |].
  - destruct Hspec as (Hin & Hw & Hmax). repeat split; assumption.
  - split; [exact Hspec |].
    pose proof (on_demand_store_unchanged (fun n => faults (S n)) now s)
      as Hsame.
    destruct (checkLowLectureMembers (fun n => faults (S n)) false now s)
      as [s' [result | e]] eqn:Hrun; simpl in Hsame; subst s'.
    + split; [reflexivity |]. split; [reflexivity |].
      intros Hnone. apply committed_run in Hrun.
      destruct Hrun as (-> & _). reflexivity.
    + split; [reflexivity |]. split; [reflexivity |].
      intros Hnone.
      destruct (checkLowLectureMembers_cases false now
                  (fun n => faults (S n)) s)
        as [(e' & k & _ & Hf) | Hok].
      * rewrite Hnone in Hf. discriminate.
      * congruence.
Qed.

End OnDemandQuery.

Section SampleOnDemandQuery.

#[local] Existing Instance Sample.engine.

(** After the scheduled run of the sample store the query of the same
    week replies with the stored report, which is the result of that run;
    before the run it replies with the live result. *)
Lemma on_demand_query_serves_latest_report_or_live_result_witness :
  getLowLectureMembers noFaults Sample.sunday Sample.storeAfterRun
  = (Sample.storeAfterRun, GetOk Sample.responseOfSunday)
  /\ getLowLectureMembers noFaults Sample.sunday Sample.store
     = (Sample.store, GetOk (responseOfRun false Sample.sunday Sample.store)).
Proof.
  split.
  - pose proof (on_demand_query_serves_latest_report_or_live_result
                  noFaults Sample.sunday Sample.storeAfterRun eq_refl) as H.
    change (findLatestReport (Week.weekStart Sample.sunday)
              (reports Sample.storeAfterRun))
      with (Some (reportOfRun true Sample.sunday Sample.store)) in H.
    destruct H as (_ & _ & _ & H & _). exact H.
  - pose proof (on_demand_query_serves_latest_report_or_live_result
                  noFaults Sample.sunday Sample.store eq_refl) as H.
    change (findLatestReport (Week.weekStart Sample.sunday)
              (reports Sample.store))
      with (@None LowLectureReport.t) in H.
    destruct H as (_ & _ & _ & H). apply H. reflexivity.
Defined.

(* ===================================================================== *)
(** ** The shape of a result *)
(* ===================================================================== *)

End SampleOnDemandQuery.

Section Results.

Context {engine : Engine}.

Lemma memberFor_length (isCronJob : bool) (weekStart weekEnd : Date)
    (requests : list JoinRequest.t) (u : User.t) :
  (List.length (memberFor isCronJob weekStart weekEnd requests u) <= 1)%nat.
Proof.
  unfold memberFor. destruct (approvedRequest requests u); simpl; [| lia].
  destruct (flagged weekStart weekEnd u); simpl; lia.
Qed.

Lemma membersOfRun_length (isCronJob : bool) (now : Date) (s : Store) :
  (List.length (membersOfRun isCronJob now s)
   <= List.length (volunteers s))%nat.
Proof.
  unfold membersOfRun. induction (volunteers s) as [| u r IH]; simpl.
  - lia.
  - rewrite length_app.
    pose proof (memberFor_length isCronJob (Week.weekStart now)
                  (Week.weekEnd now) (joinRequests s) u).
    lia.
Qed.

(** X2. Every committed call returns a well-formed result: [success] is
    true, the two counts of [debug] are the number of documents of role
    [user] and the number of members, the message tells whether there are
    members, no member is without under-target students, no such student
    without under-target subjects, and every entry has delivered fewer
    lectures than its minimum (so its minimum is at least 1). *)
Theorem result_lists_only_pairs_below_minimum
    (faults : nat -> option Error) (isCronJob : bool) (now : Date)
    (s s' : Store) (response : Response.t) :
  checkLowLectureMembers faults isCronJob now s = (s', Ok response) ->
  Response.success response = true
  /\ Debug.totalUsersProcessed (Response.debug response)
     = List.length (filter isVolunteer (users s))
  /\ Debug.membersWithLowLectures (Response.debug response)
     = List.length (Response.members response)
  /\ (List.length (Response.members response)
      <= Debug.totalUsersProcessed (Response.debug response))%nat
  /\ Response.message response
     = match Response.members response with
       | [] => AllMembersMeetMinimum
       | _ => MembersBelowMinimum (List.length (Response.members response))
       end
  /\ Forall
       (fun m =>
          Member.underTargetStudents m <> []
          /\ Forall
               (fun x =>
                  UnderTargetStudent.underTargetSubjects x <> []
                  /\ Forall
                       (fun e =>
                          Z.of_nat (UnderTargetSubject.deliveredLectures e)
                          < UnderTargetSubject.minLectures e
                          /\ 1 <= UnderTargetSubject.minLectures e)
                       (UnderTargetStudent.underTargetSubjects x))
               (Member.underTargetStudents m))
       (Response.members response).
Proof.
  intros Hrun. apply committed_run in Hrun. destruct Hrun as (-> & _).
  unfold responseOfRun. cbn [Response.success Response.debug Response.members
                               Response.message Debug.totalUsersProcessed
                               Debug.membersWithLowLectures].
  split; [reflexivity |]. split; [reflexivity |]. split; [reflexivity |].
  split; [apply membersOfRun_length |]. split.
  - unfold responseMessage.
    destruct (membersOfRun isCronJob now s); reflexivity.
  - apply Forall_forall. intros m Hm. apply In_membersOfRun in Hm.
    destruct Hm as (u & j & _ & _ & _ & Hf & ->).
    cbn [memberOf Member.underTargetStudents]. split.
    + unfold flagged in Hf.
      destruct (underTargetStudentsOf (Week.weekStart now)
                  (Week.weekEnd now) u); [discriminate | discriminate].
    + apply Forall_forall. intros x Hx.
      apply In_underTargetStudentsOf in Hx.
      destruct Hx as (st & _ & Hne & ->).
      cbn [UnderTargetStudent.underTargetSubjects].
      split; [exact Hne |].
      apply Forall_forall. intros e He.
      apply In_underTargetSubjectsOf in He.
      destruct He as (sb & _ & Hu & ->).
      unfold isUnderTarget in Hu. apply Z.ltb_lt in Hu.
      unfold underTargetEntry.
      cbn [UnderTargetSubject.deliveredLectures
             UnderTargetSubject.minLectures].
      split; [exact Hu | lia].
Qed.

End Results.

Section SampleResults.

#[local] Existing Instance Sample.engine.

Lemma result_lists_only_pairs_below_minimum_witness :
  Response.message Sample.responseOfSunday = MembersBelowMinimum 1
  /\ Debug.totalUsersProcessed (Response.debug Sample.responseOfSunday)
     = 3%nat
  /\ Forall
       (fun m =>
          Member.underTargetStudents m <> []
          /\ Forall
               (fun x =>
                  UnderTargetStudent.underTargetSubjects x <> []
                  /\ Forall
                       (fun e =>
                          Z.of_nat (UnderTargetSubject.deliveredLectures e)
                          < UnderTargetSubject.minLectures e
                          /\ 1 <= UnderTargetSubject.minLectures e)
                       (UnderTargetStudent.underTargetSubjects x))
               (Member.underTargetStudents m))
       (Response.members Sample.responseOfSunday).
Proof.
  destruct (result_lists_only_pairs_below_minimum noFaults true Sample.sunday
              Sample.store Sample.storeAfterRun Sample.responseOfSunday
              sample_scheduled_run)
    as (_ & _ & _ & _ & _ & Hall).
  split; [reflexivity |]. split; [reflexivity | exact Hall].
Defined.

End SampleResults.

Section Results2.

Context {engine : Engine}.

Lemma memberFor_id (isCronJob : bool) (weekStart weekEnd : Date)
    (requests : list JoinRequest.t) (u : User.t) (m : Member.t) :
  In m (memberFor isCronJob weekStart weekEnd requests u) ->
  Member._id m = User._id u.
Proof.
  unfold memberFor. destruct (approvedRequest requests u); [| intros []].
  destruct (flagged weekStart weekEnd u); [| intros []].
  intros [<- | []]. simpl. apply userAfter_id.
Qed.

(** X3. With unique user [_id]s a volunteer is listed once at most: the
    members of a committed call have pairwise different [_id]s. *)
Theorem members_are_listed_once
    (faults : nat -> option Error) (isCronJob : bool) (now : Date)
    (s s' : Store) (response : Response.t) :
  uniqueIds s ->
  checkLowLectureMembers faults isCronJob now s = (s', Ok response) ->
  NoDup (map Member._id (Response.members response)).
Proof.
  intros Hnd Hrun. rewrite (committed_members _ _ _ _ _ _ Hrun).
  apply volunteers_unique_ids in Hnd. unfold membersOfRun.
  induction (volunteers s) as [| u r IH]; simpl.
  - constructor.
  - inversion Hnd as [| ? ? Hnotin Hnd']; subst.
    rewrite map_app.
    pose proof (memberFor_id isCronJob (Week.weekStart now)
                  (Week.weekEnd now) (joinRequests s) u) as Hid.
    destruct (memberFor isCronJob (Week.weekStart now) (Week.weekEnd now)
                (joinRequests s) u) as [| m [| m' rest]] eqn:E.
    + simpl. apply IH. exact Hnd'.
    + simpl. constructor; [| apply IH; exact Hnd'].
      rewrite (Hid m) by (left; reflexivity).
      intros Hin. apply Hnotin. apply in_map_iff in Hin.
      destruct Hin as (m2 & Hm2 & Hin). apply in_flat_map in Hin.
      destruct Hin as (u2 & Hu2 & Hin).
      apply memberFor_id in Hin. rewrite <- Hm2, Hin.
      apply in_map. exact Hu2.
    + pose proof (memberFor_length isCronJob (Week.weekStart now)
                    (Week.weekEnd now) (joinRequests s) u) as Hlen.
      rewrite E in Hlen. simpl in Hlen. lia.
Qed.

End Results2.

Section SampleResults2.

#[local] Existing Instance Sample.engine.

Lemma members_are_listed_once_witness :
  uniqueIds Sample.store
  /\ NoDup (map Member._id (Response.members Sample.responseOfSunday)).
Proof.
  split; [exact sample_store_unique_ids |].
  exact (members_are_listed_once noFaults true Sample.sunday Sample.store
           Sample.storeAfterRun Sample.responseOfSunday
           sample_store_unique_ids sample_scheduled_run).
Defined.

(* ===================================================================== *)
(** ** What a run appends *)
(* ===================================================================== *)

End SampleResults2.

Section AppendedWarnings.

Context {engine : Engine}.

(** A loop is related to its start as its iterations are, for a
    reflexive and transitive relation. *)
Lemma forEach_steps {A B : Type} (body : B -> A -> Prog B)
    (R : Store -> Store -> Prop) (l : list A) :
  (forall s, R s s) ->
  (forall a b c, R a b -> R b c -> R a c) ->
  (forall acc x s, In x l -> R s (snd (run (body acc x) s))) ->
  forall acc s, R s (snd (run (forEach body l acc) s)).
Proof.
  intros Hrefl Htrans. induction l as [| x r IH]; intros Hbody acc s.
  - apply Hrefl.
  - rewrite run_forEach_cons. eapply Htrans.
    + apply Hbody. left. reflexivity.
    + apply IH. intros acc' y s' Hy. apply Hbody. right. exact Hy.
Qed.

Lemma appends_refl (Q : Notification.t -> Prop) (s : Store) : appends Q s s.
Proof. exists []. rewrite app_nil_r. split; [reflexivity | constructor]. Qed.

Lemma appends_trans (Q : Notification.t -> Prop) (a b c : Store) :
  appends Q a b -> appends Q b c -> appends Q a c.
Proof.
  intros (x & Hx & Qx) (y & Hy & Qy). exists (x ++ y). split.
  - rewrite Hy, Hx, app_assoc. reflexivity.
  - apply Forall_app. split; assumption.
Qed.

Section Appended.

Variables (isCronJob : bool) (now weekStart weekEnd : Date)
  (Q : Notification.t -> Prop).

Lemma subjectLoopBody_appends (u : User.t) (st : Student.t)
    (acc : list UnderTargetSubject.t) (sb : Subject.t) (s : Store) :
  (isUnderTarget weekStart weekEnd u st sb = true ->
   Q (lowLectureNotification now u st sb
        (lectureCount weekStart weekEnd u st sb))) ->
  appends Q s
    (snd (run (subjectLoopBody isCronJob now weekStart weekEnd u st acc sb)
            s)).
Proof.
  intros HQ. unfold subjectLoopBody, isUnderTarget in *. cbv zeta.
  destruct (Z.of_nat (lectureCount weekStart weekEnd u st sb)
            <? Subject.minLectures sb); [| apply appends_refl].
  destruct isCronJob; [| apply appends_refl].
  awaited.
  destruct (find _ (notifications s)); [apply appends_refl |].
  awaited. cbn [run snd].
  eexists. split; [reflexivity |]. constructor; [auto | constructor].
Qed.

Lemma studentLoopBody_appends (u : User.t)
    (acc : list UnderTargetStudent.t) (st : Student.t) (s : Store) :
  (forall sb, In sb (Student.subjects st) ->
              isUnderTarget weekStart weekEnd u st sb = true ->
              Q (lowLectureNotification now u st sb
                   (lectureCount weekStart weekEnd u st sb))) ->
  appends Q s
    (snd (run (studentLoopBody isCronJob now weekStart weekEnd u acc st) s)).
Proof.
  intros HQ. unfold studentLoopBody.
  assert (Hloop : forall acc',
             appends Q s
               (snd (run (forEach (subjectLoopBody isCronJob now weekStart
                                     weekEnd u st)
                            (Student.subjects st) acc') s))).
  { intros acc'. apply forEach_steps.
    - apply appends_refl.
    - apply appends_trans.
    - intros a sb s' Hsb. apply subjectLoopBody_appends. auto. }
  destruct (Student.subjects st) as [| sb0 rest]; [apply appends_refl |].
  rewrite run_bind.
  destruct (0 <? List.length _)%nat; cbn [run snd]; apply Hloop.
Qed.

Lemma userLoopBody_appends (members : list Member.t) (u : User.t)
    (s : Store) :
  (approvedRequest (joinRequests s) u <> None ->
   forall st sb, In st (User.students u) -> In sb (Student.subjects st) ->
                 isUnderTarget weekStart weekEnd u st sb = true ->
                 Q (lowLectureNotification now u st sb
                      (lectureCount weekStart weekEnd u st sb))) ->
  appends Q s
    (snd (run (userLoopBody isCronJob now weekStart weekEnd members u) s)).
Proof.
  intros HQ. unfold approvedRequest in HQ. unfold userLoopBody.
  awaited.
  destruct (find _ (joinRequests s)) as [j |]; [| apply appends_refl].
  destruct (JoinRequest.status j =? "Approved")%string;
    [| apply appends_refl].
  cbn [negb]. specialize (HQ ltac:(discriminate)).
  assert (Hloop : forall acc,
             appends Q s
               (snd (run (forEach (studentLoopBody isCronJob now weekStart
                                     weekEnd u)
                            (User.students u) acc) s))).
  { intros acc. apply forEach_steps.
    - apply appends_refl.
    - apply appends_trans.
    - intros a st s' Hst. apply studentLoopBody_appends. intros sb.
      apply HQ. exact Hst. }
  destruct (User.students u) as [| st0 rest] eqn:Hstud.
  - rewrite run_bind, run_resetIfFlagged. cbn [run fst snd].
    destruct (isCronJob && (0 <? User.lowLectureWeekCount u)%nat);
      exists []; cbn [notifications]; rewrite app_nil_r;
      (split; [reflexivity | constructor]).
  - rewrite run_bind. specialize (Hloop []).
    set (r1 := run (forEach _ (st0 :: rest) []) s) in *.
    destruct Hloop as (added & Hadd & Hall).
    exists added. split; [| exact Hall]. rewrite <- Hadd.
    destruct (0 <? List.length (fst r1))%nat.
    + rewrite run_bind.
      destruct (isCronJob && notCountedYet weekStart u).
      * awaited. cbn [run fst snd]. reflexivity.
      * cbn [run fst snd]. reflexivity.
    + rewrite run_bind, run_resetIfFlagged. cbn [run fst snd].
      destruct (isCronJob && (0 <? User.lowLectureWeekCount u)%nat);
        reflexivity.
Qed.

End Appended.

(** A run appends, to the notifications it found, warnings for
    under-target pairs of volunteers evaluated in the store it started
    from, and nothing else. *)
Lemma run_appends_warnings (isCronJob : bool) (now : Date) (s : Store) :
  appends (warningOf now s) s
    (snd (run (checkLowLectureMembersBody isCronJob now) s)).
Proof.
  unfold checkLowLectureMembersBody. cbv zeta. awaited.
  fold isVolunteer. fold (volunteers s). rewrite run_bind.
  set (R := fun a b : Store =>
              joinRequests a = joinRequests s ->
              joinRequests b = joinRequests s
              /\ appends (warningOf now s) a b).
  assert (Hloop : forall acc s0,
             R s0 (snd (run (forEach (userLoopBody isCronJob now
                                        (Week.weekStart now)
                                        (Week.weekEnd now))
                               (volunteers s) acc) s0))).
  { apply forEach_steps.
    - intros a Ha. split; [exact Ha | apply appends_refl].
    - intros a b c Hab Hbc Ha. destruct (Hab Ha) as [Hb Hab'].
      destruct (Hbc Hb) as [Hc Hbc']. split; [exact Hc |].
      eapply appends_trans; eassumption.
    - intros acc u s0 Hu Hj.
      destruct (run_userLoopBody isCronJob now (Week.weekStart now)
                  (Week.weekEnd now) acc u s0) as (_ & _ & Hj' & _).
      split; [congruence |].
      apply userLoopBody_appends. rewrite Hj. intros Ha st sb Hst Hsb Hund.
      exists u, st, sb. unfold volunteers in Hu. apply filter_In in Hu.
      destruct Hu as [Hin Hv]. repeat split; assumption. }
  destruct (Hloop [] s eq_refl) as [_ (added & Hadd & Hall)].
  set (r1 := run (forEach _ (volunteers s) []) s) in *.
  exists added. split; [| exact Hall]. rewrite <- Hadd.
  rewrite run_bind.
  destruct isCronJob.
  - rewrite run_withSession. cbn [perform run fst snd notifications].
    reflexivity.
  - cbn [run fst snd]. reflexivity.
Qed.

(* ===================================================================== *)
(** ** Documents that differ in the counter only *)
(* ===================================================================== *)

End AppendedWarnings.

Section ScheduledWrites.

Context {engine : Engine}.

Lemma sameButCounter_refl (u : User.t) : sameButCounter u u.
Proof. repeat split. Qed.

Lemma userAfter_cases (isCronJob : bool) (weekStart weekEnd : Date)
    (requests : list JoinRequest.t) (u : User.t) :
  userAfter isCronJob weekStart weekEnd requests u = u
  \/ userAfter isCronJob weekStart weekEnd requests u
     = incrementCounter weekStart u
  \/ userAfter isCronJob weekStart weekEnd requests u = resetCounter u.
Proof.
  unfold userAfter, userWrite.
  destruct (approvedRequest requests u); [| auto].
  destruct (flagged weekStart weekEnd u).
  - destruct (isCronJob && notCountedYet weekStart u); auto.
  - destruct (isCronJob && (0 <? User.lowLectureWeekCount u)%nat); auto.
Qed.

Lemma userAfter_sameButCounter (isCronJob : bool) (weekStart weekEnd : Date)
    (requests : list JoinRequest.t) (u : User.t) :
  sameButCounter u (userAfter isCronJob weekStart weekEnd requests u).
Proof.
  destruct (userAfter_cases isCronJob weekStart weekEnd requests u)
    as [-> | [-> | ->]]; repeat split.
Qed.

Section SameButCounter.

Variables (u u' : User.t).
Hypothesis same : sameButCounter u u'.

Lemma sameButCounter_lectureCount (weekStart weekEnd : Date)
    (st : Student.t) (sb : Subject.t) :
  lectureCount weekStart weekEnd u' st sb
  = lectureCount weekStart weekEnd u st sb.
Proof.
  destruct same as (_ & _ & _ & _ & Hl & _).
  unfold lectureCount. rewrite Hl. reflexivity.
Qed.

Lemma sameButCounter_underTargetStudentsOf (weekStart weekEnd : Date) :
  underTargetStudentsOf weekStart weekEnd u'
  = underTargetStudentsOf weekStart weekEnd u.
Proof.
  destruct same as (_ & _ & _ & Hs & _).
  unfold underTargetStudentsOf. rewrite Hs.
  apply flat_map_ext. intros st.
  unfold underTargetStudentOf, underTargetSubjectsOf.
  assert (Hf : filter (isUnderTarget weekStart weekEnd u' st)
                 (Student.subjects st)
               = filter (isUnderTarget weekStart weekEnd u st)
                   (Student.subjects st)).
  { apply filter_ext. intros sb. unfold isUnderTarget.
    rewrite sameButCounter_lectureCount. reflexivity. }
  assert (Hm : forall l,
             map (underTargetEntry weekStart weekEnd u' st) l
             = map (underTargetEntry weekStart weekEnd u st) l).
  { intros l. apply map_ext. intros sb. unfold underTargetEntry.
    rewrite sameButCounter_lectureCount. reflexivity. }
  rewrite Hf, Hm. reflexivity.
Qed.

Lemma sameButCounter_flagged (weekStart weekEnd : Date) :
  flagged weekStart weekEnd u' = flagged weekStart weekEnd u.
Proof.
  unfold flagged. rewrite sameButCounter_underTargetStudentsOf.
  reflexivity.
Qed.

Lemma sameButCounter_approvedRequest (requests : list JoinRequest.t) :
  approvedRequest requests u' = approvedRequest requests u.
Proof.
  destruct same as (_ & He & _).
  unfold approvedRequest. rewrite He. reflexivity.
Qed.

Lemma sameButCounter_isVolunteer : isVolunteer u' = isVolunteer u.
Proof.
  destruct same as (_ & _ & Hr & _). unfold isVolunteer. rewrite Hr.
  reflexivity.
Qed.

Lemma sameButCounter_filter (st : Student.t) (sb : Subject.t) :
  lowLectureFilter u' st sb = lowLectureFilter u st sb.
Proof.
  destruct same as (Hid & _). unfold lowLectureFilter. rewrite Hid.
  reflexivity.
Qed.

End SameButCounter.

Lemma Forall2_map_self {A : Type} (P : A -> A -> Prop) (f : A -> A)
    (l : list A) :
  (forall x, In x l -> P x (f x)) -> Forall2 P l (map f l).
Proof.
  induction l as [| x r IH]; simpl; intros H.
  - constructor.
  - constructor; [apply H; left; reflexivity |].
    apply IH. intros y Hy. apply H. right. exact Hy.
Qed.

Lemma warning_fields (now : Date) (s : Store) (n : Notification.t) :
  warningOf now s n ->
  Notification.type n = low_lecture_count_per_subject
  /\ Notification.read n = false
  /\ Notification.createdAt n = now
  /\ exists u, evaluated s u /\ Notification.userId n = User._id u
               /\ flagged (Week.weekStart now) (Week.weekEnd now) u = true.
Proof.
  intros (u & st & sb & Hev & Hst & Hsb & Hund & ->).
  repeat split. exists u. repeat split; try apply Hev.
  apply flagged_iff. exists st, sb. unfold isUnderTarget in Hund.
  apply Z.ltb_lt in Hund. auto.
Qed.

(** X4. What a committed scheduled run writes, with unique user [_id]s:
    it leaves the membership records alone; it appends exactly one
    report, holding the result it returns and created "now"; it appends
    notifications, each an unread low-lecture warning created "now" and
    owned by a member of the result, and neither changes nor removes a
    stored notification; every user document keeps its place and
    everything but the rolling counter, a document of another role keeps
    that too, and the counter is left as it was, or raised by one with
    [lastLowLectureWeek = weekStart], or reset to 0 and null. *)
Theorem scheduled_run_writes_counters_warnings_and_one_report
    (faults : nat -> option Error) (now : Date) (s s' : Store)
    (response : Response.t) :
  uniqueIds s ->
  checkLowLectureMembers faults true now s = (s', Ok response) ->
  joinRequests s' = joinRequests s
  /\ reports s'
     = reports s
       ++ [LowLectureReport.mk (Week.weekStart now) (Week.weekEnd now)
             (Response.members response)
             (Debug.totalUsersProcessed (Response.debug response))
             (List.length (Response.members response)) now]
  /\ (exists added,
        notifications s' = notifications s ++ added
        /\ Forall
             (fun n =>
                Notification.type n = low_lecture_count_per_subject
                /\ Notification.read n = false
                /\ Notification.createdAt n = now
                /\ isMember (Response.members response)
                     (Notification.userId n))
             added)
  /\ Forall2
       (fun u u' =>
          sameButCounter u u'
          /\ (isVolunteer u = false -> u' = u)
          /\ ((User.lowLectureWeekCount u' = User.lowLectureWeekCount u
               /\ User.lastLowLectureWeek u' = User.lastLowLectureWeek u)
              \/ (User.lowLectureWeekCount u'
                  = (User.lowLectureWeekCount u + 1)%nat
                  /\ User.lastLowLectureWeek u' = Some (Week.weekStart now))
              \/ (User.lowLectureWeekCount u' = 0%nat
                  /\ User.lastLowLectureWeek u' = None)))
       (users s) (users s').
Proof.
  intros Hnd Hrun.
  pose proof (committed_users _ _ _ _ _ _ Hnd Hrun) as Hu.
  pose proof (committed_run _ _ _ _ _ _ Hrun) as (Hresp & _ & Hj & Hr & _).
  pose proof (f_equal fst (checkLowLectureMembers_ok _ _ _ _ _ _ Hrun))
    as Hs'.
  cbn [fst] in Hs'.
  split; [exact Hj |]. split; [| split].
  - rewrite Hr, Hresp. reflexivity.
  - pose proof (run_appends_warnings true now s) as (added & Hadd & Hall).
    rewrite <- Hs' in Hadd. exists added. split; [exact Hadd |].
    eapply Forall_impl; [| exact Hall]. simpl. intros n Hn.
    apply warning_fields in Hn.
    destruct Hn as (Ht & Hread & Hc & u & (Hin & Hv & Ha) & Hid & Hf).
    repeat split; try assumption.
    rewrite Hid, Hresp. cbn [responseOfRun Response.members].
    apply (isMember_iff true now s u Hnd Hin). auto.
  - rewrite Hu. unfold usersAfterRun. apply Forall2_map_self.
    intros u _. destruct (isVolunteer u) eqn:Hv.
    + split; [apply userAfter_sameButCounter |].
      split; [discriminate |].
      destruct (userAfter_cases true (Week.weekStart now) (Week.weekEnd now)
                  (joinRequests s) u) as [-> | [-> | ->]]; auto.
    + split; [apply sameButCounter_refl |]. split; auto.
Qed.

End ScheduledWrites.

Section SampleScheduledWrites.

#[local] Existing Instance Sample.engine.

Lemma scheduled_run_writes_counters_warnings_and_one_report_witness :
  uniqueIds Sample.store
  /\ joinRequests Sample.storeAfterRun = joinRequests Sample.store
  /\ List.length (reports Sample.storeAfterRun) = 1%nat
  /\ List.length (notifications Sample.storeAfterRun) = 1%nat
  /\ List.length (users Sample.storeAfterRun) = 4%nat.
Proof.
  destruct (scheduled_run_writes_counters_warnings_and_one_report noFaults
              Sample.sunday Sample.store Sample.storeAfterRun
              Sample.responseOfSunday sample_store_unique_ids
              sample_scheduled_run)
    as (Hj & Hr & _ & Hall).
  split; [exact sample_store_unique_ids |]. split; [exact Hj |].
  split; [rewrite Hr; reflexivity |]. split; [reflexivity |].
  rewrite <- (Forall2_length Hall). reflexivity.
Defined.

(* ===================================================================== *)
(** ** Running the schedule again in the same week *)
(* ===================================================================== *)

End SampleScheduledWrites.

Section Rerun.

Context {engine : Engine}.

Lemma memberFor_userAfter (weekStart weekEnd : Date)
    (requests : list JoinRequest.t) (u : User.t) :
  memberFor true weekStart weekEnd requests
    (userAfter true weekStart weekEnd requests u)
  = memberFor true weekStart weekEnd requests u.
Proof.
  pose proof (userAfter_sameButCounter true weekStart weekEnd requests u)
    as Hsame.
  unfold memberFor.
  rewrite (sameButCounter_approvedRequest _ _ Hsame),
    (sameButCounter_flagged _ _ Hsame),
    (sameButCounter_underTargetStudentsOf _ _ Hsame),
    userAfter_idempotent.
  reflexivity.
Qed.

Lemma volunteers_usersAfterRun (now : Date) (s s1 : Store) :
  users s1 = usersAfterRun true now s ->
  volunteers s1
  = map (userAfter true (Week.weekStart now) (Week.weekEnd now)
           (joinRequests s))
      (volunteers s).
Proof.
  intros H. unfold volunteers. rewrite H. unfold usersAfterRun.
  induction (users s) as [| u r IH]; simpl; [reflexivity |].
  destruct (isVolunteer u) eqn:Hv.
  - rewrite userAfter_role, Hv. simpl. rewrite IH. reflexivity.
  - rewrite Hv. exact IH.
Qed.

Lemma rerun_response (now1 now2 : Date) (s s1 : Store) :
  zoneKeepsCivilDay ->
  Week.weekStart now2 = Week.weekStart now1 ->
  users s1 = usersAfterRun true now1 s ->
  joinRequests s1 = joinRequests s ->
  responseOfRun true now2 s1 = responseOfRun true now1 s.
Proof.
  intros Hkeeps Hws Hu Hj.
  assert (Hwe : Week.weekEnd now2 = Week.weekEnd now1)
    by (apply weekEnd_of_weekStart; assumption).
  assert (Hm : membersOfRun true now2 s1 = membersOfRun true now1 s).
  { unfold membersOfRun.
    rewrite (volunteers_usersAfterRun now1 s s1 Hu), Hj, Hws, Hwe.
    rewrite flat_map_concat_map, map_map, <- flat_map_concat_map.
    apply flat_map_ext. intros u. apply memberFor_userAfter. }
  unfold responseOfRun. rewrite Hm, Hws, Hwe.
  rewrite (volunteers_usersAfterRun now1 s s1 Hu), length_map.
  reflexivity.
Qed.

Lemma countMatching_In (q : NotificationFilter) (n : Notification.t)
    (l : list Notification.t) :
  In n l -> notificationMatches q n = true -> (1 <= countMatching q l)%nat.
Proof.
  unfold countMatching. induction l as [| x r IH]; simpl; intros Hin Hm.
  - destruct Hin.
  - destruct Hin as [-> | Hin].
    + rewrite Hm. simpl. lia.
    + destruct (notificationMatches q x); simpl; [lia | auto].
Qed.

(** X5. In a time zone that keeps the civil day, a scheduled run that
    follows a committed scheduled run with the same [weekStart], nothing
    else having written in between, returns the
    same result and changes no user document, membership record or
    notification; its only write is one more report for that week, with
    the same content and its own creation time. *)
Theorem scheduled_rerun_only_adds_a_report
    (faults1 faults2 : nat -> option Error) (now1 now2 : Date)
    (s s1 s2 : Store) (response1 response2 : Response.t) :
  zoneKeepsCivilDay ->
  uniqueIds s ->
  Week.weekStart now2 = Week.weekStart now1 ->
  checkLowLectureMembers faults1 true now1 s = (s1, Ok response1) ->
  checkLowLectureMembers faults2 true now2 s1 = (s2, Ok response2) ->
  response2 = response1
  /\ users s2 = users s1
  /\ joinRequests s2 = joinRequests s1
  /\ notifications s2 = notifications s1
  /\ reports s2
     = reports s1
       ++ [LowLectureReport.mk (Week.weekStart now1) (Week.weekEnd now1)
             (Response.members response1)
             (Debug.totalUsersProcessed (Response.debug response1))
             (List.length (Response.members response1)) now2].
Proof.
  intros Hkeeps Hnd Hws Hrun1 Hrun2.
  assert (Hwe : Week.weekEnd now2 = Week.weekEnd now1)
    by (apply weekEnd_of_weekStart; assumption).
  pose proof (committed_users _ _ _ _ _ _ Hnd Hrun1) as Hu1.
  pose proof (committed_run _ _ _ _ _ _ Hrun1) as (Hr1 & _ & Hj1 & _ & _).
  pose proof (committed_run _ _ _ _ _ _ Hrun2)
    as (Hr2 & _ & Hj2 & Hrep2 & Hext2).
  pose proof (f_equal fst (checkLowLectureMembers_ok _ _ _ _ _ _ Hrun1))
    as Hs1.
  pose proof (f_equal fst (checkLowLectureMembers_ok _ _ _ _ _ _ Hrun2))
    as Hs2.
  cbn [fst] in Hs1, Hs2.
  assert (Hresp : response2 = response1).
  { rewrite Hr2, Hr1. apply rerun_response; assumption. }
  split; [exact Hresp |].
  split; [eapply second_run_same_week; eauto |].
  split; [exact Hj2 |]. split.
  - pose proof (run_appends_warnings true now2 s1) as (added & Hadd & Hall).
    rewrite <- Hs2 in Hadd.
    destruct added as [| n rest]; [rewrite Hadd; apply app_nil_r |].
    exfalso. pose proof (Forall_inv Hall) as Hn.
    destruct Hn as (u1 & st & sb & (Hin1 & Hv1 & Ha1) & Hst & Hsb & Hund & Hn).
    rewrite Hu1 in Hin1. unfold usersAfterRun in Hin1.
    apply in_map_iff in Hin1. destruct Hin1 as (u & Hu & Hin).
    assert (Hsame : sameButCounter u u1).
    { rewrite <- Hu. destruct (isVolunteer u);
        [apply userAfter_sameButCounter | apply sameButCounter_refl]. }
    assert (Hev : evaluated s u).
    { repeat split; [exact Hin | |].
      - rewrite <- (sameButCounter_isVolunteer _ _ Hsame). exact Hv1.
      - rewrite <- (sameButCounter_approvedRequest _ _ Hsame), <- Hj1.
        exact Ha1. }
    assert (Hund0 : isUnderTarget (Week.weekStart now1) (Week.weekEnd now1)
                      u st sb = true).
    { unfold isUnderTarget in *.
      rewrite <- (sameButCounter_lectureCount _ _ Hsame), <- Hws, <- Hwe.
      exact Hund. }
    assert (Hst0 : In st (User.students u)).
    { destruct Hsame as (_ & _ & _ & <- & _). exact Hst. }
    pose proof (scheduled_run_notifies now1 s u st sb Hev Hst0 Hsb Hund0)
      as Hhas.
    rewrite <- Hs1 in Hhas. unfold hasNotification in Hhas.
    rewrite <- (sameButCounter_filter _ _ Hsame) in Hhas.
    destruct Hext2 as (added' & _ & _ & _ & Hcount).
    specialize (Hcount (lowLectureFilter u1 st sb)).
    rewrite Hadd, countMatching_app in Hcount.
    assert (Hone : (1 <= countMatching (lowLectureFilter u1 st sb)
                          (n :: rest))%nat).
    { eapply countMatching_In; [left; reflexivity |].
      rewrite Hn. apply lowLectureNotification_matches. }
    lia.
  - rewrite Hrep2, Hr1.
    unfold reportOfRun, responseOfRun.
    cbn [Response.members Response.debug Debug.totalUsersProcessed].
    rewrite Hws, Hwe.
    assert (Hm : membersOfRun true now2 s1 = membersOfRun true now1 s).
    { pose proof (rerun_response now1 now2 s s1 Hkeeps Hws Hu1 Hj1) as H.
      apply (f_equal Response.members) in H. exact H. }
    rewrite Hm, (volunteers_usersAfterRun now1 s s1 Hu1), length_map.
    reflexivity.
Qed.

End Rerun.

Section SampleRerun.

#[local] Existing Instance Sample.engine.

Lemma scheduled_rerun_only_adds_a_report_witness :
  uniqueIds Sample.store
  /\ snd (checkLowLectureMembers noFaults true (Sample.sunday + 1)
            Sample.storeAfterRun)
     = Ok Sample.responseOfSunday
  /\ notifications (fst (checkLowLectureMembers noFaults true
                           (Sample.sunday + 1) Sample.storeAfterRun))
     = notifications Sample.storeAfterRun
  /\ List.length (reports (fst (checkLowLectureMembers noFaults true
                                  (Sample.sunday + 1) Sample.storeAfterRun)))
     = 2%nat.
Proof.
  destruct (scheduled_rerun_only_adds_a_report noFaults noFaults
              Sample.sunday (Sample.sunday + 1) Sample.store
              Sample.storeAfterRun
              (fst (checkLowLectureMembers noFaults true (Sample.sunday + 1)
                      Sample.storeAfterRun))
              Sample.responseOfSunday
              (responseOfRun true (Sample.sunday + 1) Sample.storeAfterRun)
              sample_zoneKeepsCivilDay sample_store_unique_ids eq_refl
              sample_scheduled_run)
    as (Hresp & _ & _ & Hn & Hr).
  - vm_compute. reflexivity.
  - split; [exact sample_store_unique_ids |]. split; [| split].
    + rewrite <- Hresp. vm_compute. reflexivity.
    + exact Hn.
    + rewrite Hr. vm_compute. reflexivity.
Defined.

(* ===================================================================== *)
(** ** The query after the weekly check *)
(* ===================================================================== *)

End SampleRerun.

Section Rerun2.

Context {engine : Engine}.

Lemma findLatestReport_appended (weekStart : Date)
    (l : list LowLectureReport.t) (r : LowLectureReport.t) :
  LowLectureReport.weekStart r = weekStart ->
  (forall x, In x l -> LowLectureReport.weekStart x = weekStart ->
             LowLectureReport.createdAt x < LowLectureReport.createdAt r) ->
  findLatestReport weekStart (l ++ [r]) = Some r.
Proof.
  intros Hw Hold.
  pose proof (findLatestReport_spec weekStart (l ++ [r])) as H.
  destruct (findLatestReport weekStart (l ++ [r])) as [x |].
  - destruct H as (Hin & Hxw & Hmax).
    apply in_app_or in Hin. destruct Hin as [Hin | [<- | []]].
    + specialize (Hold x Hin Hxw).
      assert (Hr : In r (l ++ [r]))
        by (apply in_or_app; right; left; reflexivity).
      specialize (Hmax r Hr Hw). lia.
    + reflexivity.
  - exfalso. apply (H r); [| exact Hw].
    apply in_or_app. right. left. reflexivity.
Qed.

(** X6. Once the weekly check has completed, the on-demand query of any
    instant with the same [weekStart] replies with exactly the result the
    check returned and writes nothing, provided the report query succeeds
    and no report of that week stored before was created at or after the
    instant of the check. *)
Theorem query_after_weekly_check_replies_its_result
    (faultsJob faultsGet : nat -> option Error) (now1 now2 : Date)
    (s s1 : Store) :
  weeklyCheck faultsJob now1 s = (s1, CheckCompleted) ->
  Week.weekStart now2 = Week.weekStart now1 ->
  (forall r, In r (reports s) ->
             LowLectureReport.weekStart r = Week.weekStart now1 ->
             LowLectureReport.createdAt r < now1) ->
  faultsGet 0%nat = None ->
  exists response,
    checkLowLectureMembers faultsJob true now1 s = (s1, Ok response)
    /\ getLowLectureMembers faultsGet now2 s1 = (s1, GetOk response).
Proof.
  unfold weeklyCheck. intros Hjob Hws Hold Hget.
  destruct (checkLowLectureMembers faultsJob true now1 s)
    as [s1' [response | e]] eqn:Hrun; [| discriminate].
  injection Hjob as ->. exists response. split; [reflexivity |].
  pose proof (committed_run _ _ _ _ _ _ Hrun) as (Hresp & _ & _ & Hrep & _).
  rewrite getLowLectureMembers_eq, Hget, Hws, Hrep.
  rewrite findLatestReport_appended.
  - rewrite Hresp. reflexivity.
  - reflexivity.
  - exact Hold.
Qed.

End Rerun2.

Section SampleRerun2.

#[local] Existing Instance Sample.engine.

Lemma query_after_weekly_check_replies_its_result_witness :
  weeklyCheck noFaults Sample.sunday Sample.store
  = (Sample.storeAfterRun, CheckCompleted)
  /\ exists response,
       checkLowLectureMembers noFaults true Sample.sunday Sample.store
       = (Sample.storeAfterRun, Ok response)
       /\ getLowLectureMembers noFaults (Sample.sunday + 86400000)
            Sample.storeAfterRun
          = (Sample.storeAfterRun, GetOk response).
Proof.
  assert (Hjob : weeklyCheck noFaults Sample.sunday Sample.store
                 = (Sample.storeAfterRun, CheckCompleted))
    by (vm_compute; reflexivity).
  split; [exact Hjob |].
  apply (query_after_weekly_check_replies_its_result noFaults noFaults
           Sample.sunday (Sample.sunday + 86400000) Sample.store
           Sample.storeAfterRun Hjob).
  - reflexivity.
  - intros r [].
  - reflexivity.
Defined.

(* ===================================================================== *)
(** ** Submitting a lecture *)
(* ===================================================================== *)

End SampleRerun2.

Section SubmissionOutcome.

Context {engine : Engine}.

Section Submission.

Variables isURL isEmail : string -> bool.
Variable isLength : string -> Z -> Z -> bool.
Variable notAString : Json.t -> Error.

(** X7. A lecture submission is all or nothing. Unless it replies 200
    the store is exactly as before: a 400 or a 404 has written nothing;
    a 500 carries the error of a failed call, or the error a validator
    throws for a truthy value of the body that is no string, and
    everything the transaction wrote is undone; and when the handler
    rejects, without a reply, it is with the error of a failed call.
    When it replies 200 the request passed every check: the four values
    are non-empty strings the validators accept, the submitter exists,
    the student is in the submitter's roster and the submitter has a
    membership record. *)
Theorem submission_is_all_or_nothing
    (faults : nat -> option Error) (now : Date)
    (lectureId userId : ObjectId) (body : LectureBody.t) (s s' : Store)
    (reply : PostReply) :
  addLecture isURL isEmail isLength notAString faults now lectureId userId
    body s
  = (s', reply) ->
  match reply with
  | PostOk lecture count hours =>
      acceptable isURL isEmail isLength body = true
      /\ exists user joinRequest,
           findUser userId (users s) = Some user
           /\ inRoster body user = true
           /\ requestOf (joinRequests s) user = Some joinRequest
           /\ lecture = submittedLecture now lectureId body
           /\ count = (User.lectureCount user + 1)%nat
           /\ hours = (JoinRequest.volunteerHours joinRequest + 2)%nat
  | PostServerError e =>
      s' = s
      /\ ((exists k, faults k = Some e)
          \/ exists v,
               In v (valuesOf body) /\ Json.truthy v = true
               /\ Json.isText v = false /\ e = notAString v)
  | PostRejected e => s' = s /\ exists k, faults k = Some e
  | PostBadRequest => s' = s
  | PostNotFound => s' = s
  end.
Proof.
  intros H.
  pose proof (addLecture_outcomes isURL isEmail isLength notAString faults
                now lectureId userId body s) as Ho.
  cbv zeta in Ho. rewrite H in Ho.
  destruct reply as [| | lecture count hours | e | e]; try exact Ho.
  - destruct Ho as (Hc & _ & _).
    apply run_addLectureBody_commit in Hc.
    destruct Hc as (u & j & Hacc & Hu & Hin & Hj & Hr & _).
    injection Hr as -> -> ->.
    split; [exact Hacc |]. exists u, j. repeat split; assumption.
  - destruct Ho as [Hs [Hf | Hr]].
    + split; [exact Hs | left; exact Hf].
    + split; [exact Hs | right].
      apply run_addLectureBody_raise in Hr. exact Hr.
Qed.

End Submission.

End SubmissionOutcome.

Section SampleSubmissionOutcome.

#[local] Existing Instance Sample.engine.

Lemma sample_store_unique_request_ids : uniqueRequestIds Sample.store.
Proof.
  unfold uniqueRequestIds. repeat constructor; simpl; intuition discriminate.
Qed.

Lemma sample_store_after_run_unique_request_ids :
  uniqueRequestIds Sample.storeAfterRun.
Proof.
  unfold uniqueRequestIds. vm_compute.
  repeat constructor; simpl; intuition discriminate.
Qed.

Lemma sample_submission :
  Desk.submitted
  = (fst Desk.submitted, PostOk (Desk.decimals Sample.nextSunday) 4 6).
Proof. vm_compute. reflexivity. Qed.

(** On the sample store the volunteer's submission is accepted with the
    counters 4 and 6; when the third awaited call fails the reply is
    that error and the store is the one before; and a body whose name is
    a number is answered with the error of the validator. *)
Lemma submission_is_all_or_nothing_witness :
  (acceptable Desk.accept Desk.accept Desk.anyLength Sample.lectureBody
   = true
   /\ exists user joinRequest,
        findUser 7%nat (users Sample.storeAfterRun) = Some user
        /\ inRoster Sample.lectureBody user = true
        /\ requestOf (joinRequests Sample.storeAfterRun) user
           = Some joinRequest
        /\ Desk.decimals Sample.nextSunday
           = submittedLecture Sample.nextSunday 5%nat Sample.lectureBody
        /\ 4%nat = (User.lectureCount user + 1)%nat
        /\ 6%nat = (JoinRequest.volunteerHours joinRequest + 2)%nat)
  /\ (fst (addLecture Desk.accept Desk.accept Desk.anyLength Desk.notAString
             Desk.thirdCallFails Sample.nextSunday 5%nat 7%nat
             Sample.lectureBody Sample.storeAfterRun)
      = Sample.storeAfterRun
      /\ ((exists k, Desk.thirdCallFails k = Some "write conflict")
          \/ exists v,
               In v (valuesOf Sample.lectureBody) /\ Json.truthy v = true
               /\ Json.isText v = false
               /\ "write conflict" = Desk.notAString v))
  /\ (fst (addLecture Desk.accept Desk.accept Desk.anyLength Desk.notAString
             noFaults Sample.nextSunday 5%nat 7%nat Desk.numbered
             Sample.storeAfterRun)
      = Sample.storeAfterRun
      /\ ((exists k, noFaults k = Some (Desk.notAString (Json.Number 7)))
          \/ exists v,
               In v (valuesOf Desk.numbered) /\ Json.truthy v = true
               /\ Json.isText v = false
               /\ Desk.notAString (Json.Number 7) = Desk.notAString v)).
Proof.
  split; [| split].
  - exact (submission_is_all_or_nothing Desk.accept Desk.accept
             Desk.anyLength Desk.notAString noFaults
             Sample.nextSunday 5%nat 7%nat Sample.lectureBody
             Sample.storeAfterRun (fst Desk.submitted)
             (PostOk (Desk.decimals Sample.nextSunday) 4 6)
             sample_submission).
  - apply (submission_is_all_or_nothing Desk.accept Desk.accept
             Desk.anyLength Desk.notAString
             Desk.thirdCallFails Sample.nextSunday 5%nat 7%nat
             Sample.lectureBody Sample.storeAfterRun _
             (PostServerError "write conflict")).
    vm_compute. reflexivity.
  - apply (submission_is_all_or_nothing Desk.accept Desk.accept
             Desk.anyLength Desk.notAString
             noFaults Sample.nextSunday 5%nat 7%nat
             Desk.numbered Sample.storeAfterRun _
             (PostServerError (Desk.notAString (Json.Number 7)))).
    vm_compute. reflexivity.
Defined.

End SampleSubmissionOutcome.

Section SubmissionWrites.

Context {engine : Engine}.

Lemma replaceJoinRequest_map (w : JoinRequest.t) (l : list JoinRequest.t) :
  NoDup (map JoinRequest._id l) ->
  replaceJoinRequest w l = map (substJoinRequest w) l.
Proof.
  induction l as [| x r IH]; simpl; intros Hnd; [reflexivity |].
  pose proof (NoDup_cons_iff (JoinRequest._id x) (map JoinRequest._id r))
    as [Hsplit _].
  destruct (Hsplit Hnd) as [Hfresh Hrest].
  unfold substJoinRequest at 1.
  destruct (JoinRequest._id x =? JoinRequest._id w)%nat eqn:E.
  - apply Nat.eqb_eq in E. f_equal.
    rewrite <- (map_id r) at 1. apply map_ext_in. intros y Hy.
    unfold substJoinRequest.
    destruct (JoinRequest._id y =? JoinRequest._id w)%nat eqn:E';
      [| reflexivity].
    apply Nat.eqb_eq in E'. exfalso. apply Hfresh.
    rewrite E, <- E'. apply in_map. exact Hy.
  - f_equal. apply IH. exact Hrest.
Qed.

Lemma findUser_some (id : ObjectId) (l : list User.t) (u : User.t) :
  findUser id l = Some u -> In u l /\ User._id u = id.
Proof.
  unfold findUser. intros H. apply find_some in H.
  destruct H as [Hin Hid]. apply Nat.eqb_eq in Hid. auto.
Qed.

Section SubmissionEffect.

Variables isURL isEmail : string -> bool.
Variable isLength : string -> Z -> Z -> bool.
Variable notAString : Json.t -> Error.

(** X8. With unique [_id]s in the two collections, a submission that
    replies 200 has written this and nothing else: the submitter's
    document has the new lecture appended, with the student email
    lower-cased and trimmed and the creation time "now", and its
    [lectureCount] raised by one; the submitter's membership record has
    two more [volunteerHours]; every other user document and membership
    record is as before; no report is touched; the low-lecture
    notifications of the lecture's tuple are gone and one [lecture_added]
    notification is appended. *)
Theorem accepted_submission_writes_one_lecture
    (faults : nat -> option Error) (now : Date)
    (lectureId userId : ObjectId) (body : LectureBody.t) (s s' : Store)
    (lecture : Lecture.t) (count hours : nat) :
  uniqueIds s ->
  uniqueRequestIds s ->
  addLecture isURL isEmail isLength notAString faults now lectureId userId
    body s
  = (s', PostOk lecture count hours) ->
  exists user joinRequest,
    findUser userId (users s) = Some user
    /\ requestOf (joinRequests s) user = Some joinRequest
    /\ lecture
       = Lecture.mk lectureId (LectureBody.link body)
           (LectureBody.name body) (LectureBody.subject body)
           (Some (Str.trim (toLowerCase
                              (LectureBody.studentEmail body)))) now
    /\ findUser userId (users s') = Some (withLecture lecture user)
    /\ User.lectures (withLecture lecture user)
       = User.lectures user ++ [lecture]
    /\ User.lectureCount (withLecture lecture user)
       = (User.lectureCount user + 1)%nat
    /\ Forall2 (fun u u' =>
                  u' = if (User._id u =? userId)%nat
                       then withLecture lecture user else u)
         (users s) (users s')
    /\ Forall2 (fun j j' =>
                  j' = if (JoinRequest._id j
                           =? JoinRequest._id joinRequest)%nat
                       then plusTwoHours joinRequest else j)
         (joinRequests s) (joinRequests s')
    /\ reports s' = reports s
    /\ notifications s'
       = filter
           (fun n =>
              negb (notificationMatches
                      (mkFilter userId low_lecture_count_per_subject
                         (LectureBody.subject body)
                         (Str.trim (toLowerCase
                                      (LectureBody.studentEmail body))))
                      n))
           (notifications s)
         ++ [lectureAddedNotification now userId user body
               (Str.trim (toLowerCase
                            (LectureBody.studentEmail body)))].
Proof.
  intros Hnd Hndr Hadd.
  apply addLecture_ok in Hadd. destruct Hadd as [Hc ->].
  apply run_addLectureBody_commit in Hc.
  destruct Hc as (user & j & _ & Hu & _ & Hj & Hr & Hus & Hjs & Hrs & Hn).
  injection Hr as -> _ _.
  destruct (findUser_some _ _ _ Hu) as [Hin Hid].
  assert (Hsub : forall x, substUser
                             (withLecture (submittedLecture now lectureId
                                             body) user) x
                           = if (User._id x =? userId)%nat
                             then withLecture (submittedLecture now lectureId
                                                 body) user
                             else x).
  { intros x. unfold substUser. cbn [withLecture User._id]. rewrite Hid.
    reflexivity. }
  exists user, j.
  split; [exact Hu |]. split; [exact Hj |]. split; [reflexivity |].
  split; [| split; [reflexivity |]; split; [reflexivity |];
            split; [| split; [| split]]].
  - rewrite Hus, (replaceUser_map _ _ Hnd), findUser_map.
    + rewrite Hu. cbn [option_map]. rewrite Hsub, Hid, Nat.eqb_refl.
      reflexivity.
    + apply substUser_id.
  - rewrite Hus, (replaceUser_map _ _ Hnd). apply Forall2_map_self.
    intros x _. apply Hsub.
  - rewrite Hjs, (replaceJoinRequest_map _ _ Hndr). apply Forall2_map_self.
    intros x _. reflexivity.
  - exact Hrs.
  - exact Hn.
Qed.

End SubmissionEffect.

End SubmissionWrites.

Section SampleSubmissionWrites.

#[local] Existing Instance Sample.engine.

(** On the sample store the volunteer's lecture list grows by the
    submitted lecture and the membership record of Vera gains two
    hours. *)
Lemma accepted_submission_writes_one_lecture_witness :
  exists user joinRequest,
    findUser 7%nat (users Sample.storeAfterRun) = Some user
    /\ requestOf (joinRequests Sample.storeAfterRun) user = Some joinRequest
    /\ Desk.decimals Sample.nextSunday
       = Lecture.mk 5%nat (LectureBody.link Sample.lectureBody)
           (LectureBody.name Sample.lectureBody)
           (LectureBody.subject Sample.lectureBody)
           (Some (Str.trim (toLowerCase
                              (LectureBody.studentEmail Sample.lectureBody))))
           Sample.nextSunday
    /\ findUser 7%nat (users (fst Desk.submitted))
       = Some (withLecture (Desk.decimals Sample.nextSunday) user)
    /\ User.lectures (withLecture (Desk.decimals Sample.nextSunday) user)
       = User.lectures user ++ [Desk.decimals Sample.nextSunday]
    /\ User.lectureCount (withLecture (Desk.decimals Sample.nextSunday) user)
       = (User.lectureCount user + 1)%nat
    /\ Forall2 (fun u u' =>
                  u' = if (User._id u =? 7)%nat
                       then withLecture (Desk.decimals Sample.nextSunday) user
                       else u)
         (users Sample.storeAfterRun) (users (fst Desk.submitted))
    /\ Forall2 (fun j j' =>
                  j' = if (JoinRequest._id j
                           =? JoinRequest._id joinRequest)%nat
                       then plusTwoHours joinRequest else j)
         (joinRequests Sample.storeAfterRun)
         (joinRequests (fst Desk.submitted))
    /\ reports (fst Desk.submitted) = reports Sample.storeAfterRun
    /\ notifications (fst Desk.submitted)
       = filter
           (fun n =>
              negb (notificationMatches
                      (mkFilter 7%nat low_lecture_count_per_subject
                         (LectureBody.subject Sample.lectureBody)
                         (Str.trim (toLowerCase
                                      (LectureBody.studentEmail
                                         Sample.lectureBody))))
                      n))
           (notifications Sample.storeAfterRun)
         ++ [lectureAddedNotification Sample.nextSunday 7%nat user
               Sample.lectureBody
               (Str.trim (toLowerCase
                            (LectureBody.studentEmail Sample.lectureBody)))].
Proof.
  exact (accepted_submission_writes_one_lecture Desk.accept Desk.accept
           Desk.anyLength Desk.notAString noFaults Sample.nextSunday 5%nat
           7%nat Sample.lectureBody
           Sample.storeAfterRun (fst Desk.submitted)
           (Desk.decimals Sample.nextSunday) 4 6
           sample_store_after_run_unique_ids
           sample_store_after_run_unique_request_ids sample_submission).
Defined.
(* ===================================================================== *)
(** ** The roster test of a submission *)
(* ===================================================================== *)

End SampleSubmissionWrites.

Section RosterEmail.

Context {engine : Engine}.

Section RosterTest.

Variables isURL isEmail : string -> bool.
Variable isLength : string -> Z -> Z -> bool.
Variable notAString : Json.t -> Error.

(** X9. The roster test of a submission lower-cases the stored student
    email without trimming it and compares it with the request's email
    lower-cased and trimmed. With a lower-case conversion that is
    idempotent, neither makes nor removes white space at the ends of a
    string and converts only the empty string to the empty string, an
    accepted lecture names a student of
    the submitter's roster whose stored email has no white space at its
    ends; the lecture stores that email lower-cased, and (the email not
    being empty) the weekly count takes the lecture for that student's.
    No accepted lecture stores the lower-cased email of a student whose
    stored email has white space at an end: such a student cannot be
    named by a submission. *)
Theorem accepted_lecture_names_an_unpadded_roster_email
    (faults : nat -> option Error) (now : Date)
    (lectureId userId : ObjectId) (body : LectureBody.t) (s s' : Store)
    (lecture : Lecture.t) (count hours : nat) :
  lowerCaseIsIdempotent -> lowerCaseKeepsWhiteSpace -> lowerCaseKeepsText ->
  addLecture isURL isEmail isLength notAString faults now lectureId userId
    body s
  = (s', PostOk lecture count hours) ->
  (exists user st,
      findUser userId (users s) = Some user
      /\ In st (User.students user)
      /\ padded (Student.email st) = false
      /\ Lecture.studentEmail lecture
         = Some (toLowerCase (Student.email st))
      /\ (Student.email st <> "" ->
          emailsAgree (Lecture.studentEmail lecture) (Student.email st)))
  /\ (forall st',
         padded (Student.email st') = true ->
         Lecture.studentEmail lecture
         <> Some (toLowerCase (Student.email st'))).
Proof.
  intros Hidem Hwhite Htext Hadd.
  apply addLecture_ok in Hadd. destruct Hadd as [Hc _].
  apply run_addLectureBody_commit in Hc.
  destruct Hc as (user & j & _ & Hu & Hroster & _ & Hr & _).
  injection Hr as -> _ _.
  unfold inRoster in Hroster. apply existsb_exists in Hroster.
  destruct Hroster as (st & Hst & Heq). apply String.eqb_eq in Heq.
  cbn [submittedLecture Lecture.studentEmail].
  split.
  - exists user, st. split; [exact Hu |]. split; [exact Hst |].
    split; [| split].
    + rewrite <- Hwhite, Heq. apply trim_unpadded.
    + rewrite Heq. reflexivity.
    + intros Hne. exists (toLowerCase (Student.email st)).
      split; [rewrite Heq; reflexivity |]. split.
      * intros Hempty. apply Hne. apply Htext. exact Hempty.
      * rewrite Hidem. reflexivity.
  - intros st' Hpad Hsame. injection Hsame as Hsame.
    pose proof (trim_unpadded
                  (toLowerCase (LectureBody.studentEmail body))) as Hun.
    rewrite Hsame, Hwhite, Hpad in Hun. discriminate.
Qed.

End RosterTest.

End RosterEmail.

Section SampleRosterEmail.

#[local] Existing Instance Sample.engine.

(** The lecture accepted on the sample store names Sara's email in lower
    case, an email stored without blanks. *)
Lemma accepted_lecture_names_an_unpadded_roster_email_witness :
  (exists user st,
      findUser 7%nat (users Sample.storeAfterRun) = Some user
      /\ In st (User.students user)
      /\ padded (Student.email st) = false
      /\ Lecture.studentEmail (Desk.decimals Sample.nextSunday)
         = Some (toLowerCase (Student.email st))
      /\ (Student.email st <> "" ->
          emailsAgree (Lecture.studentEmail (Desk.decimals Sample.nextSunday))
            (Student.email st)))
  /\ (forall st',
         padded (Student.email st') = true ->
         Lecture.studentEmail (Desk.decimals Sample.nextSunday)
         <> Some (toLowerCase (Student.email st'))).
Proof.
  exact (accepted_lecture_names_an_unpadded_roster_email Desk.accept
           Desk.accept Desk.anyLength Desk.notAString noFaults
           Sample.nextSunday 5%nat 7%nat
           Sample.lectureBody Sample.storeAfterRun (fst Desk.submitted)
           (Desk.decimals Sample.nextSunday) 4 6
           sample_lowerCaseIsIdempotent sample_lowerCaseKeepsWhiteSpace
           sample_lowerCaseKeepsText sample_submission).
Defined.

(* ===================================================================== *)
(** ** A submission and the weekly count *)
(* ===================================================================== *)

End SampleRosterEmail.

Section LateSubmission.

Context {engine : Engine}.

Lemma lectureCount_withLecture (weekStart weekEnd : Date) (l : Lecture.t)
    (u : User.t) (st : Student.t) (sb : Subject.t) :
  lectureCount weekStart weekEnd (withLecture l u) st sb
  = (lectureCount weekStart weekEnd u st sb
     + if matchesLecture weekStart weekEnd st sb l then 1 else 0)%nat.
Proof.
  unfold lectureCount. cbn [withLecture User.lectures].
  rewrite filter_app, length_app. cbn [filter].
  destruct (matchesLecture weekStart weekEnd st sb l); reflexivity.
Qed.

Lemma matchesLecture_after_window (weekStart weekEnd : Date)
    (st : Student.t) (sb : Subject.t) (l : Lecture.t) :
  weekEnd < Lecture.createdAt l ->
  matchesLecture weekStart weekEnd st sb l = false.
Proof.
  intros H. unfold matchesLecture. cbv zeta.
  assert (E : (Lecture.createdAt l <=? weekEnd) = false)
    by (apply Z.leb_gt; exact H).
  rewrite E, andb_false_r. reflexivity.
Qed.

Section LateLecture.

Variables isURL isEmail : string -> bool.
Variable isLength : string -> Z -> Z -> bool.
Variable notAString : Json.t -> Error.

(** X10. An accepted submission raises each weekly count of the
    submitter by one at most, and leaves the count of every window that
    ended before the submission as it was: in a time zone that keeps
    the civil day and whose civil days follow the instants, the window
    computed at the instant of the submission always ended before it, so
    a lecture never counts for the week under evaluation when it is
    submitted. *)
Theorem submitted_lecture_counts_in_no_closed_window
    (faults : nat -> option Error) (now : Date)
    (lectureId userId : ObjectId) (body : LectureBody.t) (s s' : Store)
    (lecture : Lecture.t) (count hours : nat) :
  uniqueIds s ->
  addLecture isURL isEmail isLength notAString faults now lectureId userId
    body s
  = (s', PostOk lecture count hours) ->
  exists user user',
    findUser userId (users s) = Some user
    /\ findUser userId (users s') = Some user'
    /\ (forall weekStart weekEnd st sb,
           (lectureCount weekStart weekEnd user st sb
            <= lectureCount weekStart weekEnd user' st sb
            <= lectureCount weekStart weekEnd user st sb + 1)%nat)
    /\ (forall weekStart weekEnd st sb,
           weekEnd < now ->
           lectureCount weekStart weekEnd user' st sb
           = lectureCount weekStart weekEnd user st sb)
    /\ (zoneKeepsCivilDay -> civilDaysInOrder ->
        forall st sb,
          lectureCount (Week.weekStart now) (Week.weekEnd now) user' st sb
          = lectureCount (Week.weekStart now) (Week.weekEnd now) user st
              sb).
Proof.
  intros Hnd Hadd.
  apply addLecture_ok in Hadd. destruct Hadd as [Hc ->].
  apply run_addLectureBody_commit in Hc.
  destruct Hc as (user & j & _ & Hu & _ & _ & Hr & Hus & _).
  injection Hr as -> _ _.
  destruct (findUser_some _ _ _ Hu) as [Hin Hid].
  exists user, (withLecture (submittedLecture now lectureId body) user).
  assert (Hclosed : forall weekStart weekEnd st sb,
             weekEnd < now ->
             lectureCount weekStart weekEnd
               (withLecture (submittedLecture now lectureId body) user) st sb
             = lectureCount weekStart weekEnd user st sb).
  { intros ws we st sb Hlt. rewrite lectureCount_withLecture.
    rewrite matchesLecture_after_window by exact Hlt. lia. }
  split; [exact Hu |]. split; [| split; [| split]].
  - rewrite Hus, (replaceUser_map _ _ Hnd), findUser_map.
    + rewrite Hu. cbn [option_map]. unfold substUser.
      cbn [withLecture User._id]. rewrite Nat.eqb_refl. reflexivity.
    + apply substUser_id.
  - intros ws we st sb. rewrite lectureCount_withLecture.
    destruct (matchesLecture ws we st sb _); lia.
  - exact Hclosed.
  - intros Hkeeps Horder st sb. apply Hclosed.
    apply weekEnd_before_now; assumption.
Qed.

Lemma find_map_preserving {A : Type} (p : A -> bool) (f : A -> A)
    (l : list A) :
  (forall x, In x l -> p (f x) = p x) ->
  find p (map f l) = option_map f (find p l).
Proof.
  induction l as [| x r IH]; simpl; intros H; [reflexivity |].
  rewrite (H x) by (left; reflexivity).
  destruct (p x); [reflexivity |].
  apply IH. intros y Hy. apply H. right. exact Hy.
Qed.

Lemma same_id_same_request (l : list JoinRequest.t) (a b : JoinRequest.t) :
  NoDup (map JoinRequest._id l) -> In a l -> In b l ->
  JoinRequest._id a = JoinRequest._id b -> a = b.
Proof.
  induction l as [| y r IH]; simpl; intros Hnd Ha Hb Heq; [destruct Ha |].
  pose proof (NoDup_cons_iff (JoinRequest._id y) (map JoinRequest._id r))
    as [Hsplit _].
  destruct (Hsplit Hnd) as [Hfresh Hrest].
  destruct Ha as [-> | Ha], Hb as [-> | Hb]; [reflexivity | | |].
  - exfalso. apply Hfresh. rewrite Heq. apply in_map. exact Hb.
  - exfalso. apply Hfresh. rewrite <- Heq. apply in_map. exact Ha.
  - apply IH; assumption.
Qed.

(** The submitter stays evaluated: the membership record found for it
    after the submission is the one found before, with two more hours. *)
Lemma requestOf_after_submission (requests : list JoinRequest.t)
    (u : User.t) (j : JoinRequest.t) (e : string) :
  NoDup (map JoinRequest._id requests) ->
  requestOf requests u = Some j ->
  find (fun x => (JoinRequest.email x =? e)%string)
    (map (substJoinRequest (plusTwoHours j)) requests)
  = option_map (substJoinRequest (plusTwoHours j))
      (find (fun x => (JoinRequest.email x =? e)%string) requests).
Proof.
  intros Hnd Hj. apply find_map_preserving. intros x Hx.
  unfold substJoinRequest. cbn [plusTwoHours JoinRequest._id].
  destruct (JoinRequest._id x =? JoinRequest._id j)%nat eqn:E;
    [| reflexivity].
  apply Nat.eqb_eq in E. unfold requestOf in Hj. apply find_some in Hj.
  destruct Hj as [Hjin _].
  assert (x = j) by (eapply same_id_same_request; eauto). subst x.
  reflexivity.
Qed.

(** X11. Deleting the warning at submission does not settle it. With
    unique [_id]s in the two collections: when an evaluated volunteer has
    a pair under target in a window that ended before the volunteer's
    accepted submission, a scheduled run for that window committed after
    the submission still lists the volunteer and leaves a low-lecture
    notification for the pair, whatever the submission deleted. *)
Theorem warning_returns_after_late_submission
    (faultsPost faultsRun : nat -> option Error) (now now' : Date)
    (lectureId userId : ObjectId) (body : LectureBody.t)
    (s s1 s2 : Store) (lecture : Lecture.t) (count hours : nat)
    (response : Response.t) (user : User.t) (st : Student.t)
    (sb : Subject.t) :
  uniqueIds s ->
  uniqueRequestIds s ->
  addLecture isURL isEmail isLength notAString faultsPost now lectureId
    userId body s
  = (s1, PostOk lecture count hours) ->
  findUser userId (users s) = Some user ->
  evaluated s user ->
  In st (User.students user) ->
  In sb (Student.subjects st) ->
  Week.weekEnd now' < now ->
  Z.of_nat (lectureCount (Week.weekStart now') (Week.weekEnd now') user st
              sb) < Subject.minLectures sb ->
  checkLowLectureMembers faultsRun true now' s1 = (s2, Ok response) ->
  isMember (Response.members response) userId
  /\ hasNotification (withLecture lecture user) st sb s2.
Proof.
  intros Hnd Hndr Hadd Hu (Hin & Hv & Ha) Hst Hsb Hlate Hlt Hrun.
  apply addLecture_ok in Hadd. destruct Hadd as [Hc Hs1].
  apply run_addLectureBody_commit in Hc.
  destruct Hc as (user0 & j & _ & Hu0 & _ & Hj & Hr & Hus & Hjs & _).
  assert (user0 = user) by congruence. subst user0.
  injection Hr as -> _ _.
  rewrite <- Hs1 in Hus, Hjs.
  rewrite (replaceUser_map _ _ Hnd) in Hus.
  rewrite (replaceJoinRequest_map _ _ Hndr) in Hjs.
  destruct (findUser_some _ _ _ Hu) as [_ Hid].
  set (user' := withLecture (submittedLecture now lectureId body) user) in *.
  assert (Hin' : In user' (users s1)).
  { rewrite Hus. apply in_map_iff. exists user. split; [| exact Hin].
    unfold substUser. subst user'. cbn [withLecture User._id].
    rewrite Nat.eqb_refl. reflexivity. }
  assert (Hnd1 : uniqueIds s1).
  { unfold uniqueIds. rewrite Hus, map_map.
    rewrite (map_ext _ User._id (fun x => substUser_id user' x)).
    exact Hnd. }
  assert (Ha' : approvedRequest (joinRequests s1) user' <> None).
  { unfold approvedRequest in *. subst user'. cbn [withLecture User.email].
    rewrite Hjs, (requestOf_after_submission _ user j _ Hndr Hj).
    unfold requestOf in Hj. rewrite Hj in *. cbn [option_map].
    unfold substJoinRequest. cbn [plusTwoHours JoinRequest._id].
    rewrite Nat.eqb_refl. cbn [plusTwoHours JoinRequest.status].
    destruct (JoinRequest.status j =? "Approved")%string;
      [discriminate | exact Ha]. }
  assert (Hcount : lectureCount (Week.weekStart now') (Week.weekEnd now')
                     user' st sb
                   = lectureCount (Week.weekStart now') (Week.weekEnd now')
                       user st sb).
  { subst user'. rewrite lectureCount_withLecture.
    rewrite matchesLecture_after_window by exact Hlate. lia. }
  assert (Hund : isUnderTarget (Week.weekStart now') (Week.weekEnd now')
                   user' st sb = true).
  { unfold isUnderTarget. rewrite Hcount. apply Z.ltb_lt. exact Hlt. }
  assert (Hev' : evaluated s1 user') by (repeat split; assumption).
  split.
  - rewrite (committed_members _ _ _ _ _ _ Hrun), <- Hid.
    change (User._id user) with (User._id user').
    apply (isMember_iff true now' s1 user' Hnd1 Hin').
    split; [exact Hv |]. split; [exact Ha' |].
    apply flagged_iff. exists st, sb. rewrite Hcount. auto.
  - pose proof (f_equal fst (checkLowLectureMembers_ok _ _ _ _ _ _ Hrun))
      as Hs2.
    cbn [fst] in Hs2. rewrite Hs2.
    apply scheduled_run_notifies; assumption.
Qed.

End LateLecture.

End LateSubmission.

Section SampleLateSubmission.

#[local] Existing Instance Sample.engine.

Lemma sample_early_submission :
  Desk.early = (fst Desk.early, PostOk (Desk.decimals Sample.sunday) 4 6).
Proof. vm_compute. reflexivity. Qed.

(** The Math lecture submitted on [Sample.sunday] leaves the count of the
    week under evaluation at one. *)
Lemma submitted_lecture_counts_in_no_closed_window_witness :
  exists user user',
    findUser 7%nat (users Sample.store) = Some user
    /\ findUser 7%nat (users (fst Desk.early)) = Some user'
    /\ (forall weekStart weekEnd st sb,
           (lectureCount weekStart weekEnd user st sb
            <= lectureCount weekStart weekEnd user' st sb
            <= lectureCount weekStart weekEnd user st sb + 1)%nat)
    /\ (forall weekStart weekEnd st sb,
           weekEnd < Sample.sunday ->
           lectureCount weekStart weekEnd user' st sb
           = lectureCount weekStart weekEnd user st sb)
    /\ (forall st sb,
           lectureCount (Week.weekStart Sample.sunday)
             (Week.weekEnd Sample.sunday) user' st sb
           = lectureCount (Week.weekStart Sample.sunday)
               (Week.weekEnd Sample.sunday) user st sb).
Proof.
  destruct (submitted_lecture_counts_in_no_closed_window Desk.accept
              Desk.accept Desk.anyLength Desk.notAString noFaults
              Sample.sunday 5%nat 7%nat Sample.lectureBody
              Sample.store (fst Desk.early) (Desk.decimals Sample.sunday) 4 6
              sample_store_unique_ids sample_early_submission)
    as (user & user' & Hu & Hu' & Hone & Hclosed & Hwindow).
  exists user, user'.
  split; [exact Hu |]. split; [exact Hu' |]. split; [exact Hone |].
  split; [exact Hclosed |].
  exact (Hwindow sample_zoneKeepsCivilDay sample_civilDaysInOrder).
Defined.

(** The volunteer of the sample store submits the missing Math lecture on
    [Sample.sunday]; the scheduled run of that day still lists the
    volunteer and leaves the warning for (Sara, Math). *)
Lemma warning_returns_after_late_submission_witness :
  isMember
    (Response.members (responseOfRun true Sample.sunday (fst Desk.early)))
    7%nat
  /\ hasNotification
       (withLecture (Desk.decimals Sample.sunday) Sample.volunteer)
       Sample.sara Sample.math
       (fst (checkLowLectureMembers noFaults true Sample.sunday
               (fst Desk.early))).
Proof.
  apply (warning_returns_after_late_submission Desk.accept Desk.accept
           Desk.anyLength Desk.notAString noFaults noFaults Sample.sunday
           Sample.sunday 5%nat 7%nat
           Sample.lectureBody Sample.store (fst Desk.early) _
           (Desk.decimals Sample.sunday) 4 6 _ Sample.volunteer).
  - exact sample_store_unique_ids.
  - exact sample_store_unique_request_ids.
  - exact sample_early_submission.
  - reflexivity.
  - exact sample_volunteer_evaluated.
  - simpl. auto.
  - simpl. auto.
  - vm_compute. reflexivity.
  - vm_compute. reflexivity.
  - vm_compute. reflexivity.
Defined.

(* ===================================================================== *)
(** ** Deleting a lecture *)
(* ===================================================================== *)

End SampleLateSubmission.

Section LectureDeletion.

Context {engine : Engine}.

Lemma withoutLecture_count (lectureId : ObjectId) (user : User.t) :
  User.lectureCount (withoutLecture lectureId user)
  = (User.lectureCount user - 1)%nat.
Proof.
  cbn [withoutLecture User.lectureCount].
  destruct (User.lectureCount user); reflexivity.
Qed.

Lemma lessTwoHours_hours (j : JoinRequest.t) :
  JoinRequest.volunteerHours (lessTwoHours j)
  = (JoinRequest.volunteerHours j - 2)%nat.
Proof.
  cbn [lessTwoHours JoinRequest.volunteerHours].
  destruct (JoinRequest.volunteerHours j); reflexivity.
Qed.

Lemma run_deleteLectureTail (lectureId : ObjectId) (user : User.t)
    (s : Store) :
  run (deleteLectureTail lectureId user) s
  = match requestOf (joinRequests s) user with
    | None => (Abort DeleteNotFound, s)
    | Some j =>
        (Commit (DeleteOk (User.lectureCount user - 1)
                   (JoinRequest.volunteerHours j - 2)),
         mkStore (replaceUser (withoutLecture lectureId user) (users s))
           (replaceJoinRequest (lessTwoHours j) (joinRequests s))
           (notifications s) (reports s))
    end.
Proof.
  unfold deleteLectureTail, requestOf. awaited.
  destruct (find _ (joinRequests s)) as [j |]; [| reflexivity].
  repeat awaited.
  rewrite withoutLecture_count, lessTwoHours_hours. reflexivity.
Qed.

Lemma In_withoutLecture (lectureId : ObjectId) (user : User.t)
    (l : Lecture.t) :
  In l (User.lectures (withoutLecture lectureId user))
  <-> In l (User.lectures user) /\ Lecture._id l <> lectureId.
Proof.
  cbn [withoutLecture User.lectures]. unfold pullLecture.
  rewrite filter_In, negb_true_iff, Nat.eqb_neq. reflexivity.
Qed.

Lemma hasLecture_withoutLecture (lectureId : ObjectId) (user : User.t) :
  hasLecture lectureId (withoutLecture lectureId user) = false.
Proof.
  unfold hasLecture. destruct (existsb _ _) eqn:E; [| reflexivity].
  apply existsb_exists in E. destruct E as (l & Hl & Hid).
  apply In_withoutLecture in Hl. apply Nat.eqb_eq in Hid.
  destruct Hl as [_ Hne]. contradiction.
Qed.

Section Deletion.

Variable objectIdOf : string -> option ObjectId.

(** Every call of the [try] block carries the session, lines
    189-217. *)
Lemma inSession_deleteLectureBody (param : string) :
  inSession (deleteLectureBody objectIdOf param).
Proof.
  unfold deleteLectureBody.
  destruct (objectIdOf param) as [lectureId |]; [| exact I].
  apply inSession_bind; [apply inSession_withSession |].
  intros [user |]; [| exact I].
  destruct (find _ (User.lectures user)); [| exact I].
  unfold deleteLectureTail.
  apply inSession_bind; [apply inSession_withSession |].
  intros [j |]; [| exact I].
  repeat (apply inSession_bind; [apply inSession_withSession | intros _]).
  exact I.
Qed.

Lemma run_deleteLectureBody (param : string) (s : Store) :
  run (deleteLectureBody objectIdOf param) s
  = match objectIdOf param with
    | None => (Abort DeleteBadRequest, s)
    | Some lectureId =>
        match find (hasLecture lectureId) (users s) with
        | None => (Abort DeleteNotFound, s)
        | Some user =>
            match find (fun l => (Lecture._id l =? lectureId)%nat)
                    (User.lectures user) with
            | None => (Abort DeleteNotFound, s)
            | Some _ => run (deleteLectureTail lectureId user) s
            end
        end
    end.
Proof.
  unfold deleteLectureBody.
  destruct (objectIdOf param) as [lectureId |]; [| reflexivity].
  awaited.
  destruct (find (hasLecture lectureId) (users s)) as [user |];
    [| reflexivity].
  destruct (find _ (User.lectures user)); reflexivity.
Qed.

(** How a run of the [try] block ends. *)
Lemma run_deleteLectureBody_cases (param : string) (s : Store) :
  (exists lectureId user j,
      objectIdOf param = Some lectureId
      /\ find (hasLecture lectureId) (users s) = Some user
      /\ requestOf (joinRequests s) user = Some j
      /\ run (deleteLectureBody objectIdOf param) s
         = (Commit (DeleteOk (User.lectureCount user - 1)
                      (JoinRequest.volunteerHours j - 2)),
            mkStore (replaceUser (withoutLecture lectureId user) (users s))
              (replaceJoinRequest (lessTwoHours j) (joinRequests s))
              (notifications s) (reports s)))
  \/ run (deleteLectureBody objectIdOf param) s = (Abort DeleteBadRequest, s)
  \/ run (deleteLectureBody objectIdOf param) s = (Abort DeleteNotFound, s).
Proof.
  rewrite run_deleteLectureBody.
  destruct (objectIdOf param) as [lectureId |]; [| auto].
  destruct (find (hasLecture lectureId) (users s)) as [user |] eqn:Hu;
    [| auto].
  destruct (find _ (User.lectures user)); [| auto].
  rewrite run_deleteLectureTail.
  destruct (requestOf (joinRequests s) user) as [j |] eqn:Hj; [| auto].
  left. exists lectureId, user, j. auto.
Qed.

(** How a deletion ends, whatever calls fail. *)
Lemma deleteLecture_outcomes (faults : nat -> option Error) (param : string)
    (s : Store) :
  match deleteLecture objectIdOf faults param s with
  | (s', DeleteOk count hours) =>
      run (deleteLectureBody objectIdOf param) s
      = (Commit (DeleteOk count hours), s')
  | (s', DeleteBadRequest) => s' = s
  | (s', DeleteNotFound) => s' = s
  | (s', DeleteServerError e) => s' = s /\ exists k, faults k = Some e
  | (s', DeleteRejected e) => s' = s /\ exists k, faults k = Some e
  end.
Proof.
  unfold deleteLecture, deleteLectureHandler.
  pose proof (transaction_cases (deleteLectureBody objectIdOf param)
                DeleteServerError faults s
                (inSession_deleteLectureBody param)) as H.
  match type of H with
  | match ?X with _ => _ end => destruct X as [reply n db | e n db]
  end; [| exact H].
  destruct (run_deleteLectureBody_cases param s)
    as [(lectureId & user & j & _ & _ & _ & Hrun) | [Hrun | Hrun]];
    rewrite Hrun in H; cbn [fst snd] in H;
    destruct H as [(r & Hc & -> & Hdb & _)
                  | [(Hdb & r & Ha & -> & _)
                    | (Hdb & e & -> & [Hf | [Hr _]])]];
    try discriminate.
  - injection Hc as <-. rewrite Hrun, Hdb. reflexivity.
  - split; assumption.
  - injection Ha as <-. exact Hdb.
  - split; assumption.
  - injection Ha as <-. exact Hdb.
  - split; assumption.
Qed.

(** A deletion that meets no failing call ends as its [try] block
    says. *)
Lemma deleteLecture_noFailure (faults : nat -> option Error)
    (param : string) (s : Store) :
  (forall k, faults k = None) ->
  deleteLecture objectIdOf faults param s
  = match run (deleteLectureBody objectIdOf param) s with
    | (Commit r, s') => (s', r)
    | (Abort r, _) => (s, r)
    | (Raise e, _) => (s, DeleteServerError e)
    end.
Proof.
  intros Hnone. unfold deleteLecture, deleteLectureHandler.
  pose proof (transaction_cases (deleteLectureBody objectIdOf param)
                DeleteServerError faults s
                (inSession_deleteLectureBody param)) as H.
  match type of H with
  | match ?X with _ => _ end => destruct X as [reply n db | e n db]
  end.
  - destruct (run (deleteLectureBody objectIdOf param) s) as [ending s1].
    cbn [fst snd] in H.
    destruct H as [(r & -> & -> & -> & _)
                  | [(-> & r & -> & -> & _)
                    | (-> & e & -> & [[k Hf] | [-> _]])]];
      try reflexivity.
    rewrite Hnone in Hf. discriminate.
  - destruct H as (_ & k & Hf). rewrite Hnone in Hf. discriminate.
Qed.

(** The handler commits in one case only: the parameter is an ObjectId,
    a first user holds a lecture with it, that user has a membership
    record, and no call failed. *)
Lemma deleteLecture_ok (faults : nat -> option Error) (param : string)
    (s s' : Store) (count hours : nat) :
  deleteLecture objectIdOf faults param s = (s', DeleteOk count hours) ->
  exists lectureId user j,
    objectIdOf param = Some lectureId
    /\ find (hasLecture lectureId) (users s) = Some user
    /\ requestOf (joinRequests s) user = Some j
    /\ count = (User.lectureCount user - 1)%nat
    /\ hours = (JoinRequest.volunteerHours j - 2)%nat
    /\ s' = mkStore (replaceUser (withoutLecture lectureId user) (users s))
              (replaceJoinRequest (lessTwoHours j) (joinRequests s))
              (notifications s) (reports s).
Proof.
  intros H. pose proof (deleteLecture_outcomes faults param s) as Ho.
  rewrite H in Ho.
  destruct (run_deleteLectureBody_cases param s)
    as [(lectureId & user & j & Hp & Hu & Hj & Hrun) | [Hrun | Hrun]];
    rewrite Hrun in Ho; try discriminate.
  injection Ho as <- <- <-.
  exists lectureId, user, j. repeat split; assumption.
Qed.

Lemma deleteLecture_other (faults : nat -> option Error) (param : string)
    (s : Store) :
  (forall count hours,
      snd (deleteLecture objectIdOf faults param s) <> DeleteOk count hours) ->
  fst (deleteLecture objectIdOf faults param s) = s.
Proof.
  pose proof (deleteLecture_outcomes faults param s) as Ho.
  destruct (deleteLecture objectIdOf faults param s)
    as [s' [| | count hours | e | e]]; cbn [fst snd]; intros H.
  - exact Ho.
  - exact Ho.
  - exfalso. eapply H. reflexivity.
  - apply Ho.
  - apply Ho.
Qed.

Lemma deleteLecture_error (faults : nat -> option Error) (param : string)
    (s s' : Store) (e : Error) :
  deleteLecture objectIdOf faults param s = (s', DeleteServerError e)
  \/ deleteLecture objectIdOf faults param s = (s', DeleteRejected e) ->
  exists k, faults k = Some e.
Proof.
  pose proof (deleteLecture_outcomes faults param s) as Ho.
  intros [H | H]; rewrite H in Ho; apply Ho.
Qed.

(** X12. Deleting a lecture is all or nothing. With unique [_id]s in the
    two collections, a success reply means that the parameter is the
    ObjectId of a lecture of a first stored user with a membership
    record; that user's document loses every lecture of that [_id], keeps
    the others in order and has one lecture less counted (never below
    zero), the membership record has two hours less (never below zero),
    and every other document, every notification and every report is as
    before. With any other reply, or none, the store is the one before;
    a 500 carries the error of a failed call, and the handler rejects,
    without a reply, with the error of a failed call. *)
Theorem lecture_deletion_is_all_or_nothing
    (faults : nat -> option Error) (param : string) (s s' : Store)
    (reply : DeleteReply) :
  uniqueIds s ->
  uniqueRequestIds s ->
  deleteLecture objectIdOf faults param s = (s', reply) ->
  match reply with
  | DeleteOk count hours =>
      exists lectureId user joinRequest user',
        objectIdOf param = Some lectureId
        /\ find (hasLecture lectureId) (users s) = Some user
        /\ requestOf (joinRequests s) user = Some joinRequest
        /\ count = (User.lectureCount user - 1)%nat
        /\ hours = (JoinRequest.volunteerHours joinRequest - 2)%nat
        /\ findUser (User._id user) (users s') = Some user'
        /\ hasLecture lectureId user' = false
        /\ (forall l, In l (User.lectures user') <->
                      In l (User.lectures user)
                      /\ Lecture._id l <> lectureId)
        /\ User.lectureCount user' = count
        /\ Forall2 (fun u u' =>
                      u' = if (User._id u =? User._id user)%nat
                           then user' else u)
             (users s) (users s')
        /\ Forall2 (fun j j' =>
                      j' = if (JoinRequest._id j
                               =? JoinRequest._id joinRequest)%nat
                           then lessTwoHours joinRequest else j)
             (joinRequests s) (joinRequests s')
        /\ notifications s' = notifications s
        /\ reports s' = reports s
  | DeleteServerError e => s' = s /\ exists k, faults k = Some e
  | DeleteRejected e => s' = s /\ exists k, faults k = Some e
  | DeleteBadRequest => s' = s
  | DeleteNotFound => s' = s
  end.
Proof.
  intros Hnd Hndr H.
  assert (Hother : (forall c h, reply <> DeleteOk c h) -> s' = s).
  { intros Hno.
    pose proof (deleteLecture_other faults param s) as Hs.
    rewrite H in Hs. apply Hs. exact Hno. }
  destruct reply as [| | count hours | e | e].
  - apply Hother. discriminate.
  - apply Hother. discriminate.
  - apply deleteLecture_ok in H.
    destruct H as (lectureId & user & j & Hp & Hu & Hj & -> & -> & ->).
    exists lectureId, user, j, (withoutLecture lectureId user).
    cbn [users joinRequests notifications reports].
    rewrite (replaceUser_map _ _ Hnd), (replaceJoinRequest_map _ _ Hndr).
    destruct (find_some _ _ Hu) as [Hin Hhas].
    split; [exact Hp |]. split; [exact Hu |].
    split; [exact Hj |]. split; [reflexivity |]. split; [reflexivity |].
    split; [| split; [| split; [| split; [| split; [| split]]]]].
    + rewrite findUser_map by apply substUser_id.
      rewrite (findUser_unique _ _ Hnd Hin). cbn [option_map].
      unfold substUser. cbn [withoutLecture User._id].
      rewrite Nat.eqb_refl. reflexivity.
    + apply hasLecture_withoutLecture.
    + intros l. apply In_withoutLecture.
    + apply withoutLecture_count.
    + apply Forall2_map_self. intros x _. reflexivity.
    + apply Forall2_map_self. intros x _. reflexivity.
    + split; reflexivity.
  - split; [apply Hother; discriminate |].
    eapply deleteLecture_error. left. exact H.
  - split; [apply Hother; discriminate |].
    eapply deleteLecture_error. right. exact H.
Qed.

End Deletion.

(* ===================================================================== *)
(** ** Submitting a lecture and deleting it again *)
(* ===================================================================== *)

Lemma pullLecture_fresh (lectureId : ObjectId) (l : list Lecture.t) :
  existsb (fun x => (Lecture._id x =? lectureId)%nat) l = false ->
  pullLecture lectureId l = l.
Proof.
  unfold pullLecture. induction l as [| x r IH]; simpl; [reflexivity |].
  intros H. apply orb_false_iff in H. destruct H as [Hx Hr].
  rewrite Hx. cbn [negb]. rewrite IH by exact Hr. reflexivity.
Qed.

Lemma withoutLecture_withLecture (lecture : Lecture.t) (user : User.t) :
  hasLecture (Lecture._id lecture) user = false ->
  withoutLecture (Lecture._id lecture) (withLecture lecture user) = user.
Proof.
  unfold hasLecture. intros Hfresh. destruct user as [i e r sts ls c w d].
  unfold withoutLecture, withLecture. cbn [User._id User.email User.role
    User.students User.lectures User.lectureCount User.lowLectureWeekCount
    User.lastLowLectureWeek] in *.
  f_equal.
  - unfold pullLecture. rewrite filter_app. cbn [filter].
    rewrite Nat.eqb_refl. cbn [negb]. rewrite app_nil_r.
    apply pullLecture_fresh. exact Hfresh.
  - destruct (Nat.eqb_spec (c + 1) 0); lia.
Qed.

Lemma lessTwoHours_plusTwoHours (j : JoinRequest.t) :
  lessTwoHours (plusTwoHours j) = j.
Proof.
  destruct j as [i e n st h]. unfold lessTwoHours, plusTwoHours.
  cbn [JoinRequest._id JoinRequest.email JoinRequest.name JoinRequest.status
       JoinRequest.volunteerHours].
  f_equal. destruct (Nat.eqb_spec (h + 2) 0); lia.
Qed.

Lemma find_substituted (p : User.t -> bool) (w u : User.t)
    (l : list User.t) :
  In u l -> User._id w = User._id u -> p w = true ->
  (forall x, In x l -> p x = false) ->
  find p (map (substUser w) l) = Some w.
Proof.
  intros Hin Hid Hw Hfresh. induction l as [| x r IH]; [destruct Hin |].
  cbn [map find].
  destruct (User._id x =? User._id w)%nat eqn:E.
  - assert (Hs : substUser w x = w) by (unfold substUser; rewrite E;
                                         reflexivity).
    rewrite Hs, Hw. reflexivity.
  - assert (Hs : substUser w x = x) by (unfold substUser; rewrite E;
                                         reflexivity).
    rewrite Hs, (Hfresh x) by (left; reflexivity).
    apply IH.
    + destruct Hin as [-> | Hin]; [| exact Hin].
      rewrite Hid, Nat.eqb_refl in E. discriminate.
    + intros y Hy. apply Hfresh. right. exact Hy.
Qed.

Lemma map_subst_back (u w : User.t) (l : list User.t) :
  NoDup (map User._id l) -> In u l -> User._id w = User._id u ->
  map (substUser u) (map (substUser w) l) = l.
Proof.
  intros Hnd Hin Hid. rewrite map_map. rewrite <- (map_id l) at 2.
  apply map_ext_in. intros x Hx. unfold substUser. rewrite Hid.
  destruct (User._id x =? User._id u)%nat eqn:E.
  - rewrite Hid, Nat.eqb_refl. symmetry. apply Nat.eqb_eq in E.
    eapply same_id_same_user; eauto.
  - rewrite E. reflexivity.
Qed.

Lemma map_substJoinRequest_back (j w : JoinRequest.t)
    (l : list JoinRequest.t) :
  NoDup (map JoinRequest._id l) -> In j l ->
  JoinRequest._id w = JoinRequest._id j ->
  map (substJoinRequest j) (map (substJoinRequest w) l) = l.
Proof.
  intros Hnd Hin Hid. rewrite map_map. rewrite <- (map_id l) at 2.
  apply map_ext_in. intros x Hx. unfold substJoinRequest. rewrite Hid.
  destruct (JoinRequest._id x =? JoinRequest._id j)%nat eqn:E.
  - rewrite Hid, Nat.eqb_refl. symmetry. apply Nat.eqb_eq in E.
    eapply same_id_same_request; eauto.
  - rewrite E. reflexivity.
Qed.

Lemma substJoinRequest_id (w x : JoinRequest.t) :
  JoinRequest._id (substJoinRequest w x) = JoinRequest._id x.
Proof.
  unfold substJoinRequest.
  destruct (JoinRequest._id x =? JoinRequest._id w)%nat eqn:E;
    [| reflexivity].
  apply Nat.eqb_eq in E. congruence.
Qed.

Lemma existsb_find {A : Type} (p : A -> bool) (l : list A) :
  existsb p l = true -> exists x, find p l = Some x.
Proof.
  induction l as [| x r IH]; simpl; [discriminate |].
  destruct (p x); [intros _; exists x; reflexivity | exact IH].
Qed.

Section RoundTrip.

Variable objectIdOf : string -> option ObjectId.
Variables isURL isEmail : string -> bool.
Variable isLength : string -> Z -> Z -> bool.
Variable notAString : Json.t -> Error.

(** X13. Deleting undoes a submission, except for the notifications.
    With unique [_id]s in the two collections and a lecture [_id] no
    stored lecture has: when a submission is accepted and the deletion of
    that lecture then meets no failing store call, the deletion succeeds
    with the counters the submitter had before the submission, the user
    and membership documents and the reports are those before the
    submission, and the notifications stay as the submission left them:
    the lecture-added notification remains and a warning the submission
    deleted is not restored. *)
Theorem deletion_undoes_submission_but_not_its_notifications
    (faultsPost faultsDelete : nat -> option Error) (now : Date)
    (lectureId userId : ObjectId) (param : string) (body : LectureBody.t)
    (s s1 s2 : Store) (lecture : Lecture.t) (count hours : nat)
    (reply : DeleteReply) :
  uniqueIds s ->
  uniqueRequestIds s ->
  freshLectureId lectureId s ->
  objectIdOf param = Some lectureId ->
  addLecture isURL isEmail isLength notAString faultsPost now lectureId
    userId body s
  = (s1, PostOk lecture count hours) ->
  (forall k, faultsDelete k = None) ->
  deleteLecture objectIdOf faultsDelete param s1 = (s2, reply) ->
  exists user joinRequest,
    findUser userId (users s) = Some user
    /\ requestOf (joinRequests s) user = Some joinRequest
    /\ reply = DeleteOk (User.lectureCount user)
                 (JoinRequest.volunteerHours joinRequest)
    /\ users s2 = users s
    /\ joinRequests s2 = joinRequests s
    /\ reports s2 = reports s
    /\ notifications s2 = notifications s1
    /\ notifications s1
       = filter
           (fun n =>
              negb (notificationMatches
                      (mkFilter userId low_lecture_count_per_subject
                         (LectureBody.subject body)
                         (Str.trim (toLowerCase
                                      (LectureBody.studentEmail body))))
                      n))
           (notifications s)
         ++ [lectureAddedNotification now userId user body
               (Str.trim (toLowerCase
                            (LectureBody.studentEmail body)))].
Proof.
  intros Hnd Hndr Hfresh Hp Hadd Hnone Hdel.
  apply addLecture_ok in Hadd. destruct Hadd as [Hc Hs1].
  apply run_addLectureBody_commit in Hc.
  destruct Hc as (user & j & _ & Hu & _ & Hj & Hr & Hus & Hjs & Hrs & Hn).
  rewrite <- Hs1 in Hus, Hjs, Hrs, Hn.
  rewrite (replaceUser_map _ _ Hnd) in Hus.
  rewrite (replaceJoinRequest_map _ _ Hndr) in Hjs.
  clear Hr Hs1.
  destruct (findUser_some _ _ _ Hu) as [Hin Hid].
  set (l := submittedLecture now lectureId body) in *.
  assert (Hl : Lecture._id l = lectureId) by reflexivity.
  assert (Hhas : hasLecture lectureId (withLecture l user) = true).
  { unfold hasLecture. cbn [withLecture User.lectures].
    rewrite existsb_app. cbn [existsb]. rewrite Hl, Nat.eqb_refl.
    apply orb_true_iff. right. reflexivity. }
  assert (Hfound : find (hasLecture lectureId) (users s1)
                   = Some (withLecture l user)).
  { rewrite Hus. apply (find_substituted _ _ user); auto. }
  assert (Hj1 : requestOf (joinRequests s1) (withLecture l user)
                = Some (plusTwoHours j)).
  { unfold requestOf. cbn [withLecture User.email].
    rewrite Hjs, (requestOf_after_submission _ user j _ Hndr Hj).
    unfold requestOf in Hj. rewrite Hj. cbn [option_map].
    unfold substJoinRequest. cbn [plusTwoHours JoinRequest._id].
    rewrite Nat.eqb_refl. reflexivity. }
  assert (Hnd1 : NoDup (map User._id (users s1))).
  { rewrite Hus, map_map.
    rewrite (map_ext _ User._id (fun x => substUser_id (withLecture l user) x)).
    exact Hnd. }
  assert (Hndr1 : NoDup (map JoinRequest._id (joinRequests s1))).
  { rewrite Hjs, map_map.
    rewrite (map_ext _ JoinRequest._id
               (fun x => substJoinRequest_id (plusTwoHours j) x)).
    exact Hndr. }
  destruct (existsb_find _ _ Hhas) as (x & Hx).
  rewrite (deleteLecture_noFailure _ _ _ _ Hnone) in Hdel.
  rewrite run_deleteLectureBody, Hp, Hfound, Hx in Hdel.
  rewrite run_deleteLectureTail, Hj1 in Hdel.
  injection Hdel as <- <-.
  cbn [users joinRequests notifications reports].
  assert (Hback : withoutLecture lectureId (withLecture l user) = user).
  { apply (withoutLecture_withLecture l user). apply Hfresh. exact Hin. }
  rewrite Hback, lessTwoHours_plusTwoHours.
  rewrite (replaceUser_map _ _ Hnd1), (replaceJoinRequest_map _ _ Hndr1).
  rewrite Hus, Hjs.
  exists user, j.
  split; [exact Hu |]. split; [exact Hj |]. split.
  { f_equal; lia. }
  split; [apply map_subst_back; auto |].
  split.
  { apply map_substJoinRequest_back; auto.
    unfold requestOf in Hj. apply find_some in Hj. apply Hj. }
  split; [exact Hrs |]. split; [reflexivity | exact Hn].
Qed.

End RoundTrip.

End LectureDeletion.

Section SampleLectureDeletion.

#[local] Existing Instance Sample.engine.

Lemma sample_deletion : Office.deleted = (fst Office.deleted, DeleteOk 2 2).
Proof. vm_compute. reflexivity. Qed.

Lemma sample_fresh_lecture_id : freshLectureId 5%nat Sample.store.
Proof.
  intros u Hu. simpl in Hu.
  destruct Hu as [<- | [<- | [<- | [<- | []]]]]; reflexivity.
Qed.

(** On the sample store the deletion of [Sample.lectureAfter] leaves the
    volunteer with two counted lectures and Vera with two hours. *)
Lemma lecture_deletion_is_all_or_nothing_witness :
  exists lectureId user joinRequest user',
    Office.objectIdOf "64b000000000000000000003" = Some lectureId
    /\ find (hasLecture lectureId) (users Sample.store) = Some user
    /\ requestOf (joinRequests Sample.store) user = Some joinRequest
    /\ 2%nat = (User.lectureCount user - 1)%nat
    /\ 2%nat = (JoinRequest.volunteerHours joinRequest - 2)%nat
    /\ findUser (User._id user) (users (fst Office.deleted)) = Some user'
    /\ hasLecture lectureId user' = false
    /\ (forall l, In l (User.lectures user') <->
                  In l (User.lectures user) /\ Lecture._id l <> lectureId)
    /\ User.lectureCount user' = 2%nat
    /\ Forall2 (fun u u' =>
                  u' = if (User._id u =? User._id user)%nat
                       then user' else u)
         (users Sample.store) (users (fst Office.deleted))
    /\ Forall2 (fun j j' =>
                  j' = if (JoinRequest._id j
                           =? JoinRequest._id joinRequest)%nat
                       then lessTwoHours joinRequest else j)
         (joinRequests Sample.store) (joinRequests (fst Office.deleted))
    /\ notifications (fst Office.deleted) = notifications Sample.store
    /\ reports (fst Office.deleted) = reports Sample.store.
Proof.
  exact (lecture_deletion_is_all_or_nothing Office.objectIdOf noFaults
           "64b000000000000000000003" Sample.store (fst Office.deleted)
           (DeleteOk 2 2) sample_store_unique_ids
           sample_store_unique_request_ids sample_deletion).
Defined.

(** The lecture submitted on [Sample.sunday] and deleted again: the
    volunteer's document and Vera's record are back, the lecture-added
    notification is still stored. *)
Lemma deletion_undoes_submission_but_not_its_notifications_witness :
  snd Office.undone = DeleteOk 3 4
  /\ users (fst Office.undone) = users Sample.store
  /\ joinRequests (fst Office.undone) = joinRequests Sample.store
  /\ List.length (notifications (fst Office.undone)) = 1%nat.
Proof.
  destruct (deletion_undoes_submission_but_not_its_notifications
              Office.objectIdOf Desk.accept Desk.accept Desk.anyLength
              Desk.notAString noFaults noFaults
              Sample.sunday 5%nat 7%nat "64b000000000000000000005"
              Sample.lectureBody Sample.store (fst Desk.early)
              (fst Office.undone) (Desk.decimals Sample.sunday) 4 6
              (snd Office.undone) sample_store_unique_ids
              sample_store_unique_request_ids sample_fresh_lecture_id
              eq_refl sample_early_submission (fun _ => eq_refl)
              (surjective_pairing Office.undone))
    as (user & j & Hu & Hj & Hr & Hus & Hjs & _ & Hn & Hn1).
  split; [| split; [exact Hus | split; [exact Hjs |]]].
  - vm_compute in Hu. injection Hu as <-.
    vm_compute in Hj. injection Hj as <-. exact Hr.
  - rewrite Hn, Hn1. reflexivity.
Defined.

(* ===================================================================== *)
(** ** The middlewares *)
(* ===================================================================== *)

End SampleLectureDeletion.

Section RouteAccess.

Context {engine : Engine}.

Lemma replaceFirst_eq (pattern replacement s : string) :
  JsString.replaceFirst pattern replacement s
  = if String.prefix pattern s
    then String.append replacement
           (JsString.dropChars (String.length pattern) s)
    else match s with
         | EmptyString => EmptyString
         | String c r =>
             String c (JsString.replaceFirst pattern replacement r)
         end.
Proof. destruct s; reflexivity. Qed.

Lemma prefix_append (p t : string) : String.prefix p (String.append p t) = true.
Proof.
  induction p as [| c p IH]; simpl.
  - destruct t; reflexivity.
  - destruct (Ascii.ascii_dec c c) as [_ | Hne]; [exact IH |].
    exfalso. apply Hne. reflexivity.
Qed.

Lemma dropChars_append (p t : string) :
  JsString.dropChars (String.length p) (String.append p t) = t.
Proof.
  induction p as [| c p IH]; simpl; [destruct t; reflexivity | exact IH].
Qed.

Lemma replaceFirst_prefixed (p t : string) :
  JsString.replaceFirst p "" (String.append p t) = t.
Proof.
  rewrite replaceFirst_eq, prefix_append, dropChars_append. reflexivity.
Qed.

Lemma replaceFirst_absent (p r s : string) :
  JsString.includes p s = false -> JsString.replaceFirst p r s = s.
Proof.
  induction s as [| c s IH]; intros H; rewrite replaceFirst_eq;
    cbn [JsString.includes] in H; apply orb_false_iff in H;
    destruct H as [Hp Hr]; rewrite Hp; [reflexivity |].
  rewrite IH by exact Hr. reflexivity.
Qed.

Section Access.

Variable verify : string -> option (ObjectId * string).
Variable objectIdOf : string -> option ObjectId.

(** X14. What [authMiddleware] takes for the token. Without the header
    the request is refused. From a header that starts with the scheme
    [Bearer ] the rest is the token; a header in which [Bearer ] does not
    occur is the token as a whole, so the scheme is optional; an empty
    token is refused without being verified. *)
Theorem bearer_scheme_is_optional :
  authMiddleware verify None = None
  /\ (forall token,
         authMiddleware verify (Some (String.append "Bearer " token))
         = if Str.truthy token then verify token else None)
  /\ (forall header,
         JsString.includes "Bearer " header = false ->
         authMiddleware verify (Some header)
         = if Str.truthy header then verify header else None)
  /\ authMiddleware verify (Some "Bearer ") = None
  /\ authMiddleware verify (Some "") = None.
Proof.
  split; [reflexivity |]. split; [| split; [| split; reflexivity]].
  - intros token. unfold authMiddleware. cbv zeta.
    rewrite replaceFirst_prefixed. reflexivity.
  - intros header H. unfold authMiddleware. cbv zeta.
    rewrite replaceFirst_absent by exact H. reflexivity.
Qed.

(** X15. The two administrator routes need an administrator's token.
    When the header carries no token that verifies with the role
    [admin], deleting a lecture and querying the low-lecture members
    change nothing in the store and are answered by a middleware: with
    401 when there is no token or it does not verify, with 403 when it
    verifies with another role. No failing store call and no parameter
    changes that. *)
Theorem admin_routes_need_an_admin_token
    (faults : nat -> option Error) (now : Date)
    (authorization : option string) (param : string) (s : Store) :
  (forall userId,
      authMiddleware verify authorization <> Some (userId, "admin")) ->
  (deleteLectureRoute verify objectIdOf faults authorization param s
   = (s, match authMiddleware verify authorization with
         | Some _ => Forbidden
         | None => Unauthorized
         end))
  /\ (lowLectureMembersRoute verify faults now authorization s
      = (s, match authMiddleware verify authorization with
            | Some _ => Forbidden
            | None => Unauthorized
            end)).
Proof.
  intros Hno. unfold deleteLectureRoute, lowLectureMembersRoute, adminOnly.
  destruct (authMiddleware verify authorization) as [[userId role] |];
    [| split; reflexivity].
  unfold adminMiddleware.
  destruct (String.eqb_spec role "admin") as [-> | Hne].
  - exfalso. apply (Hno userId). reflexivity.
  - split; reflexivity.
Qed.

End Access.

End RouteAccess.

Section SampleRouteAccess.

#[local] Existing Instance Sample.engine.

(** With the token of the volunteer, the request to delete
    [Sample.lectureAfter] is answered with 403 and the sample store is
    untouched; so is the query of the low-lecture members. *)
Lemma admin_routes_need_an_admin_token_witness :
  deleteLectureRoute Office.verify Office.objectIdOf noFaults
    (Some "Bearer volunteer-token") "64b000000000000000000003" Sample.store
  = (Sample.store, Forbidden)
  /\ lowLectureMembersRoute Office.verify noFaults Sample.sunday
       (Some "Bearer volunteer-token") Sample.store
     = (Sample.store, Forbidden).
Proof.
  apply (admin_routes_need_an_admin_token Office.verify Office.objectIdOf
           noFaults Sample.sunday (Some "Bearer volunteer-token")
           "64b000000000000000000003" Sample.store).
  intros userId. vm_compute. discriminate.
Defined.

(* ===================================================================== *)
(** ** The notification routes *)
(* ===================================================================== *)

End SampleRouteAccess.

Section NotificationRoutes.

Context {engine : Engine}.

Lemma insertByDate_perm (d : NotificationDoc.t) (l : list NotificationDoc.t) :
  Permutation (insertByDate d l) (d :: l).
Proof.
  induction l as [| x r IH]; simpl; [apply Permutation_refl |].
  destruct (docCreatedAt x <=? docCreatedAt d).
  - apply Permutation_refl.
  - apply perm_trans with (x :: d :: r);
      [apply perm_skip; exact IH | apply perm_swap].
Qed.

Lemma newestFirst_perm (l : list NotificationDoc.t) :
  Permutation (newestFirst l) l.
Proof.
  induction l as [| d r IH]; simpl; [apply perm_nil |].
  apply perm_trans with (d :: newestFirst r);
    [apply insertByDate_perm | apply perm_skip; exact IH].
Qed.

Lemma insertByDate_sorted (d : NotificationDoc.t)
    (l : list NotificationDoc.t) :
  StronglySorted newestFirstOrder l ->
  StronglySorted newestFirstOrder (insertByDate d l).
Proof.
  induction l as [| x r IH]; simpl; intros Hs.
  - constructor; constructor.
  - pose proof (StronglySorted_inv Hs) as [Hr Hx].
    destruct (docCreatedAt x <=? docCreatedAt d) eqn:E.
    + apply Z.leb_le in E. constructor; [exact Hs |].
      constructor; [exact E |].
      apply Forall_forall. intros y Hy.
      pose proof (proj1 (Forall_forall _ _) Hx y Hy) as Hxy.
      unfold newestFirstOrder in *. lia.
    + apply Z.leb_gt in E. constructor; [apply IH; exact Hr |].
      apply Forall_forall. intros y Hy.
      apply (Permutation_in _ (insertByDate_perm d r)) in Hy.
      destruct Hy as [<- | Hy].
      * unfold newestFirstOrder. lia.
      * exact (proj1 (Forall_forall _ _) Hx y Hy).
Qed.

Lemma newestFirst_sorted (l : list NotificationDoc.t) :
  StronglySorted newestFirstOrder (newestFirst l).
Proof.
  induction l as [| d r IH]; simpl; [constructor |].
  apply insertByDate_sorted. exact IH.
Qed.

Lemma newestFirst_owned (userId : ObjectId) (docs : list NotificationDoc.t)
    (d : NotificationDoc.t) :
  In d (newestFirst (filter (ownedBy userId) docs)) ->
  In d docs /\ docUserId d = userId.
Proof.
  intros H. apply (Permutation_in _ (newestFirst_perm _)) in H.
  apply filter_In in H. destruct H as [Hin Ho].
  apply Nat.eqb_eq in Ho. auto.
Qed.

(** What the populated query is turned into: the owner's view of each
    document when the owner is stored, the error of the first [null]
    owner otherwise. *)
Lemma notificationsJson_owned (users : list User.t) (userId : ObjectId)
    (l : list NotificationDoc.t) :
  (forall d, In d l -> docUserId d = userId) ->
  notificationsJson (map (fun d => (d, findUser (docUserId d) users)) l)
  = match findUser userId users, l with
    | Some owner, _ => Ok (map (shownAs owner) l)
    | None, [] => Ok []
    | None, _ :: _ => Threw nullOwnerError
    end.
Proof.
  induction l as [| d r IH]; intros Hown.
  - destruct (findUser userId users); reflexivity.
  - cbn [map notificationsJson].
    rewrite (Hown d) by (left; reflexivity).
    rewrite IH by (intros y Hy; apply Hown; right; exact Hy).
    destruct (findUser userId users) as [owner |]; reflexivity.
Qed.

Lemma notificationsReply_spec (users : list User.t)
    (docs : list NotificationDoc.t) (userId : ObjectId) :
  notificationsReply (findPopulated users docs userId)
  = match findUser userId users,
          newestFirst (filter (ownedBy userId) docs) with
    | Some owner, shown => NotificationsOk (map (shownAs owner) shown)
    | None, [] => NotificationsOk []
    | None, _ :: _ => NotificationsServerError nullOwnerError
    end.
Proof.
  unfold notificationsReply, findPopulated.
  rewrite (notificationsJson_owned users userId).
  - destruct (findUser userId users);
      [| destruct (newestFirst _)]; reflexivity.
  - intros d Hd. apply (newestFirst_owned _ _ _ Hd).
Qed.

(** X16. The notifications a user is shown. A success reply lists the
    requester's own stored notifications, each once and none of another
    user, from the newest to the oldest, with the stored fields and the
    requester's [_id] and email as [userId]. An error reply carries the
    error of the failed query, or, when the requester's user document is
    not stored while a notification of the requester is, the error of
    reading the [_id] of a [null] owner. *)
Theorem notifications_shown_are_own_newest_first
    (faults : nat -> option Error) (users : list User.t)
    (docs : list NotificationDoc.t) (userId : ObjectId) :
  match getNotifications faults users docs userId with
  | NotificationsOk js =>
      exists shown,
        Permutation shown (filter (ownedBy userId) docs)
        /\ StronglySorted newestFirstOrder shown
        /\ Forall2
             (fun d j =>
                exists owner,
                  findUser userId users = Some owner
                  /\ User._id owner = userId
                  /\ j = shownAs owner d)
             shown js
  | NotificationsServerError e =>
      faults 0%nat = Some e
      \/ (e = nullOwnerError
          /\ findUser userId users = None
          /\ exists d, In d docs /\ docUserId d = userId)
  end.
Proof.
  unfold getNotifications.
  destruct (faults 0%nat) as [e |]; [left; reflexivity |].
  rewrite notificationsReply_spec.
  pose proof (newestFirst_perm (filter (ownedBy userId) docs)) as Hperm.
  pose proof (newestFirst_sorted (filter (ownedBy userId) docs)) as Hsort.
  destruct (findUser userId users) as [owner |] eqn:Hu.
  - exists (newestFirst (filter (ownedBy userId) docs)).
    split; [exact Hperm |]. split; [exact Hsort |].
    destruct (findUser_some _ _ _ Hu) as [_ Hid].
    clear Hperm Hsort.
    induction (newestFirst (filter (ownedBy userId) docs)) as [| d r IH];
      cbn [map]; constructor; [| exact IH].
    exists owner. auto.
  - destruct (newestFirst (filter (ownedBy userId) docs)) as [| d r] eqn:Hn.
    + exists []. split; [exact Hperm |]. split; constructor.
    + right. split; [reflexivity |]. split; [reflexivity |].
      exists d. apply (newestFirst_owned userId docs d).
      rewrite Hn. left. reflexivity.
Qed.

Lemma markRead_read (d : NotificationDoc.t) :
  docRead d = true -> markRead d = d.
Proof.
  destruct d as [i [u m ty ld r c]]. unfold docRead, markRead.
  cbn [NotificationDoc.fields NotificationDoc._id Notification.read
       Notification.userId Notification.message Notification.type
       Notification.lectureDetails Notification.createdAt].
  intros ->. reflexivity.
Qed.

Lemma markAllRead_map (userId : ObjectId) (docs : list NotificationDoc.t) :
  markAllRead userId docs
  = map (fun d => if ownedBy userId d then markRead d else d) docs.
Proof.
  unfold markAllRead. apply map_ext. intros d.
  destruct (ownedBy userId d); [| reflexivity].
  destruct (docRead d) eqn:E; cbn [negb andb]; [| reflexivity].
  symmetry. apply markRead_read. exact E.
Qed.

Lemma ownedBy_markRead (userId : ObjectId) (d : NotificationDoc.t) :
  ownedBy userId (markRead d) = ownedBy userId d.
Proof. reflexivity. Qed.

Lemma filter_owned_markAllRead (userId : ObjectId)
    (docs : list NotificationDoc.t) :
  filter (ownedBy userId) (markAllRead userId docs)
  = map markRead (filter (ownedBy userId) docs).
Proof.
  rewrite markAllRead_map.
  induction docs as [| d r IH]; [reflexivity |]. cbn [map filter].
  destruct (ownedBy userId d) eqn:E.
  - rewrite ownedBy_markRead, E. cbn [map]. rewrite IH. reflexivity.
  - rewrite E. exact IH.
Qed.

Lemma ofOthers_markAllRead (userId : ObjectId)
    (docs : list NotificationDoc.t) :
  ofOthers userId (markAllRead userId docs) = ofOthers userId docs.
Proof.
  rewrite markAllRead_map. unfold ofOthers.
  induction docs as [| d r IH]; [reflexivity |]. cbn [map filter].
  destruct (ownedBy userId d) eqn:E.
  - rewrite ownedBy_markRead, E. cbn [negb]. exact IH.
  - rewrite E. cbn [negb]. rewrite IH. reflexivity.
Qed.

(** X17. Marking as read. When the update fails nothing is written.
    Otherwise every stored notification of the requester is read
    afterwards and differs from the one before in [read] at most, the
    notifications of the other users are as before, and a success reply
    shows the requester's notifications, all read. The update is not
    undone when the query after it fails: that request is answered with
    the error although the notifications are marked. *)
Theorem mark_read_marks_own_notifications_only
    (faults : nat -> option Error) (users : list User.t)
    (docs : list NotificationDoc.t) (userId : ObjectId) :
  let (docs', reply) := markNotificationsRead faults users docs userId in
  match faults 0%nat with
  | Some e => docs' = docs /\ reply = NotificationsServerError e
  | None =>
      Forall2 (fun d d' =>
                 d' = if ownedBy userId d then markRead d else d)
        docs docs'
      /\ (forall d', In d' docs' -> docUserId d' = userId ->
                     docRead d' = true)
      /\ ofOthers userId docs' = ofOthers userId docs
      /\ (forall e, faults 1%nat = Some e ->
                    reply = NotificationsServerError e)
      /\ (forall js, reply = NotificationsOk js ->
                     Forall (fun j => NotificationJson.read j = true
                                      /\ fst (NotificationJson.userId j)
                                         = userId) js
                     /\ Permutation (map NotificationJson._id js)
                          (map NotificationDoc._id
                             (filter (ownedBy userId) docs)))
  end.
Proof.
  unfold markNotificationsRead.
  destruct (faults 0%nat) as [e0 |]; [split; reflexivity |].
  assert (Hall : Forall2 (fun d d' =>
                            d' = if ownedBy userId d then markRead d else d)
                   docs (markAllRead userId docs)).
  { rewrite markAllRead_map. apply Forall2_map_self. intros d _.
    reflexivity. }
  assert (Hread : forall d', In d' (markAllRead userId docs) ->
                             docUserId d' = userId -> docRead d' = true).
  { intros d' Hin Hown. rewrite markAllRead_map in Hin.
    apply in_map_iff in Hin. destruct Hin as (d & <- & _).
    destruct (ownedBy userId d) eqn:E; [reflexivity |].
    unfold ownedBy in E. apply Nat.eqb_neq in E. contradiction. }
  destruct (faults 1%nat) as [e1 |].
  - split; [exact Hall |]. split; [exact Hread |].
    split; [apply ofOthers_markAllRead |]. split.
    + intros e He. injection He as <-. reflexivity.
    + intros js Hjs. discriminate.
  - split; [exact Hall |]. split; [exact Hread |].
    split; [apply ofOthers_markAllRead |]. split; [discriminate |].
    intros js Hjs. rewrite notificationsReply_spec in Hjs.
    pose proof (newestFirst_perm
                  (filter (ownedBy userId) (markAllRead userId docs)))
      as Hperm.
    assert (Hshown : forall d,
               In d (newestFirst (filter (ownedBy userId)
                                    (markAllRead userId docs))) ->
               docRead d = true).
    { intros d Hd. destruct (newestFirst_owned _ _ _ Hd) as [Hin Hown].
      apply Hread; assumption. }
    assert (Hids : Permutation
                     (map NotificationDoc._id
                        (newestFirst (filter (ownedBy userId)
                                        (markAllRead userId docs))))
                     (map NotificationDoc._id
                        (filter (ownedBy userId) docs))).
    { apply perm_trans
        with (map NotificationDoc._id
                (filter (ownedBy userId) (markAllRead userId docs))).
      - apply Permutation_map. exact Hperm.
      - rewrite filter_owned_markAllRead, map_map. apply Permutation_refl. }
    destruct (findUser userId users) as [owner |] eqn:Hu.
    + injection Hjs as <-.
      destruct (findUser_some _ _ _ Hu) as [_ Hid].
      split.
      * apply Forall_forall. intros j Hj. apply in_map_iff in Hj.
        destruct Hj as (d & <- & Hd). split; [| exact Hid].
        apply Hshown. exact Hd.
      * rewrite map_map. exact Hids.
    + destruct (newestFirst _) as [| d r]; [| discriminate].
      injection Hjs as <-. split; [constructor | exact Hids].
Qed.

Lemma deleteOneById_filter (id : ObjectId) (docs : list NotificationDoc.t) :
  uniqueNotificationIds docs ->
  deleteOneById id docs
  = filter (fun d => negb (NotificationDoc._id d =? id)%nat) docs.
Proof.
  unfold uniqueNotificationIds.
  induction docs as [| d r IH]; simpl; intros Hnd; [reflexivity |].
  pose proof (NoDup_cons_iff (NotificationDoc._id d)
                (map NotificationDoc._id r)) as [Hsplit _].
  destruct (Hsplit Hnd) as [Hfresh Hrest].
  destruct (NotificationDoc._id d =? id)%nat eqn:E; cbn [negb].
  - apply Nat.eqb_eq in E. symmetry.
    rewrite <- (filter_ext_in (fun _ => true)).
    + clear. induction r as [| x r IH]; simpl; [| rewrite IH]; reflexivity.
    + intros x Hx. symmetry. apply negb_true_iff. apply Nat.eqb_neq.
      intros Heq. apply Hfresh. rewrite E, <- Heq. apply in_map. exact Hx.
  - rewrite IH by exact Hrest. reflexivity.
Qed.

Lemma same_id_same_notification (docs : list NotificationDoc.t)
    (a b : NotificationDoc.t) :
  uniqueNotificationIds docs -> In a docs -> In b docs ->
  NotificationDoc._id a = NotificationDoc._id b -> a = b.
Proof.
  unfold uniqueNotificationIds.
  induction docs as [| y r IH]; simpl; intros Hnd Ha Hb Heq;
    [destruct Ha |].
  pose proof (NoDup_cons_iff (NotificationDoc._id y)
                (map NotificationDoc._id r)) as [Hsplit _].
  destruct (Hsplit Hnd) as [Hfresh Hrest].
  destruct Ha as [-> | Ha], Hb as [-> | Hb]; [reflexivity | | |].
  - exfalso. apply Hfresh. rewrite Heq. apply in_map. exact Hb.
  - exfalso. apply Hfresh. rewrite <- Heq. apply in_map. exact Ha.
  - apply IH; assumption.
Qed.

Lemma filter_kept {A : Type} (p q : A -> bool) (l : list A) :
  (forall x, In x l -> q x = true -> p x = true) ->
  filter q (filter p l) = filter q l.
Proof.
  induction l as [| x r IH]; simpl; intros H; [reflexivity |].
  assert (Hr : filter q (filter p r) = filter q r)
    by (apply IH; intros y Hy; apply H; right; exact Hy).
  destruct (q x) eqn:Hq.
  - rewrite (H x) by auto. simpl. rewrite Hq, Hr. reflexivity.
  - destruct (p x); simpl; [rewrite Hq |]; exact Hr.
Qed.

Section NotificationDeletion.

Variable objectIdOf : string -> option ObjectId.

(** X18. A user deletes own notifications only. With unique notification
    [_id]s: a success reply means that the parameter is the ObjectId of a
    stored notification of the requester, and exactly that document is
    gone; with any other reply nothing is written, and a 500 carries the
    error of a failed store call. In every case the notifications of the
    other users are as before. *)
Theorem notification_deletion_is_owner_only
    (faults : nat -> option Error) (docs docs' : list NotificationDoc.t)
    (userId : ObjectId) (idParam : string)
    (reply : DeleteNotificationReply) :
  uniqueNotificationIds docs ->
  deleteNotification objectIdOf faults docs userId idParam = (docs', reply) ->
  match reply with
  | NotificationDeleted =>
      exists notificationId d,
        objectIdOf idParam = Some notificationId
        /\ In d docs
        /\ NotificationDoc._id d = notificationId
        /\ docUserId d = userId
        /\ docs' = filter (fun x => negb (NotificationDoc._id x
                                          =? notificationId)%nat) docs
        /\ (forall x, In x docs' <-> In x docs /\ x <> d)
  | NotificationServerError e => docs' = docs /\ exists k, faults k = Some e
  | NotificationBadRequest => docs' = docs
  | NotificationNotFound => docs' = docs
  end
  /\ ofOthers userId docs' = ofOthers userId docs.
Proof.
  intros Hnd. unfold deleteNotification.
  destruct (objectIdOf idParam) as [notificationId |].
  2: { intros H. injection H as <- <-. split; reflexivity. }
  destruct (faults 0%nat) as [e0 |] eqn:Hf0.
  { intros H. injection H as <- <-.
    split; [split; [reflexivity | exists 0%nat; exact Hf0] | reflexivity]. }
  destruct (find _ docs) as [d |] eqn:Hd.
  2: { intros H. injection H as <- <-. split; reflexivity. }
  destruct (faults 1%nat) as [e1 |] eqn:Hf1.
  { intros H. injection H as <- <-.
    split; [split; [reflexivity | exists 1%nat; exact Hf1] | reflexivity]. }
  intros H. injection H as <- <-.
  apply find_some in Hd. destruct Hd as [Hin Hd].
  apply andb_true_iff in Hd. destruct Hd as [Hid Hown].
  apply Nat.eqb_eq in Hid.
  rewrite (deleteOneById_filter _ _ Hnd).
  split.
  - exists notificationId, d.
    split; [reflexivity |]. split; [exact Hin |]. split; [exact Hid |].
    split; [apply Nat.eqb_eq; exact Hown |]. split; [reflexivity |].
    intros x. rewrite filter_In, negb_true_iff, Nat.eqb_neq.
    split; intros [Hx Hne]; (split; [exact Hx |]).
    + intros ->. contradiction.
    + intros Heq. apply Hne.
      apply (same_id_same_notification docs x d Hnd Hx Hin). congruence.
  - unfold ofOthers. apply filter_kept. intros x Hx Ho.
    apply negb_true_iff in Ho. apply negb_true_iff. apply Nat.eqb_neq.
    intros E.
    assert (x = d) by (apply (same_id_same_notification docs x d Hnd Hx Hin);
                       congruence).
    subst x. rewrite Hown in Ho. discriminate.
Qed.

End NotificationDeletion.

End NotificationRoutes.

Section SampleNotificationRoutes.

#[local] Existing Instance Sample.engine.

Lemma sample_inbox_unique_ids : uniqueNotificationIds Office.inbox.
Proof.
  unfold uniqueNotificationIds. repeat constructor; simpl;
    intuition discriminate.
Qed.

(** The volunteer deletes the warning with the [_id] 3 from the sample
    inbox: the two other notifications remain, the one of the idle
    volunteer among them. *)
Lemma notification_deletion_is_owner_only_witness :
  List.length (fst Office.cleared) = 2%nat
  /\ ofOthers 7%nat (fst Office.cleared) = ofOthers 7%nat Office.inbox.
Proof.
  destruct (notification_deletion_is_owner_only Office.objectIdOf noFaults
              Office.inbox (fst Office.cleared) 7%nat
              "64b000000000000000000003" NotificationDeleted
              sample_inbox_unique_ids)
    as [(id & d & Hid & _ & _ & _ & Hdocs & _) Hothers].
  - vm_compute. reflexivity.
  - split; [| exact Hothers].
    rewrite Hdocs. vm_compute in Hid. injection Hid as <-. reflexivity.
Defined.
End SampleNotificationRoutes.

